(** * pawsync: the signed OAuth state and the activity mirror

    A shallow embedding of the three edge functions of the repository and of
    the platform functions they call:

    - [OAuthAuthorize]  (src/unnamed/part_002)  builds the signed state;
    - [OAuthCallback]   (src/unnamed/part_000)  verifies it, exchanges the
      code and stores the connection;
    - [MirrorActivity]  (src/unnamed/part_001)  refreshes tokens, writes the
      GPX track and keeps the mirror record.

    Part I is the model, Part II the vocabulary of the statements, Part III
    the lemmas and theorems.

    Conventions.  A JavaScript string is a [string] holding the bytes of its
    UTF-8 form, so [TextEncoder.encode] reads the bytes off and
    [TextDecoder.decode] is the WHATWG decoder with U+FFFD replacement.  A
    [Uint8Array] is a [list byte].  Integers (epoch seconds, ids, stream
    offsets) are [Z]; a thrown exception is the [Throw] case of [result]. *)

From Stdlib Require Import ZArith NArith List String Ascii Bool Lia.
From Stdlib Require Import DecimalString DecimalPos DecimalZ DecimalFacts.
From Stdlib.Strings Require Import Byte.
Import ListNotations.

#[local] Set Warnings "-register-all".
Local Open Scope string_scope.
Local Open Scope Z_scope.

(* ================================================================== *)
(** * Part I.  The model                                              *)
(* ================================================================== *)

(** ** Exceptions and results *)

Inductive Exception :=
| Error (message : string)
| TypeError
| SyntaxError
| RangeError
| InvalidCharacterError
| NetworkError.

Inductive result (A : Type) :=
| Ok (value : A)
| Throw (e : Exception).

Arguments Ok {A} value.
Arguments Throw {A} e.

Definition bind {A B : Type} (r : result A) (k : A -> result B) : result B :=
  match r with
  | Ok a => k a
  | Throw e => Throw e
  end.

Notation "'let*' x ':=' r 'in' k" := (bind r (fun x => k))
  (at level 10, x pattern, r at level 100, k at level 200).

(** ** Platform functions: strings, bytes, base64, text encoding *)

Module JS.

Definition Uint8Array := list byte.

Definition byte_to_Z (b : byte) : Z := Z.of_N (Byte.to_N b).

Definition byte_of_Z (z : Z) : byte :=
  match Byte.of_N (Z.to_N z) with
  | Some b => b
  | None => x00
  end.

Definition char_code (c : ascii) : Z := Z.of_N (N_of_ascii c).

Definition char_of_code (z : Z) : ascii := ascii_of_N (Z.to_N z).

Definition dquote : string := String "034" EmptyString.

Definition newline : string := String "010" EmptyString.

(** [s.replace(/c/g, r)] for a one-character pattern. *)
Fixpoint replaceAll (c : ascii) (r : string) (s : string) : string :=
  match s with
  | EmptyString => EmptyString
  | String x s' =>
      if Ascii.eqb x c then r ++ replaceAll c r s'
      else String x (replaceAll c r s')
  end.

(** [s.split(sep)] for a one-character separator: never the empty array. *)
Fixpoint split (sep : ascii) (s : string) : list string :=
  match s with
  | EmptyString => [EmptyString]
  | String c r =>
      if Ascii.eqb c sep then EmptyString :: split sep r
      else
        match split sep r with
        | h :: t => String c h :: t
        | [] => [String c EmptyString]
        end
  end.

(** [!x] for a value that is a string or [undefined]. *)
Definition falsy (x : option string) : bool :=
  match x with
  | None => true
  | Some EmptyString => true
  | Some _ => false
  end.

Fixpoint repeat_string (s : string) (n : nat) : string :=
  match n with
  | O => EmptyString
  | S n' => s ++ repeat_string s n'
  end.

(** [hay.includes(needle)]. *)
Fixpoint includes (hay needle : string) : bool :=
  String.prefix needle hay
  || match hay with
     | EmptyString => false
     | String _ r => includes r needle
     end.

Fixpoint contains (c : ascii) (s : string) : bool :=
  match s with
  | EmptyString => false
  | String x r => Ascii.eqb x c || contains c r
  end.

(** *** base64 (RFC 4648), as [btoa] and [atob] have it *)

Definition base64_alphabet : string :=
  "ABCDEFGHIJKLMNOPQRSTUVWXYZabcdefghijklmnopqrstuvwxyz0123456789+/".

Definition base64_char (v : Z) : ascii :=
  match String.get (Z.to_nat v) base64_alphabet with
  | Some c => c
  | None => "="%char
  end.

Fixpoint index_from (i : Z) (c : ascii) (s : string) : option Z :=
  match s with
  | EmptyString => None
  | String x s' => if Ascii.eqb x c then Some i else index_from (i + 1) c s'
  end.

Definition base64_value (c : ascii) : option Z := index_from 0 c base64_alphabet.

Fixpoint sextets_of_bytes (l : list byte) : list Z :=
  match l with
  | b0 :: b1 :: b2 :: r =>
      let n := byte_to_Z b0 * 65536 + byte_to_Z b1 * 256 + byte_to_Z b2 in
      n / 262144 :: (n / 4096) mod 64 :: (n / 64) mod 64 :: n mod 64
        :: sextets_of_bytes r
  | [b0; b1] =>
      let n := byte_to_Z b0 * 65536 + byte_to_Z b1 * 256 in
      [n / 262144; (n / 4096) mod 64; (n / 64) mod 64]
  | [b0] =>
      let n := byte_to_Z b0 * 65536 in
      [n / 262144; (n / 4096) mod 64]
  | [] => []
  end.

Fixpoint bytes_of_sextets (l : list Z) : list byte :=
  match l with
  | s0 :: s1 :: s2 :: s3 :: r =>
      let n := s0 * 262144 + s1 * 4096 + s2 * 64 + s3 in
      byte_of_Z (n / 65536) :: byte_of_Z ((n / 256) mod 256)
        :: byte_of_Z (n mod 256) :: bytes_of_sextets r
  | [s0; s1; s2] =>
      let n := s0 * 262144 + s1 * 4096 + s2 * 64 in
      [byte_of_Z (n / 65536); byte_of_Z ((n / 256) mod 256)]
  | [s0; s1] =>
      let n := s0 * 262144 + s1 * 4096 in
      [byte_of_Z (n / 65536)]
  | _ => []
  end.

Fixpoint base64_chars (l : list Z) : string :=
  match l with
  | [] => EmptyString
  | v :: r => String (base64_char v) (base64_chars r)
  end.

Fixpoint base64_values (s : string) : option (list Z) :=
  match s with
  | EmptyString => Some []
  | String c r =>
      match base64_value c, base64_values r with
      | Some v, Some vs => Some (v :: vs)
      | _, _ => None
      end
  end.

(** [String.fromCharCode.apply(null, Array.from(data))]: the binary string
    whose char codes are the bytes.  A binary string, the argument of [btoa]
    and the result of [atob], holds one character per byte. *)
Definition String_fromCharCode (data : Uint8Array) : string :=
  string_of_list_byte data.

(** [Array.from(s, c => c.charCodeAt(0))] on a binary string. *)
Definition charCodes (s : string) : Uint8Array := list_byte_of_string s.

Definition btoa (s : string) : string :=
  let chars := base64_chars (sextets_of_bytes (charCodes s)) in
  chars ++ repeat_string "=" ((4 - String.length chars mod 4) mod 4).

Definition ascii_whitespace (c : ascii) : bool :=
  let n := N_of_ascii c in
  (n =? 9)%N || (n =? 10)%N || (n =? 12)%N || (n =? 13)%N || (n =? 32)%N.

Fixpoint remove_whitespace (s : string) : string :=
  match s with
  | EmptyString => EmptyString
  | String c r =>
      if ascii_whitespace c then remove_whitespace r
      else String c (remove_whitespace r)
  end.

Fixpoint strip_padding (s : string) : string :=
  match s with
  | EmptyString => EmptyString
  | String "=" EmptyString => EmptyString
  | String "=" (String "=" EmptyString) => EmptyString
  | String c r => String c (strip_padding r)
  end.

(** [atob]: the forgiving-base64 decode of the HTML standard.  It throws
    [InvalidCharacterError] on a length of 1 modulo 4 and on any character
    outside the alphabet. *)
Definition atob (s : string) : result string :=
  let s1 := remove_whitespace s in
  let s2 := if (String.length s1 mod 4 =? 0)%nat then strip_padding s1 else s1 in
  if (String.length s2 mod 4 =? 1)%nat then Throw InvalidCharacterError
  else
    match base64_values s2 with
    | Some vs => Ok (String_fromCharCode (bytes_of_sextets vs))
    | None => Throw InvalidCharacterError
    end.

(** *** TextEncoder and TextDecoder (UTF-8) *)

Definition TextEncoder_encode (s : string) : Uint8Array := list_byte_of_string s.

Definition between (lo hi : Z) (b : byte) : bool :=
  (lo <=? byte_to_Z b) && (byte_to_Z b <=? hi).

(** U+FFFD in UTF-8. *)
Definition replacement : list byte := [xef; xbf; xbd].

Inductive lead_result :=
| Emit (out : list byte)
| Expect (needed : nat) (lower upper : Z).

(** What the WHATWG decoder does with a byte when no sequence is open. *)
Definition lead (b : byte) : lead_result :=
  if between 0 127 b then Emit [b]
  else if between 194 223 b then Expect 1 128 191
  else if between 224 239 b then
    Expect 2 (if between 224 224 b then 160 else 128)
             (if between 237 237 b then 159 else 191)
  else if between 240 244 b then
    Expect 3 (if between 240 240 b then 144 else 128)
             (if between 244 244 b then 143 else 191)
  else Emit replacement.

(** The decoder's loop.  [seen] holds the bytes of the open sequence and
    [needed] how many are still to come; a byte outside [lower..upper] closes
    the sequence with U+FFFD and is read again as a lead byte. *)
Fixpoint utf8_decode (seen : list byte) (needed : nat) (lower upper : Z)
    (input : list byte) : list byte :=
  match input with
  | [] => match needed with O => [] | S _ => replacement end
  | b :: rest =>
      let fresh :=
        match lead b with
        | Emit out => (out ++ utf8_decode [] 0 128 191 rest)%list
        | Expect n lo hi => utf8_decode [b] n lo hi rest
        end in
      match needed with
      | O => fresh
      | S n =>
          if between lower upper b then
            match n with
            | O => (seen ++ b :: utf8_decode [] 0 128 191 rest)%list
            | S _ => utf8_decode (seen ++ [b]) n 128 191 rest
            end
          else (replacement ++ fresh)%list
      end
  end.

Definition strip_bom (input : list byte) : list byte :=
  match input with
  | xef :: xbb :: xbf :: rest => rest
  | _ => input
  end.

(** [new TextDecoder().decode(data)]: UTF-8, not fatal, byte order mark
    dropped. *)
Definition TextDecoder_decode (data : Uint8Array) : string :=
  string_of_list_byte (utf8_decode [] 0 128 191 (strip_bom data)).

(** Well-formed UTF-8 (Unicode, table 3-7): the strings that stand for a
    JavaScript string of scalar values. *)
Fixpoint utf8_valid (l : list byte) : bool :=
  match l with
  | [] => true
  | b0 :: r0 =>
      match lead b0 with
      | Emit _ => between 0 127 b0 && utf8_valid r0
      | Expect 1 lo hi =>
          match r0 with
          | b1 :: r1 => between lo hi b1 && utf8_valid r1
          | _ => false
          end
      | Expect 2 lo hi =>
          match r0 with
          | b1 :: b2 :: r2 =>
              between lo hi b1 && between 128 191 b2 && utf8_valid r2
          | _ => false
          end
      | Expect _ lo hi =>
          match r0 with
          | b1 :: b2 :: b3 :: r3 =>
              between lo hi b1 && between 128 191 b2 && between 128 191 b3
              && utf8_valid r3
          | _ => false
          end
      end
  end.

Definition well_formed (s : string) : bool := utf8_valid (list_byte_of_string s).

End JS.

(** ** crypto.subtle: SHA-256 (FIPS 180-4) and HMAC (RFC 2104) *)

Module WebCrypto.
Import JS.

(** The low 32 bits. *)
Definition word (x : Z) : Z := Z.land x 4294967295.

Definition rotr (n x : Z) : Z :=
  word (Z.lor (Z.shiftr x n) (Z.shiftl x (32 - n))).

Definition is_prime (n : nat) : bool :=
  (2 <=? n)%nat
  && forallb (fun d => negb (n mod d =? 0)%nat) (seq 2 (n - 2)).

Definition primes (count : nat) : list Z :=
  map Z.of_nat (firstn count (filter is_prime (seq 2 320))).

(** Floor of the cube root, by bisection on [lo, lo + 2^bits). *)
Fixpoint cube_root (bits : nat) (lo n : Z) : Z :=
  match bits with
  | O => lo
  | S b =>
      let mid := lo + 2 ^ Z.of_nat b in
      if mid * mid * mid <=? n then cube_root b mid n else cube_root b lo n
  end.

(** The first 32 bits of the fractional parts of the square roots of the
    first 8 primes. *)
Definition initial_hash : list Z :=
  Eval vm_compute in map (fun p => word (Z.sqrt (p * 2 ^ 64))) (primes 8).

(** The first 32 bits of the fractional parts of the cube roots of the
    first 64 primes. *)
Definition round_constants : list Z :=
  Eval vm_compute in
    map (fun p => word (cube_root 40 0 (p * 2 ^ 96))) (primes 64).

Definition Ch (x y z : Z) : Z :=
  Z.lxor (Z.land x y) (Z.land (word (Z.lnot x)) z).

Definition Maj (x y z : Z) : Z :=
  Z.lxor (Z.lxor (Z.land x y) (Z.land x z)) (Z.land y z).

Definition Sigma0 (x : Z) : Z :=
  Z.lxor (Z.lxor (rotr 2 x) (rotr 13 x)) (rotr 22 x).

Definition Sigma1 (x : Z) : Z :=
  Z.lxor (Z.lxor (rotr 6 x) (rotr 11 x)) (rotr 25 x).

Definition sigma0 (x : Z) : Z :=
  Z.lxor (Z.lxor (rotr 7 x) (rotr 18 x)) (Z.shiftr x 3).

Definition sigma1 (x : Z) : Z :=
  Z.lxor (Z.lxor (rotr 17 x) (rotr 19 x)) (Z.shiftr x 10).

Fixpoint be_bytes (n : nat) (x : Z) : list byte :=
  match n with
  | O => []
  | S n' => byte_of_Z ((x / 256 ^ Z.of_nat n') mod 256) :: be_bytes n' x
  end.

Definition be_word (bs : list byte) : Z :=
  fold_left (fun acc b => acc * 256 + byte_to_Z b) bs 0.

Definition pad (msg : list byte) : list byte :=
  let len := Z.of_nat (List.length msg) in
  let zeros := Z.to_nat ((55 - len) mod 64) in
  (msg ++ byte_of_Z 128 :: repeat x00 zeros ++ be_bytes 8 (8 * len))%list.

Fixpoint chunks (fuel size : nat) (l : list byte) : list (list byte) :=
  match fuel, l with
  | O, _ | _, [] => []
  | S fuel', _ => firstn size l :: chunks fuel' size (skipn size l)
  end.

Fixpoint schedule (steps : nat) (w : list Z) : list Z :=
  match steps with
  | O => w
  | S steps' =>
      let t := List.length w in
      let at_ k := nth (t - k) w 0 in
      schedule steps'
        (w ++ [word (sigma1 (at_ 2%nat) + at_ 7%nat
                     + sigma0 (at_ 15%nat) + at_ 16%nat)])%list
  end.

Definition round (st : list Z) (kw : Z * Z) : list Z :=
  match st with
  | [a; b; c; d; e; f; g; h] =>
      let t1 := h + Sigma1 e + Ch e f g + fst kw + snd kw in
      let t2 := Sigma0 a + Maj a b c in
      [word (t1 + t2); a; b; c; word (d + t1); e; f; g]
  | _ => st
  end.

Definition compress (h : list Z) (block : list byte) : list Z :=
  let w := schedule 48 (map be_word (chunks 16 4 block)) in
  let st := fold_left round (combine round_constants w) h in
  map (fun p => word (fst p + snd p)) (combine h st).

Definition sha256 (msg : list byte) : list byte :=
  let padded := pad msg in
  let h :=
    fold_left compress (chunks (List.length padded) 64 padded) initial_hash in
  flat_map (be_bytes 4) h.

Definition xor_pad (c : Z) (key : list byte) : list byte :=
  map (fun b => byte_of_Z (Z.lxor (byte_to_Z b) c)) key.

(** [crypto.subtle.importKey('raw', key, {name: 'HMAC', hash: 'SHA-256'})]
    followed by [crypto.subtle.sign('HMAC', key, msg)]. *)
Definition sign_HMAC (key msg : Uint8Array) : Uint8Array :=
  let k := if (64 <? List.length key)%nat then sha256 key else key in
  let k := (k ++ repeat x00 (64 - List.length k))%list in
  sha256 (xor_pad 92 k ++ sha256 (xor_pad 54 k ++ msg))%list.

End WebCrypto.

(** ** JSON.stringify and JSON.parse, and the coercions of the language *)

Module JSON.
Import JS.

(** A JSON value.  A number is kept by its exact decimal value:
    [JNumber n] when it is an integer, and [JDecimal m e], that is
    [m * 10 ^ e] with [e < 0] and [m] not a multiple of ten, when it is not.
    The rounding of a literal to a double, which shows from the sixteenth
    significant digit on, is outside the model.  The fields of an object are
    kept in the order written. *)
Inductive json :=
| JNull
| JBool (b : bool)
| JNumber (n : Z)
| JDecimal (m e : Z)
| JString (s : string)
| JArray (items : list json)
| JObject (fields : list (string * json)).

(** A JavaScript value read out of parsed JSON: [None] is [undefined]. *)
Definition jsvalue := option json.

Definition hex_digit (v : Z) : ascii :=
  if v <? 10 then char_of_code (48 + v) else char_of_code (87 + v).

(** QuoteJSONString, one character at a time. *)
Definition quote_char (c : ascii) : string :=
  let n := char_code c in
  if n =? 8 then "\b" else if n =? 9 then "\t" else if n =? 10 then "\n"
  else if n =? 12 then "\f" else if n =? 13 then "\r"
  else if n =? 34 then String "\" (String c "")
  else if n =? 92 then "\\"
  else if n <? 32 then
    "\u00" ++ String (hex_digit (n / 16)) (String (hex_digit (n mod 16)) "")
  else String c "".

Fixpoint quote_chars (s : string) : string :=
  match s with
  | EmptyString => EmptyString
  | String c r => quote_char c ++ quote_chars r
  end.

Definition quote (s : string) : string :=
  String "034" (quote_chars s ++ dquote).

(** Number::toString on an integer below 10^21: its decimal digits. *)
Definition Number_toString (n : Z) : string :=
  NilZero.string_of_int (Z.to_int n).

Fixpoint zeros (n : nat) : string :=
  match n with
  | O => EmptyString
  | S k => String "0" (zeros k)
  end.

(** Number::toString on a number that is not an integer, from its decimal
    digits and the place [n] of the decimal point among them. *)
Definition Decimal_toString (m e : Z) : string :=
  let s := Number_toString (Z.abs m) in
  let k := Z.of_nat (String.length s) in
  let n := k + e in
  (if m <? 0 then "-" else "")
  ++ (if (0 <? n) && (n <=? 21)
      then substring 0 (Z.to_nat n) s ++ "."
           ++ substring (Z.to_nat n) (Z.to_nat (k - n)) s
      else if (-6 <? n) && (n <=? 0)
      then "0." ++ zeros (Z.to_nat (- n)) ++ s
      else
        substring 0 1 s
        ++ (if k =? 1 then "" else "." ++ substring 1 (Z.to_nat (k - 1)) s)
        ++ "e" ++ (if n - 1 <? 0 then "-" else "+")
        ++ Number_toString (Z.abs (n - 1))).

Fixpoint join (sep : string) (l : list string) : string :=
  match l with
  | [] => ""
  | [x] => x
  | x :: r => x ++ sep ++ join sep r
  end.

Fixpoint stringify (v : json) : string :=
  match v with
  | JNull => "null"
  | JBool true => "true"
  | JBool false => "false"
  | JNumber n => Number_toString n
  | JDecimal m e => Decimal_toString m e
  | JString s => quote s
  | JArray items => "[" ++ join "," (map stringify items) ++ "]"
  | JObject fields =>
      "{" ++ join ","
               (map (fun kv => quote (fst kv) ++ ":" ++ stringify (snd kv)) fields)
      ++ "}"
  end.

Definition is_ws (c : ascii) : bool :=
  let n := char_code c in
  (n =? 32) || (n =? 9) || (n =? 10) || (n =? 13).

Fixpoint skip_ws (s : string) : string :=
  match s with
  | String c r => if is_ws c then skip_ws r else s
  | EmptyString => s
  end.

Definition hex_value (c : ascii) : option Z :=
  let n := char_code c in
  if (48 <=? n) && (n <=? 57) then Some (n - 48)
  else if (97 <=? n) && (n <=? 102) then Some (n - 87)
  else if (65 <=? n) && (n <=? 70) then Some (n - 55)
  else None.

Definition hex4 (s : string) : option (Z * string) :=
  match s with
  | String a (String b (String c (String d r))) =>
      match hex_value a, hex_value b, hex_value c, hex_value d with
      | Some x, Some y, Some z, Some w =>
          Some (((x * 16 + y) * 16 + z) * 16 + w, r)
      | _, _, _, _ => None
      end
  | _ => None
  end.

Definition utf8_of_code_point (cp : Z) : string :=
  if cp <? 128 then String (char_of_code cp) ""
  else if cp <? 2048 then
    String (char_of_code (192 + cp / 64))
      (String (char_of_code (128 + cp mod 64)) "")
  else if cp <? 65536 then
    String (char_of_code (224 + cp / 4096))
      (String (char_of_code (128 + (cp / 64) mod 64))
         (String (char_of_code (128 + cp mod 64)) ""))
  else
    String (char_of_code (240 + cp / 262144))
      (String (char_of_code (128 + (cp / 4096) mod 64))
         (String (char_of_code (128 + (cp / 64) mod 64))
            (String (char_of_code (128 + cp mod 64)) ""))).

Definition is_high_surrogate (u : Z) : bool := (55296 <=? u) && (u <=? 56319).

Definition is_low_surrogate (u : Z) : bool := (56320 <=? u) && (u <=? 57343).

(** The text of a [\uXXXX] escape whose digits gave [u], and what is left
    of the input.  A surrogate pair is one code point; a surrogate on its
    own has no UTF-8 form and is written U+FFFD, as [TextEncoder] writes it
    when the string is next encoded. *)
Definition unicode_escape (u : Z) (r : string) : string * string :=
  if is_high_surrogate u then
    match r with
    | String "\" (String "u" r') =>
        match hex4 r' with
        | Some (lo, r'') =>
            if is_low_surrogate lo
            then (utf8_of_code_point
                    (65536 + (u - 55296) * 1024 + (lo - 56320)), r'')
            else (utf8_of_code_point 65533, r)
        | None => (utf8_of_code_point 65533, r)
        end
    | _ => (utf8_of_code_point 65533, r)
    end
  else if is_low_surrogate u then (utf8_of_code_point 65533, r)
  else (utf8_of_code_point u, r).

(** The characters of a JSON string, after its opening quote. *)
Fixpoint parse_chars (fuel : nat) (s : string) : option (string * string) :=
  match fuel with
  | O => None
  | S fuel' =>
      match s with
      | EmptyString => None
      | String "034" r => Some ("", r)
      | String "\" EmptyString => None
      | String "\" (String e r) =>
          let continue (out : string) (rest : string) :=
            match parse_chars fuel' rest with
            | Some (t, rest') => Some (out ++ t, rest')
            | None => None
            end in
          let n := char_code e in
          if n =? 34 then continue dquote r
          else if n =? 92 then continue "\" r
          else if n =? 47 then continue "/" r
          else if n =? 98 then continue (String (char_of_code 8) "") r
          else if n =? 102 then continue (String (char_of_code 12) "") r
          else if n =? 110 then continue (String (char_of_code 10) "") r
          else if n =? 114 then continue (String (char_of_code 13) "") r
          else if n =? 116 then continue (String (char_of_code 9) "") r
          else if n =? 117 then
            match hex4 r with
            | Some (u, r') =>
                let (out, rest) := unicode_escape u r' in continue out rest
            | None => None
            end
          else None
      | String c r =>
          if char_code c <? 32 then None
          else
            match parse_chars fuel' r with
            | Some (t, rest') => Some (String c t, rest')
            | None => None
            end
      end
  end.

Definition is_digit (c : ascii) : bool :=
  (48 <=? char_code c) && (char_code c <=? 57).

Fixpoint digits (s : string) (acc : Z) : Z * string :=
  match s with
  | String c r =>
      if is_digit c then digits r (acc * 10 + (char_code c - 48)) else (acc, s)
  | EmptyString => (acc, s)
  end.

(** [int] of the JSON grammar: 0, or a non-zero digit and more digits. *)
Definition parse_int (s : string) : option (Z * string) :=
  match s with
  | String c r =>
      if negb (is_digit c) then None
      else if char_code c =? 48 then
        match r with
        | String d _ => if is_digit d then None else Some (0, r)
        | EmptyString => Some (0, r)
        end
      else Some (digits s 0)
  | EmptyString => None
  end.

Definition starts_fraction_or_exponent (s : string) : bool :=
  match s with
  | String c _ => let n := char_code c in (n =? 46) || (n =? 101) || (n =? 69)
  | EmptyString => false
  end.

(** The digits of a fraction, added to the digits before the point: the
    digits read as one integer, the number of digits of the fraction, and
    what follows. *)
Fixpoint fraction (s : string) (acc : Z) (count : Z) : Z * Z * string :=
  match s with
  | String c r =>
      if is_digit c
      then fraction r (acc * 10 + (char_code c - 48)) (count + 1)
      else (acc, count, s)
  | EmptyString => (acc, count, s)
  end.

(** [frac] of the grammar, when there is one: a point and at least one
    digit. *)
Definition parse_frac (n : Z) (s : string) : option (Z * Z * string) :=
  match s with
  | String "." r =>
      match r with
      | String d _ => if is_digit d then Some (fraction r n 0) else None
      | EmptyString => None
      end
  | _ => Some (n, 0, s)
  end.

(** [exp] of the grammar, when there is one: [e] or [E], a sign or none, and
    at least one digit. *)
Definition parse_exp (s : string) : option (Z * string) :=
  match s with
  | String c r =>
      if (char_code c =? 101) || (char_code c =? 69) then
        let (negative, r1) :=
          match r with
          | String "-" r' => (true, r')
          | String "+" r' => (false, r')
          | _ => (false, r)
          end in
        match r1 with
        | String d _ =>
            if is_digit d
            then let (x, rest) := digits r1 0 in
                 Some (if negative then - x else x, rest)
            else None
        | EmptyString => None
        end
      else Some (0, s)
  | EmptyString => Some (0, s)
  end.

Fixpoint strip_zeros (fuel : nat) (m e : Z) : json :=
  match fuel with
  | O => JNumber m
  | S f => if m mod 10 =? 0 then strip_zeros f (m / 10) (e + 1)
           else JDecimal m e
  end.

(** The number [m * 10 ^ e]. *)
Definition decimal (m e : Z) : json :=
  if 0 <=? e then JNumber (m * 10 ^ e)
  else if m =? 0 then JNumber 0
  else strip_zeros (Z.to_nat (- e)) m e.

(** What follows the integer part [n] of a number that goes on with a
    fraction or an exponent. *)
Definition parse_tail (negative : bool) (n : Z) (s : string)
    : option (json * string) :=
  match parse_frac n s with
  | Some (m, k, r1) =>
      match parse_exp r1 with
      | Some (x, r2) => Some (decimal (if negative then - m else m) (x - k), r2)
      | None => None
      end
  | None => None
  end.

(** [number] of the grammar: a sign or none, [int], and a fraction and an
    exponent when they are there. *)
Definition parse_number (s : string) : option (json * string) :=
  let (negative, r) :=
    match s with
    | String "-" r => (true, r)
    | _ => (false, s)
    end in
  match parse_int r with
  | Some (n, rest) =>
      if starts_fraction_or_exponent rest then parse_tail negative n rest
      else Some (JNumber (if negative then - n else n), rest)
  | None => None
  end.

Fixpoint drop_prefix (word s : string) : option string :=
  match word, s with
  | EmptyString, _ => Some s
  | String a w, String b r => if Ascii.eqb a b then drop_prefix w r else None
  | String _ _, EmptyString => None
  end.

Definition literal (word : string) (v : json) (s : string)
    : option (json * string) :=
  match drop_prefix word s with
  | Some rest => Some (v, rest)
  | None => None
  end.

(** Defining a property: a key written twice keeps its place and takes the
    later value. *)
Fixpoint set_field (k : string) (v : json) (fields : list (string * json))
    : list (string * json) :=
  match fields with
  | [] => [(k, v)]
  | (k', v') :: r =>
      if String.eqb k' k then (k', v) :: r else (k', v') :: set_field k v r
  end.

Fixpoint parse_value (fuel : nat) (s : string) : option (json * string) :=
  match fuel with
  | O => None
  | S fuel' =>
      match skip_ws s with
      | String "{" r =>
          match skip_ws r with
          | String "}" r' => Some (JObject [], r')
          | r1 => parse_members fuel' [] r1
          end
      | String "[" r =>
          match skip_ws r with
          | String "]" r' => Some (JArray [], r')
          | r1 => parse_elements fuel' [] r1
          end
      | String "034" r =>
          match parse_chars (S (String.length r)) r with
          | Some (t, rest) => Some (JString t, rest)
          | None => None
          end
      | String "t" _ as w => literal "true" (JBool true) w
      | String "f" _ as w => literal "false" (JBool false) w
      | String "n" _ as w => literal "null" JNull w
      | w => parse_number w
      end
  end
with parse_members (fuel : nat) (acc : list (string * json)) (s : string)
    : option (json * string) :=
  match fuel with
  | O => None
  | S fuel' =>
      match skip_ws s with
      | String "034" r =>
          match parse_chars (S (String.length r)) r with
          | Some (k, rest) =>
              match skip_ws rest with
              | String ":" r1 =>
                  match parse_value fuel' r1 with
                  | Some (v, r2) =>
                      match skip_ws r2 with
                      | String "," r3 =>
                          parse_members fuel' (set_field k v acc) r3
                      | String "}" r3 => Some (JObject (set_field k v acc), r3)
                      | _ => None
                      end
                  | None => None
                  end
              | _ => None
              end
          | None => None
          end
      | _ => None
      end
  end
with parse_elements (fuel : nat) (acc : list json) (s : string)
    : option (json * string) :=
  match fuel with
  | O => None
  | S fuel' =>
      match parse_value fuel' s with
      | Some (v, r) =>
          match skip_ws r with
          | String "," r1 => parse_elements fuel' (acc ++ [v])%list r1
          | String "]" r1 => Some (JArray (acc ++ [v])%list, r1)
          | _ => None
          end
      | None => None
      end
  end.

(** [JSON.parse]: one value, then nothing but white space. *)
Definition parse (text : string) : result json :=
  match parse_value (S (String.length text)) text with
  | Some (v, rest) =>
      match skip_ws rest with
      | EmptyString => Ok v
      | _ => Throw SyntaxError
      end
  | None => Throw SyntaxError
  end.

Fixpoint lookup (k : string) (fields : list (string * json)) : jsvalue :=
  match fields with
  | [] => None
  | (k', v) :: r => if String.eqb k' k then Some v else lookup k r
  end.

(** [v.k] for a parsed value: a [TypeError] on [null], [undefined] on a
    value that has no such property. *)
Definition get (v : json) (k : string) : result jsvalue :=
  match v with
  | JNull => Throw TypeError
  | JObject fields => Ok (lookup k fields)
  | _ => Ok None
  end.

Fixpoint ToString_json (v : json) : string :=
  match v with
  | JNull => "null"
  | JBool true => "true"
  | JBool false => "false"
  | JNumber n => Number_toString n
  | JDecimal m e => Decimal_toString m e
  | JString s => s
  | JArray items =>
      join "," (map (fun x => match x with
                              | JNull => ""
                              | _ => ToString_json x
                              end) items)
  | JObject _ => "[object Object]"
  end.

(** ToString, as a template literal applies it. *)
Definition ToString (v : jsvalue) : string :=
  match v with
  | None => "undefined"
  | Some x => ToString_json x
  end.

Definition unsigned_literal (s : string) : option Z :=
  match s with
  | String d _ =>
      if is_digit d then
        let (n, rest) := digits s 0 in
        match skip_ws rest with
        | EmptyString => Some n
        | _ => None
        end
      else None
  | EmptyString => None
  end.

(** StringToNumber of a decimal integer literal between blanks; [None] is
    NaN.  Hexadecimal, fractional and exponent forms and Infinity are not
    read by the model. *)
Definition StringToNumber (s : string) : option Z :=
  match skip_ws s with
  | EmptyString => Some 0
  | String "-" r => option_map Z.opp (unsigned_literal r)
  | String "+" r => unsigned_literal r
  | w => unsigned_literal w
  end.

(** A number: an integer, or [m * 10 ^ e] with [e < 0]. *)
Inductive numeric :=
| Integer (n : Z)
| Decimal (m e : Z).

(** ToNumber; [None] is NaN. *)
Definition ToNumber (v : jsvalue) : option numeric :=
  match v with
  | None => None
  | Some JNull => Some (Integer 0)
  | Some (JBool b) => Some (Integer (if b then 1 else 0))
  | Some (JNumber n) => Some (Integer n)
  | Some (JDecimal m e) => Some (Decimal m e)
  | Some (JString s) => option_map Integer (StringToNumber s)
  | Some (JArray items) =>
      option_map Integer (StringToNumber (ToString_json (JArray items)))
  | Some (JObject _) => None
  end.

(** [v < n] for an integer [n]: false when [v] is NaN. *)
Definition less_than (v : jsvalue) (n : Z) : bool :=
  match ToNumber v with
  | Some (Integer x) => x <? n
  | Some (Decimal m e) => m <? n * 10 ^ (- e)
  | None => false
  end.

(** [a !== b] where [a] is a string. *)
Definition strict_ne_string (a : string) (b : jsvalue) : bool :=
  match b with
  | Some (JString s) => negb (String.eqb a s)
  | _ => true
  end.

End JSON.

(** ** Requests, responses and the environment of an edge function *)

Module Http.
Import JS JSON.

Record Request := {
  method : string;
  searchParams : list (string * string);
  headers : list (string * string);
  body : string
}.

Record Response := {
  status : Z;
  response_headers : list (string * string);
  response_body : option json
}.

(** [Deno.env.get]. *)
Definition Env := string -> option string.

Fixpoint assoc (k : string) (l : list (string * string)) : option string :=
  match l with
  | [] => None
  | (k', v) :: r => if String.eqb k' k then Some v else assoc k r
  end.

(** [url.searchParams.get(name)] and [headers.get(name)]. *)
Definition param (req : Request) (name : string) : option string :=
  assoc name (searchParams req).

Definition header (req : Request) (name : string) : option string :=
  assoc name (headers req).

Definition Location (r : Response) : option string :=
  assoc "Location" (response_headers r).

(** A string or [undefined] inside a template literal. *)
Definition show (x : option string) : string :=
  match x with
  | Some s => s
  | None => "undefined"
  end.

Definition corsHeaders (env : Env) : list (string * string) :=
  [("Access-Control-Allow-Origin", show (env "ALLOWED_ORIGIN"));
   ("Access-Control-Allow-Headers",
    "authorization, x-client-info, apikey, content-type")].

(** [new Response(null, { headers: corsHeaders })]: the status defaults to
    200. *)
Definition preflight (env : Env) : Response :=
  {| status := 200; response_headers := corsHeaders env; response_body := None |}.

Definition json_response (env : Env) (code : Z) (v : json) : Response :=
  {| status := code;
     response_headers :=
       (corsHeaders env ++ [("Content-Type", "application/json")])%list;
     response_body := Some v |}.

Definition error_response (env : Env) (code : Z) (message : string) : Response :=
  json_response env code (JObject [("error", JString message)]).

End Http.

(** ** The store: the two tables and their constraints *)

Module Supabase.
Import JS JSON.

Record Connection := {
  id : string;
  user_id : string;
  role : string;
  athlete_id : Z;
  athlete_username : string;
  athlete_fullname : string;
  athlete_avatar : option string;
  access_token : string;
  refresh_token : string;
  expires_at : Z
}.

Inductive mirror_status := PENDING | DONE | ERROR.

Record Mirror := {
  mirror_id : string;
  mirror_user_id : string;
  source_activity_id : Z;
  dog_activity_id : option Z;
  mirror_state : mirror_status;
  error_message : option string
}.

(** [uuids] is what [gen_random_uuid()] will return next. *)
Record Store := {
  connections : list Connection;
  mirrors : list Mirror;
  uuids : list string
}.

(** The calls the functions make, each of which the store may fail to
    answer: the client then returns [data: null] and an [error]. *)
Inductive Call :=
| SelectConnectionByAthlete
| UpsertConnection
| SelectMirror
| SelectConnections
| UpdateConnection
| InsertMirror.

Definition Faults := Call -> bool.

Definition no_faults : Faults := fun _ => false.

(** [.maybeSingle()]: the row, [null] when there is none, and an error
    (so [null] again) when there are several. *)
Definition maybeSingle {A : Type} (rows : list A) : option A :=
  match rows with
  | [x] => Some x
  | _ => None
  end.

Definition connection_role (name : string) : bool :=
  String.eqb name "HUMAN" || String.eqb name "PET".

Definition set_tokens (access refresh : string) (expires : Z) (c : Connection)
    : Connection :=
  {| id := id c; user_id := user_id c; role := role c;
     athlete_id := athlete_id c; athlete_username := athlete_username c;
     athlete_fullname := athlete_fullname c; athlete_avatar := athlete_avatar c;
     access_token := access; refresh_token := refresh; expires_at := expires |}.

(** [update({access_token, refresh_token, expires_at}).eq('id', key)]. *)
Definition update_tokens (key : string) (access refresh : string) (expires : Z)
    (rows : list Connection) : list Connection :=
  map (fun c => if String.eqb (id c) key
                then set_tokens access refresh expires c else c) rows.

Definition with_connections (rows : list Connection) (s : Store) : Store :=
  {| connections := rows; mirrors := mirrors s; uuids := uuids s |}.

Definition fresh_uuid (s : Store) : string * Store :=
  match uuids s with
  | u :: rest =>
      (u, {| connections := connections s; mirrors := mirrors s; uuids := rest |})
  | [] => ("", s)
  end.

(** UNIQUE(user_id, athlete_id), checked against the rows other than the
    one being written. *)
Definition athlete_taken (c : Connection) (rows : list Connection) : bool :=
  existsb (fun r => String.eqb (user_id r) (user_id c)
                    && (athlete_id r =? athlete_id c)
                    && negb (String.eqb (role r) (role c))) rows.

(** [upsert(row, { onConflict: 'user_id,role' })]: the row with the same
    user and role is overwritten (it keeps its id), otherwise the row is
    inserted; [None] when a constraint rejects the write. *)
Definition upsert_connection (c : Connection) (s : Store) : option Store :=
  if negb (connection_role (role c)) || athlete_taken c (connections s) then None
  else if existsb (fun r => String.eqb (user_id r) (user_id c)
                            && String.eqb (role r) (role c)) (connections s)
  then
    Some (with_connections
            (map (fun r => if String.eqb (user_id r) (user_id c)
                              && String.eqb (role r) (role c)
                           then {| id := id r; user_id := user_id c;
                                   role := role c; athlete_id := athlete_id c;
                                   athlete_username := athlete_username c;
                                   athlete_fullname := athlete_fullname c;
                                   athlete_avatar := athlete_avatar c;
                                   access_token := access_token c;
                                   refresh_token := refresh_token c;
                                   expires_at := expires_at c |}
                           else r) (connections s)) s)
  else
    let (u, s') := fresh_uuid s in
    Some (with_connections
            (connections s' ++
             [{| id := u; user_id := user_id c; role := role c;
                 athlete_id := athlete_id c;
                 athlete_username := athlete_username c;
                 athlete_fullname := athlete_fullname c;
                 athlete_avatar := athlete_avatar c;
                 access_token := access_token c;
                 refresh_token := refresh_token c;
                 expires_at := expires_at c |}])%list s').

(** [insert({user_id, source_activity_id, status: 'PENDING'}).select()
    .single()]: the new row, or [None] on UNIQUE(user_id,
    source_activity_id). *)
Definition insert_mirror (user : string) (activity : Z) (s : Store)
    : option (Mirror * Store) :=
  if existsb (fun m => String.eqb (mirror_user_id m) user
                       && (source_activity_id m =? activity)) (mirrors s)
  then None
  else
    let (u, s') := fresh_uuid s in
    let m := {| mirror_id := u; mirror_user_id := user;
                source_activity_id := activity; dog_activity_id := None;
                mirror_state := PENDING; error_message := None |} in
    Some (m, {| connections := connections s';
                mirrors := (mirrors s' ++ [m])%list;
                uuids := uuids s' |}).

Definition status_name (st : mirror_status) : string :=
  match st with
  | PENDING => "PENDING"
  | DONE => "DONE"
  | ERROR => "ERROR"
  end.

Definition nullable {A : Type} (f : A -> json) (x : option A) : json :=
  match x with
  | Some a => f a
  | None => JNull
  end.

(** A mirror row as the client returns it. *)
Definition mirror_json (m : Mirror) : json :=
  JObject [("id", JString (mirror_id m));
           ("user_id", JString (mirror_user_id m));
           ("source_activity_id", JNumber (source_activity_id m));
           ("dog_activity_id", nullable JNumber (dog_activity_id m));
           ("status", JString (status_name (mirror_state m)));
           ("error_message", nullable JString (error_message m))].

End Supabase.

(** ** Date: time values and toISOString *)

Module JSDate.
Import JS.

(** A Date holds a time value in milliseconds since the epoch, or is an
    Invalid Date ([None], a time value of NaN). *)
Definition Date := option Z.

(** [new Date(value)] for a number, which may be NaN: TimeClip. *)
Definition of_time (value : option Z) : Date :=
  match value with
  | Some t => if Z.abs t <=? 8640000000000000 then Some t else None
  | None => None
  end.

Definition getTime (d : Date) : option Z := d.

(** [a + b * 1000] on numbers that may be NaN. *)
Definition plus_seconds (a b : option Z) : option Z :=
  match a, b with
  | Some x, Some y => Some (x + y * 1000)
  | _, _ => None
  end.

(** Year, month and day of a count of days since 1970-01-01 (proleptic
    Gregorian calendar). *)
Definition civil_from_days (days : Z) : Z * Z * Z :=
  let z := days + 719468 in
  let era := z / 146097 in
  let doe := z - era * 146097 in
  let yoe := (doe - doe / 1460 + doe / 36524 - doe / 146096) / 365 in
  let doy := doe - (365 * yoe + yoe / 4 - yoe / 100) in
  let mp := (5 * doy + 2) / 153 in
  let d := doy - (153 * mp + 2) / 5 + 1 in
  let m := if mp <? 10 then mp + 3 else mp - 9 in
  ((yoe + era * 400 + (if m <=? 2 then 1 else 0)), m, d).

Fixpoint pad (width : nat) (n : Z) : string :=
  match width with
  | O => EmptyString
  | S w => String (char_of_code (48 + (n / 10 ^ Z.of_nat w) mod 10)) (pad w n)
  end.

Definition format (t : Z) : string :=
  let ms := t mod 86400000 in
  let '(y, m, d) := civil_from_days (t / 86400000) in
  let year :=
    if (0 <=? y) && (y <=? 9999) then pad 4 y
    else if y <? 0 then "-" ++ pad 6 (- y) else "+" ++ pad 6 y in
  year ++ "-" ++ pad 2 m ++ "-" ++ pad 2 d ++ "T"
  ++ pad 2 (ms / 3600000) ++ ":" ++ pad 2 ((ms / 60000) mod 60) ++ ":"
  ++ pad 2 ((ms / 1000) mod 60) ++ "." ++ pad 3 (ms mod 1000) ++ "Z".

(** [d.toISOString()]: a RangeError on an Invalid Date. *)
Definition toISOString (d : Date) : result string :=
  match d with
  | Some t => Ok (format t)
  | None => Throw RangeError
  end.

End JSDate.

(** ** The provider (Strava), by the replies the functions read *)

Module Strava.
Import JS JSON.

Inductive FetchResult (A : Type) :=
| Rejected
| NotOk (code : Z) (text : string)
| Replied (body : result A).

Arguments Rejected {A}.
Arguments NotOk {A} code text.
Arguments Replied {A} body.

Record Athlete := {
  id : Z;
  username : option string;
  firstname : option string;
  lastname : option string;
  profile : option string;
  profile_medium : option string
}.

Record TokenData := {
  access_token : string;
  refresh_token : string;
  expires_at : Z;
  athlete : option Athlete
}.

(** The JSON body of a POST to https://www.strava.com/oauth/token. *)
Record TokenRequest := {
  client_id : option string;
  client_secret : option string;
  grant_type : string;
  code : option string;
  code_verifier : jsvalue;
  refresh : option string
}.

Definition TokenEndpoint := TokenRequest -> FetchResult TokenData.

End Strava.

(** ** src/unnamed/part_002: the authorization-start function *)

Module OAuthAuthorize.
Import JS JSON Http.

Definition base64urlEncode (data : Uint8Array) : string :=
  replaceAll "=" "" (replaceAll "/" "_" (replaceAll "+" "-"
    (btoa (String_fromCharCode data)))).

Definition hmacSha256 (message secret : string) : string :=
  let key := TextEncoder_encode secret in
  let signature := WebCrypto.sign_HMAC key (TextEncoder_encode message) in
  base64urlEncode signature.

(** [crypto.getRandomValues] fills the array from [entropy], the bytes the
    generator gives next. *)
Definition generateRandomString (length : nat) (entropy : list byte)
    : string * list byte :=
  (base64urlEncode (firstn length entropy), skipn length entropy).

Definition statePayload (userId role : string) (exp : Z)
    (nonce codeVerifier : string) : json :=
  JObject [("userId", JString userId); ("role", JString role);
           ("exp", JNumber exp); ("nonce", JString nonce);
           ("codeVerifier", JString codeVerifier)].

(** Lines 92-94: the canonical JSON, its signature, and the state. *)
Definition signedState (payload : json) (stateSecret : string) : string :=
  let canonicalJson := stringify payload in
  let signature := hmacSha256 canonicalJson stateSecret in
  base64urlEncode (TextEncoder_encode (canonicalJson ++ "." ++ signature)).

Definition unreserved (c : ascii) : bool :=
  let n := char_code c in
  ((48 <=? n) && (n <=? 57)) || ((65 <=? n) && (n <=? 90))
  || ((97 <=? n) && (n <=? 122))
  || (n =? 42) || (n =? 45) || (n =? 46) || (n =? 95).

Definition HEX_digit (v : Z) : ascii :=
  if v <? 10 then char_of_code (48 + v) else char_of_code (55 + v).

(** The application/x-www-form-urlencoded serializer of [URLSearchParams]. *)
Fixpoint urlencode (s : string) : string :=
  match s with
  | EmptyString => EmptyString
  | String c r =>
      if unreserved c then String c (urlencode r)
      else if char_code c =? 32 then String "+" (urlencode r)
      else String "%" (String (HEX_digit (char_code c / 16))
                         (String (HEX_digit (char_code c mod 16)) (urlencode r)))
  end.

Definition query_string (params : list (string * string)) : string :=
  join "&" (map (fun kv => urlencode (fst kv) ++ "=" ++ urlencode (snd kv)) params).

Definition serve (env : Env) (now_ms : Z) (entropy : list byte) (req : Request)
    : Response :=
  if String.eqb (method req) "OPTIONS" then preflight env
  else
    match param req "role", param req "userId" with
    | Some role, Some userId =>
        if falsy (Some role) || falsy (Some userId)
           || negb (String.eqb role "HUMAN" || String.eqb role "PET")
        then error_response env 400 "Invalid role or userId"
        else
          match env "STRAVA_CLIENT_ID" with
          | Some clientId =>
              if falsy (Some clientId)
              then error_response env 500 "OAuth not configured"
              else
                let (codeVerifier, entropy1) := generateRandomString 43 entropy in
                let data := TextEncoder_encode codeVerifier in
                let codeChallenge := base64urlEncode (WebCrypto.sha256 data) in
                match env "STATE_SECRET" with
                | Some stateSecret =>
                    if falsy (Some stateSecret)
                    then error_response env 500 "OAuth not configured"
                    else
                      let (nonce, _) := generateRandomString 16 entropy1 in
                      let exp := now_ms / 1000 + 10 * 60 in
                      let state :=
                        signedState
                          (statePayload userId role exp nonce codeVerifier)
                          stateSecret in
                      let scopes :=
                        if String.eqb role "HUMAN"
                        then "read,activity:read,activity:read_all"
                        else "activity:write" in
                      let redirectUri :=
                        show (env "SUPABASE_URL") ++ "/functions/v1/oauth-callback" in
                      let stravaAuthUrl :=
                        "https://www.strava.com/oauth/authorize?" ++
                        query_string
                          [("client_id", clientId);
                           ("redirect_uri", redirectUri);
                           ("response_type", "code");
                           ("scope", scopes);
                           ("state", state);
                           ("code_challenge", codeChallenge);
                           ("code_challenge_method", "S256")] in
                      json_response env 200
                        (JObject [("authUrl", JString stravaAuthUrl)])
                | None => error_response env 500 "OAuth not configured"
                end
          | None => error_response env 500 "OAuth not configured"
          end
    | _, _ => error_response env 400 "Invalid role or userId"
    end.

End OAuthAuthorize.

(** ** src/unnamed/part_000: the callback function *)

Module OAuthCallback.
Import JS JSON Http.

(** [while (str.length % 4) str += '=']: at most three rounds. *)
Fixpoint pad_loop (fuel : nat) (str : string) : string :=
  match fuel with
  | O => str
  | S fuel' =>
      if (String.length str mod 4 =? 0)%nat then str
      else pad_loop fuel' (str ++ "=")
  end.

Definition base64urlDecode (input : string) : result Uint8Array :=
  let str := replaceAll "_" "/" (replaceAll "-" "+" input) in
  let str := pad_loop 3 str in
  let* binary := atob str in
  Ok (charCodes binary).

Definition hmacSha256 (message secret : string) : string :=
  let key := TextEncoder_encode secret in
  let signature := WebCrypto.sign_HMAC key (TextEncoder_encode message) in
  replaceAll "=" "" (replaceAll "/" "_" (replaceAll "+" "-"
    (btoa (String_fromCharCode signature)))).

(** [a[i]] on a [Uint8Array], for an index in range. *)
Definition at_ (a : Uint8Array) (i : nat) : Z := byte_to_Z (nth i a x00).

Definition constantTimeEqual (a b : Uint8Array) : bool :=
  if negb (List.length a =? List.length b)%nat then false
  else
    let result :=
      fold_left (fun result i => Z.lor result (Z.lxor (at_ a i) (at_ b i)))
                (seq 0 (List.length a)) 0 in
    result =? 0.

(** Lines 91-115, the body of the inner [try]: the parsed payload, or the
    exception the [catch] turns into [invalid_state]. *)
Definition validateState (stateSecret : string) (now_ms : Z)
    (stateParam : string) : result json :=
  let* stateData := base64urlDecode stateParam in
  let stateStr := TextDecoder_decode stateData in
  let parts := split "." stateStr in
  let jsonPart := nth_error parts 0 in
  let providedSignature := nth_error parts 1 in
  if falsy jsonPart || falsy providedSignature
  then Throw (Error "Invalid state format")
  else
    match jsonPart, providedSignature with
    | Some jsonPart, Some providedSignature =>
        let expectedSignature := hmacSha256 jsonPart stateSecret in
        let providedSigBytes := TextEncoder_encode providedSignature in
        let expectedSigBytes := TextEncoder_encode expectedSignature in
        if negb (constantTimeEqual providedSigBytes expectedSigBytes)
        then Throw (Error "Invalid state signature")
        else
          let* statePayload := JSON.parse jsonPart in
          let now := now_ms / 1000 in
          let* exp := get statePayload "exp" in
          if less_than exp now then Throw (Error "State expired")
          else Ok statePayload
    | _, _ => Throw (Error "Invalid state format")
    end.

Record World := {
  env : Env;
  now_ms : Z;
  token_endpoint : Strava.TokenEndpoint;
  faults : Supabase.Faults;
  store : Supabase.Store
}.

Definition with_store (w : World) (s : Supabase.Store) : World :=
  {| env := env w; now_ms := now_ms w; token_endpoint := token_endpoint w;
     faults := faults w; store := s |}.

Definition redirect (w : World) (query : string) : Response :=
  {| status := 302;
     response_headers := [("Location", show (env w "SUPABASE_URL") ++ query)];
     response_body := None |}.

(** [x || ''] for a string or [undefined]. *)
Definition or_empty (x : option string) : string :=
  if falsy x then "" else show x.

(** The white space and line terminators that [String.prototype.trim]
    strips, in UTF-8: U+0009 to U+000D, U+0020, U+00A0, U+1680, U+2000 to
    U+200A, U+2028, U+2029, U+202F, U+205F, U+3000 and U+FEFF. *)
Definition white_space : list string :=
  map string_of_list_byte
    [[x09]; [x0a]; [x0b]; [x0c]; [x0d]; [x20]; [xc2; xa0]; [xe1; x9a; x80];
     [xe2; x80; x80]; [xe2; x80; x81]; [xe2; x80; x82]; [xe2; x80; x83];
     [xe2; x80; x84]; [xe2; x80; x85]; [xe2; x80; x86]; [xe2; x80; x87];
     [xe2; x80; x88]; [xe2; x80; x89]; [xe2; x80; x8a]; [xe2; x80; xa8];
     [xe2; x80; xa9]; [xe2; x80; xaf]; [xe2; x81; x9f]; [xe3; x80; x80];
     [xef; xbb; xbf]].

(** What is left of [s] after one of the [forms], when it starts with
    one. *)
Fixpoint strip_one (forms : list string) (s : string) : option string :=
  match forms with
  | [] => None
  | form :: rest =>
      match drop_prefix form s with
      | Some r => Some r
      | None => strip_one rest s
      end
  end.

Fixpoint strip_all (fuel : nat) (forms : list string) (s : string) : string :=
  match fuel with
  | O => s
  | S f =>
      match strip_one forms s with
      | Some r => strip_all f forms r
      | None => s
      end
  end.

Fixpoint reverse (s : string) : string :=
  match s with
  | EmptyString => EmptyString
  | String c r => reverse r ++ String c EmptyString
  end.

Definition trim_start (s : string) : string :=
  strip_all (String.length s) white_space s.

Definition trim_end (s : string) : string :=
  reverse (strip_all (String.length s) (map reverse white_space) (reverse s)).

Definition trim (s : string) : string := trim_end (trim_start s).

(** The row of the upsert (lines 195-205).  The store takes it only when
    [user_id] and [role] are strings. *)
Definition connection_row (userId role : jsvalue) (tokenData : Strava.TokenData)
    (athlete : Strava.Athlete) : option Supabase.Connection :=
  match userId, role with
  | Some (JString u), Some (JString r) =>
      Some {| Supabase.id := "";
              Supabase.user_id := u;
              Supabase.role := r;
              Supabase.athlete_id := Strava.id athlete;
              Supabase.athlete_username := or_empty (Strava.username athlete);
              Supabase.athlete_fullname :=
                trim (or_empty (Strava.firstname athlete) ++ " "
                      ++ or_empty (Strava.lastname athlete));
              Supabase.athlete_avatar :=
                if falsy (Strava.profile athlete)
                then (if falsy (Strava.profile_medium athlete) then None
                      else Strava.profile_medium athlete)
                else Strava.profile athlete;
              Supabase.access_token := Strava.access_token tokenData;
              Supabase.refresh_token := Strava.refresh_token tokenData;
              Supabase.expires_at := Strava.expires_at tokenData |}
  | _, _ => None
  end.

(** Lines 175-180: the connection of this user with this athlete. *)
Definition existing_connection (w : World) (userId : jsvalue) (athlete : Z)
    : option Supabase.Connection :=
  if faults w Supabase.SelectConnectionByAthlete then None
  else
    Supabase.maybeSingle
      (filter (fun c => String.eqb (Supabase.user_id c) (ToString userId)
                        && (Supabase.athlete_id c =? athlete))
              (Supabase.connections (store w))).

(** Lines 193-227: the upsert and the two redirects that follow it. *)
Definition upsert (w : World) (userId role : jsvalue)
    (tokenData : Strava.TokenData) (athlete : Strava.Athlete)
    : result (Response * World) :=
  let written :=
    if faults w Supabase.UpsertConnection then None
    else
      match connection_row userId role tokenData athlete with
      | Some row => Supabase.upsert_connection row (store w)
      | None => None
      end in
  match written with
  | None => Ok (redirect w "?error=database_error", w)
  | Some s =>
      Ok (redirect (with_store w s) ("?oauth_success=true&role=" ++ ToString role),
          with_store w s)
  end.

(** Lines 54-227, the body of the outer [try]. *)
Definition callback (w : World) (req : Request) : result (Response * World) :=
  let code := param req "code" in
  let stateParam := param req "state" in
  let error := param req "error" in
  if negb (falsy error) then Ok (redirect w "?error=oauth_denied", w)
  else if falsy code || falsy stateParam
  then Ok (redirect w "?error=invalid_request", w)
  else
    let stateSecret := env w "STATE_SECRET" in
    if falsy stateSecret then Ok (redirect w "?error=server_error", w)
    else
      match validateState (show stateSecret) (now_ms w) (show stateParam) with
      | Throw _ => Ok (redirect w "?error=invalid_state", w)
      | Ok statePayload =>
          let* userId := get statePayload "userId" in
          let* role := get statePayload "role" in
          let* codeVerifier := get statePayload "codeVerifier" in
          let clientId := env w "STRAVA_CLIENT_ID" in
          let clientSecret := env w "STRAVA_CLIENT_SECRET" in
          if falsy clientId || falsy clientSecret
          then Ok (redirect w "?error=server_error", w)
          else
            match token_endpoint w
                    {| Strava.client_id := clientId;
                       Strava.client_secret := clientSecret;
                       Strava.grant_type := "authorization_code";
                       Strava.code := code;
                       Strava.code_verifier := codeVerifier;
                       Strava.refresh := None |} with
            | Strava.Rejected => Throw NetworkError
            | Strava.NotOk _ _ =>
                Ok (redirect w "?error=token_exchange_failed", w)
            | Strava.Replied body =>
                let* tokenData := body in
                match Strava.athlete tokenData with
                | None => Throw TypeError
                | Some athlete =>
                    let existingConnection :=
                      existing_connection w userId (Strava.id athlete) in
                    match existingConnection with
                    | Some c =>
                        if strict_ne_string (Supabase.role c) role
                        then Ok (redirect w
                                   ("?error=athlete_role_conflict&athlete_id="
                                    ++ Number_toString (Strava.id athlete)), w)
                        else upsert w userId role tokenData athlete
                    | None => upsert w userId role tokenData athlete
                    end
                end
            end
      end.

(** The function given to [serve]: the preflight branch, and the outer
    [catch] that turns any exception into [server_error]. *)
Definition serve (w : World) (req : Request) : Response * World :=
  if String.eqb (method req) "OPTIONS" then (preflight (env w), w)
  else
    match callback w req with
    | Ok out => out
    | Throw _ => (redirect w "?error=server_error", w)
    end.

End OAuthCallback.

(** ** src/unnamed/part_001: the mirror function *)

Module MirrorActivity.
Import JS JSON Http.

Section Mirror.

(** The floating-point numbers of the provider (coordinates, elevations,
    distances) and the text a template literal gives them: the functions
    never compute with them. *)
Variable number : Type.
Variable Number_toString : number -> string.

(** [new Date(text).getTime()], NaN ([None]) when the text is no date. *)
Variable Date_parse : string -> option Z.

Record StravaActivity := {
  id : Z;
  athlete_id : Z;
  name : string;
  type : string;
  distance : number;
  moving_time : Z;
  elapsed_time : Z;
  total_elevation_gain : number;
  start_date : string;
  start_latlng : option (number * number);
  end_latlng : option (number * number);
  visibility : string
}.

Record StravaStream := {
  latlng : option (list (number * number));
  time : option (list Z);
  altitude : option (list number)
}.

(** The value of [ele]: [null], a number, or [undefined] when the altitude
    array has no entry at the index. *)
Inductive elevation :=
| ele_null
| ele_undefined
| ele_number (x : number).

Definition elevation_at (altitude : option (list number)) (i : nat) : elevation :=
  match altitude with
  | None => ele_null
  | Some data =>
      match nth_error data i with
      | Some x => ele_number x
      | None => ele_undefined
      end
  end.

Definition show_elevation (e : elevation) : string :=
  match e with
  | ele_null => "null"
  | ele_undefined => "undefined"
  | ele_number x => Number_toString x
  end.

(** [ele !== null]. *)
Definition not_null (e : elevation) : bool :=
  match e with
  | ele_null => false
  | _ => true
  end.

(** The text one round of the loop appends to [trackPoints] (lines
    307-321). *)
Definition trackPoint (startTime : JSDate.Date) (time : list Z)
    (altitude : option (list number)) (i : nat) (point : number * number)
    : result string :=
  let (lat, lon) := point in
  let* timestamp :=
    JSDate.toISOString
      (JSDate.of_time
         (JSDate.plus_seconds (JSDate.getTime startTime) (nth_error time i))) in
  let ele := elevation_at altitude i in
  let trackPoints :=
    "      <trkpt lat=" ++ dquote ++ Number_toString lat ++ dquote
    ++ " lon=" ++ dquote ++ Number_toString lon ++ dquote ++ ">" ++ newline
    ++ "        <time>" ++ timestamp ++ "</time>" in
  let trackPoints :=
    if not_null ele
    then trackPoints ++ newline ++ "        <ele>" ++ show_elevation ele ++ "</ele>"
    else trackPoints in
  Ok (trackPoints ++ newline ++ "      </trkpt>" ++ newline).

(** The loop [for (let i = 0; i < latlng.length; i++)]. *)
Fixpoint trackPoints_from (startTime : JSDate.Date) (time : list Z)
    (altitude : option (list number)) (i : nat)
    (latlng : list (number * number)) (trackPoints : string) : result string :=
  match latlng with
  | [] => Ok trackPoints
  | point :: rest =>
      let* text := trackPoint startTime time altitude i point in
      trackPoints_from startTime time altitude (S i) rest (trackPoints ++ text)
  end.

Definition or_default (x : option string) (default : string) : string :=
  if falsy x then default else show x.

(** The default of TITLE_PREFIX, byte for byte as the file has it. *)
Definition default_title_prefix : string :=
  "Run with "
  ++ string_of_list_byte [xef; xa3; xbf; xc3; xbc; xc3; xaa; xc3; xa6] ++ " ".

Definition generateGPX (env : Env) (activity : StravaActivity)
    (streams : StravaStream) : result string :=
  match latlng streams, time streams with
  | Some latlng, Some time =>
      let altitude := altitude streams in
      let startTime := JSDate.of_time (Date_parse (start_date activity)) in
      let* trackPoints :=
        trackPoints_from startTime time altitude 0 latlng "" in
      let appName := or_default (env "APP_NAME") "Pet Activity Syncer" in
      let titlePrefix := or_default (env "TITLE_PREFIX") default_title_prefix in
      let* started := JSDate.toISOString startTime in
      Ok ("<?xml version=" ++ dquote ++ "1.0" ++ dquote ++ " encoding="
          ++ dquote ++ "UTF-8" ++ dquote ++ "?>" ++ newline
          ++ "<gpx version=" ++ dquote ++ "1.1" ++ dquote ++ " creator="
          ++ dquote ++ appName ++ dquote ++ ">" ++ newline
          ++ "  <metadata>" ++ newline
          ++ "    <name>" ++ titlePrefix ++ name activity ++ "</name>" ++ newline
          ++ "    <time>" ++ started ++ "</time>" ++ newline
          ++ "  </metadata>" ++ newline
          ++ "  <trk>" ++ newline
          ++ "    <name>" ++ titlePrefix ++ name activity ++ "</name>" ++ newline
          ++ "    <trkseg>" ++ newline
          ++ trackPoints ++ "    </trkseg>" ++ newline
          ++ "  </trk>" ++ newline
          ++ "</gpx>")
  | _, _ => Throw TypeError
  end.

(** *** The world of one request *)

Record UploadRequest := {
  bearer : string;
  file : string;
  data_type : string;
  upload_name : string
}.

Inductive Event :=
| TokenCall (request : Strava.TokenRequest)
| ActivityCall (activity : Z) (token : string)
| StreamsCall (activity : Z) (token : string)
| UploadCall (request : UploadRequest).

Record World := {
  env : Env;
  now_ms : Z;
  getUser : string -> option string;
  token_endpoint : Strava.TokenEndpoint;
  activity_endpoint : Z -> string -> Strava.FetchResult StravaActivity;
  streams_endpoint : Z -> string -> Strava.FetchResult StravaStream;
  upload_endpoint : UploadRequest -> Strava.FetchResult Z;
  faults : Supabase.Faults;
  store : Supabase.Store;
  calls : list Event
}.

Definition with_store (w : World) (s : Supabase.Store) : World :=
  {| env := env w; now_ms := now_ms w; getUser := getUser w;
     token_endpoint := token_endpoint w;
     activity_endpoint := activity_endpoint w;
     streams_endpoint := streams_endpoint w;
     upload_endpoint := upload_endpoint w;
     faults := faults w; store := s; calls := calls w |}.

(** A call to the provider is recorded in [calls]. *)
Definition called (w : World) (e : Event) : World :=
  {| env := env w; now_ms := now_ms w; getUser := getUser w;
     token_endpoint := token_endpoint w;
     activity_endpoint := activity_endpoint w;
     streams_endpoint := streams_endpoint w;
     upload_endpoint := upload_endpoint w;
     faults := faults w; store := store w; calls := (calls w ++ [e])%list |}.

(** A computation that reads and writes the world and may throw. *)
Definition M (A : Type) := World -> result A * World.

Definition refreshTokenIfNeeded (connection : Supabase.Connection) : M string :=
  fun w =>
    let now := now_ms w / 1000 in
    if now + 300 <? Supabase.expires_at connection
    then (Ok (Supabase.access_token connection), w)
    else
      let clientId := env w "STRAVA_CLIENT_ID" in
      let clientSecret := env w "STRAVA_CLIENT_SECRET" in
      let request :=
        {| Strava.client_id := clientId;
           Strava.client_secret := clientSecret;
           Strava.grant_type := "refresh_token";
           Strava.code := None;
           Strava.code_verifier := None;
           Strava.refresh := Some (Supabase.refresh_token connection) |} in
      let w1 := called w (TokenCall request) in
      match token_endpoint w request with
      | Strava.Rejected => (Throw NetworkError, w1)
      | Strava.NotOk _ _ => (Throw (Error "Failed to refresh token"), w1)
      | Strava.Replied (Throw e) => (Throw e, w1)
      | Strava.Replied (Ok tokenData) =>
          let w2 :=
            if faults w Supabase.UpdateConnection then w1
            else
              with_store w1
                (Supabase.with_connections
                   (Supabase.update_tokens (Supabase.id connection)
                      (Strava.access_token tokenData)
                      (Strava.refresh_token tokenData)
                      (Strava.expires_at tokenData)
                      (Supabase.connections (store w1)))
                   (store w1)) in
          (Ok (Strava.access_token tokenData), w2)
      end.

(** [activityUrl.match(/\/activities\/(\d+)/)]: the digits after the
    leftmost "/activities/" that a digit follows. *)
Fixpoint take_digits (s : string) : string :=
  match s with
  | String c r => if is_digit c then String c (take_digits r) else EmptyString
  | EmptyString => EmptyString
  end.

Fixpoint match_activity (url : string) : option string :=
  match url with
  | EmptyString => None
  | String _ r =>
      match drop_prefix "/activities/" url with
      | Some (String d _ as rest) =>
          if is_digit d then Some (take_digits rest) else match_activity r
      | _ => match_activity r
      end
  end.

Definition parseInt (s : string) : Z := fst (digits s 0).

Definition existing_mirror (w : World) (user : string) (activityId : Z)
    : option Supabase.Mirror :=
  if faults w Supabase.SelectMirror then None
  else
    Supabase.maybeSingle
      (filter (fun m => String.eqb (Supabase.mirror_user_id m) user
                        && (Supabase.source_activity_id m =? activityId))
              (Supabase.mirrors (store w))).

(** Lines 184-240: the track, the upload, the mirror record, the reply. *)
Definition upload (user : string) (activityId : Z) (petToken : string)
    (activity : StravaActivity) (streams : StravaStream) : M Response :=
  fun w =>
    match generateGPX (env w) activity streams with
    | Throw e => (Throw e, w)
    | Ok gpx =>
        let titlePrefix := or_default (env w "TITLE_PREFIX") default_title_prefix in
        let request :=
          {| bearer := petToken; file := gpx; data_type := "gpx";
             upload_name := titlePrefix ++ name activity |} in
        let w1 := called w (UploadCall request) in
        match upload_endpoint w request with
        | Strava.Rejected => (Throw NetworkError, w1)
        | Strava.NotOk _ _ =>
            (Ok (error_response (env w) 500 "Failed to upload to pet account"), w1)
        | Strava.Replied (Throw e) => (Throw e, w1)
        | Strava.Replied (Ok uploadId) =>
            let inserted :=
              if faults w Supabase.InsertMirror then None
              else Supabase.insert_mirror user activityId (store w1) in
            let mirror := option_map fst inserted in
            let w2 :=
              match inserted with
              | Some (_, s) => with_store w1 s
              | None => w1
              end in
            (Ok (json_response (env w) 200
                   (JObject
                      [("success", JBool true);
                       ("uploadId", JNumber uploadId);
                       ("mirror", Supabase.nullable Supabase.mirror_json mirror);
                       ("sourceActivity",
                        JObject
                          [("id", JNumber (id activity));
                           ("name", JString (name activity));
                           ("url",
                            JString ("https://www.strava.com/activities/"
                                     ++ JSON.Number_toString (id activity)))])])),
             w2)
        end
    end.

(** Lines 127-181: the activity, its owner, its streams. *)
Definition fetch_and_upload (user : string) (activityId : Z)
    (humanConnection : Supabase.Connection) (humanToken petToken : string)
    : M Response :=
  fun w =>
    let w1 := called w (ActivityCall activityId humanToken) in
    match activity_endpoint w activityId humanToken with
    | Strava.Rejected => (Throw NetworkError, w1)
    | Strava.NotOk code _ =>
        if code =? 404
        then (Ok (error_response (env w) 404 "Activity not found or private"), w1)
        else (Ok (error_response (env w) 500 "Failed to fetch activity"), w1)
    | Strava.Replied (Throw e) => (Throw e, w1)
    | Strava.Replied (Ok activity) =>
        if negb (athlete_id activity =? Supabase.athlete_id humanConnection)
        then
          (Ok (error_response (env w) 403
                 "Activity does not belong to connected human account"), w1)
        else
          let w2 := called w1 (StreamsCall activityId humanToken) in
          match streams_endpoint w activityId humanToken with
          | Strava.Rejected => (Throw NetworkError, w2)
          | Strava.NotOk _ _ =>
              (Ok (error_response (env w) 500 "Failed to fetch activity streams"),
               w2)
          | Strava.Replied (Throw e) => (Throw e, w2)
          | Strava.Replied (Ok streams) =>
              match latlng streams, time streams with
              | Some _, Some _ =>
                  upload user activityId petToken activity streams w2
              | _, _ =>
                  (Ok (error_response (env w) 400 "Activity missing GPS data"), w2)
              end
          end
    end.

(** Lines 45-80: the user and the activity id the request is about, or the
    reply that ends the request early. *)
Definition identify (w : World) (req : Request) : result (Response + string * Z) :=
  match header req "Authorization" with
  | None => Ok (inl (error_response (env w) 401 "Missing authorization header"))
  | Some authHeader =>
      if falsy (Some authHeader)
      then Ok (inl (error_response (env w) 401 "Missing authorization header"))
      else
        match getUser w authHeader with
        | None => Ok (inl (error_response (env w) 401 "Unauthorized"))
        | Some user =>
            let* parsed := JSON.parse (body req) in
            let* activityUrl := get parsed "activityUrl" in
            match activityUrl with
            | Some (JString activityUrl) =>
                match match_activity activityUrl with
                | None =>
                    Ok (inl (error_response (env w) 400
                               "Invalid Strava activity URL"))
                | Some urlMatch => Ok (inr (user, parseInt urlMatch))
                end
            | _ => Throw TypeError
            end
        end
  end.

(** Lines 82-125: the mirror and connection records, and the two tokens. *)
Definition mirror_activity (user : string) (activityId : Z) : M Response :=
  fun w =>
    match existing_mirror w user activityId with
    | Some existingMirror =>
        (Ok (json_response (env w) 400
               (JObject [("error", JString "Activity already mirrored");
                         ("mirror", Supabase.mirror_json existingMirror)])), w)
    | None =>
        if faults w Supabase.SelectConnections
        then (Ok (error_response (env w) 500 "Failed to fetch connections"), w)
        else
          let connections :=
            filter (fun c => String.eqb (Supabase.user_id c) user)
                   (Supabase.connections (store w)) in
          let humanConnection :=
            find (fun c => String.eqb (Supabase.role c) "HUMAN") connections in
          let petConnection :=
            find (fun c => String.eqb (Supabase.role c) "PET") connections in
          match humanConnection, petConnection with
          | Some humanConnection, Some petConnection =>
              match refreshTokenIfNeeded humanConnection w with
              | (Throw e, w1) => (Throw e, w1)
              | (Ok humanToken, w1) =>
                  match refreshTokenIfNeeded petConnection w1 with
                  | (Throw e, w2) => (Throw e, w2)
                  | (Ok petToken, w2) =>
                      fetch_and_upload user activityId humanConnection
                        humanToken petToken w2
                  end
              end
          | _, _ =>
              (Ok (error_response (env w) 400
                     "Both human and pet connections required"), w)
          end
    end.

(** Lines 45-240, the body of the [try]. *)
Definition mirror (req : Request) : M Response :=
  fun w =>
    match identify w req with
    | Throw e => (Throw e, w)
    | Ok (inl early) => (Ok early, w)
    | Ok (inr (user, activityId)) => mirror_activity user activityId w
    end.

(** The function given to [serve]: preflight, the method check, and the
    [catch] that answers 500. *)
Definition serve (w : World) (req : Request) : Response * World :=
  if String.eqb (method req) "OPTIONS" then (preflight (env w), w)
  else if negb (String.eqb (method req) "POST")
  then (error_response (env w) 405 "Method not allowed", w)
  else
    match mirror req w with
    | (Ok response, w') => (response, w')
    | (Throw _, w') => (error_response (env w) 500 "Internal server error", w')
    end.

End Mirror.

Arguments id {number} s.
Arguments athlete_id {number} s.
Arguments name {number} s.
Arguments start_date {number} s.
Arguments latlng {number} s.
Arguments time {number} s.
Arguments altitude {number} s.
Arguments ele_null {number}.
Arguments ele_undefined {number}.
Arguments ele_number {number} x.
Arguments elevation_at {number} altitude i.
Arguments env {number} w.
Arguments now_ms {number} w.
Arguments getUser {number} w.
Arguments token_endpoint {number} w.
Arguments activity_endpoint {number} w.
Arguments streams_endpoint {number} w.
Arguments upload_endpoint {number} w.
Arguments faults {number} w.
Arguments store {number} w.
Arguments calls {number} w.
Arguments with_store {number} w s.
Arguments called {number} w e.
Arguments refreshTokenIfNeeded {number} connection.
Arguments existing_mirror {number} w user activityId.
Arguments identify {number} w req.

End MirrorActivity.

(** ** src/supabase/functions/connections/index.ts: the connections
    function *)

Module Connections.
Import JS JSON Http.

(** The two calls the function makes to the store. *)
Inductive Call :=
| Select
| Delete.

Record World := {
  env : Env;
  getUser : string -> option string;
  faults : Call -> bool;
  store : Supabase.Store
}.

Definition with_store (w : World) (s : Supabase.Store) : World :=
  {| env := env w; getUser := getUser w; faults := faults w; store := s |}.

(** The columns of the [select] (line 46), in its order. *)
Definition selected (c : Supabase.Connection) : json :=
  JObject [("id", JString (Supabase.id c));
           ("role", JString (Supabase.role c));
           ("athlete_id", JNumber (Supabase.athlete_id c));
           ("athlete_username", JString (Supabase.athlete_username c));
           ("athlete_fullname", JString (Supabase.athlete_fullname c));
           ("athlete_avatar",
            Supabase.nullable JString (Supabase.athlete_avatar c));
           ("expires_at", JNumber (Supabase.expires_at c))].

(** Lines 42-66: the two connections of the user. *)
Definition get_connections (user : string) (w : World) : Response * World :=
  if faults w Select
  then (error_response (env w) 500 "Failed to fetch connections", w)
  else
    let connections :=
      filter (fun c => String.eqb (Supabase.user_id c) user)
             (Supabase.connections (store w)) in
    let humanConnection :=
      find (fun c => String.eqb (Supabase.role c) "HUMAN") connections in
    let petConnection :=
      find (fun c => String.eqb (Supabase.role c) "PET") connections in
    (json_response (env w) 200
       (JObject
          [("humanConnection", Supabase.nullable selected humanConnection);
           ("petConnection", Supabase.nullable selected petConnection)]),
     w).

(** [delete().eq('user_id', user).eq('role', role)]. *)
Definition delete_rows (user role : string) (rows : list Supabase.Connection)
    : list Supabase.Connection :=
  filter (fun c => negb (String.eqb (Supabase.user_id c) user
                         && String.eqb (Supabase.role c) role)) rows.

(** Lines 68-100: the connection of the user under one role is deleted. *)
Definition delete_connection (user : string) (req : Request) (w : World)
    : Response * World :=
  let role := param req "role" in
  if falsy role
     || negb (String.eqb (show role) "HUMAN" || String.eqb (show role) "PET")
  then (error_response (env w) 400 "Invalid role", w)
  else if faults w Delete
  then (error_response (env w) 500 "Failed to delete connection", w)
  else
    (json_response (env w) 200 (JObject [("success", JBool true)]),
     with_store w
       (Supabase.with_connections
          (delete_rows user (show role) (Supabase.connections (store w)))
          (store w))).

Definition serve (w : World) (req : Request) : Response * World :=
  if String.eqb (method req) "OPTIONS" then (preflight (env w), w)
  else if falsy (header req "Authorization")
  then (error_response (env w) 401 "Missing authorization header", w)
  else
    match getUser w (show (header req "Authorization")) with
    | None => (error_response (env w) 401 "Unauthorized", w)
    | Some user =>
        if String.eqb (method req) "GET" then get_connections user w
        else if String.eqb (method req) "DELETE"
        then delete_connection user req w
        else (error_response (env w) 405 "Method not allowed", w)
    end.

End Connections.

(** ** Well-formed XML

    The well-formedness rules of XML 1.0 for a document in UTF-8 without a
    document type declaration.  The bytes are decoded one at a time, and a
    byte sequence that is not UTF-8 is refused; the characters are then read
    by an automaton: every character must be a legal one, tags must nest and
    their names are names of the standard, an attribute is named once and
    quoted, [<] opens markup and [&] a reference to one of the five
    predefined entities or to a legal character, [']]>'] does not occur in
    character data, comments, CDATA sections and processing instructions
    end as they must, and the XML declaration stands at the very beginning
    or nowhere. *)

Module XML.
Import JS.

(** *** The characters of the document: UTF-8, one byte at a time *)

(** The length of a character of more than one byte. *)
Inductive width := Two | Three | Four.

(** The least character that needs so many bytes: a smaller one would be an
    overlong form. *)
Definition least (w : width) : Z :=
  match w with
  | Two => 0x80
  | Three => 0x800
  | Four => 0x10000
  end.

(** A character under way: the bits read so far, the continuation bytes
    still due, and its length. *)
Record partial := { bits : Z; due : nat; size : width }.

(** What a byte does to the decoder: it is refused, it leaves a character
    under way, or it completes one. *)
Inductive fed :=
| Bad
| More (p : partial)
| Char (c : Z).

Definition between (lo hi c : Z) : bool := (lo <=? c) && (c <=? hi).

(** A Unicode scalar value that is not an overlong form. *)
Definition scalar (w : width) (c : Z) : bool :=
  (least w <=? c) && (c <=? 0x10FFFF) && negb (between 0xD800 0xDFFF c).

Definition feed (p : option partial) (b : Z) : fed :=
  match p with
  | None =>
      if b <? 0x80 then Char b
      else if between 0xC0 0xDF b
      then More {| bits := b - 0xC0; due := 1; size := Two |}
      else if between 0xE0 0xEF b
      then More {| bits := b - 0xE0; due := 2; size := Three |}
      else if between 0xF0 0xF7 b
      then More {| bits := b - 0xF0; due := 3; size := Four |}
      else Bad
  | Some q =>
      if between 0x80 0xBF b then
        let v := bits q * 64 + (b - 0x80) in
        match due q with
        | S (S n) => More {| bits := v; due := S n; size := size q |}
        | _ => if scalar (size q) v then Char v else Bad
        end
      else Bad
  end.

(** *** The character classes of XML 1.0 *)

(** [Char]. *)
Definition legal (c : Z) : bool :=
  (c =? 0x9) || (c =? 0xA) || (c =? 0xD) || between 0x20 0xD7FF c
  || between 0xE000 0xFFFD c || between 0x10000 0x10FFFF c.

(** [S]. *)
Definition is_space (c : Z) : bool :=
  (c =? 0x20) || (c =? 0x9) || (c =? 0xA) || (c =? 0xD).

(** [NameStartChar]. *)
Definition name_start (c : Z) : bool :=
  (c =? 58) || between 65 90 c || (c =? 95) || between 97 122 c
  || between 0xC0 0xD6 c || between 0xD8 0xF6 c || between 0xF8 0x2FF c
  || between 0x370 0x37D c || between 0x37F 0x1FFF c
  || between 0x200C 0x200D c || between 0x2070 0x218F c
  || between 0x2C00 0x2FEF c || between 0x3001 0xD7FF c
  || between 0xF900 0xFDCF c || between 0xFDF0 0xFFFD c
  || between 0x10000 0xEFFFF c.

(** [NameChar]. *)
Definition name_char (c : Z) : bool :=
  name_start c || (c =? 45) || (c =? 46) || between 48 57 c || (c =? 0xB7)
  || between 0x300 0x36F c || between 0x203F 0x2040 c.

Definition is_decimal (c : Z) : bool := between 48 57 c.

Definition hex_value (c : Z) : option Z :=
  if between 48 57 c then Some (c - 48)
  else if between 65 70 c then Some (c - 55)
  else if between 97 102 c then Some (c - 87)
  else None.

(** Whether [c] is the ASCII character [a]. *)
Definition is_char (c : Z) (a : ascii) : bool := c =? char_code a.

(** *** Names *)

Definition name := list Z.

Definition name_of (s : string) : name := map char_code (list_ascii_of_string s).

Fixpoint same_name (a b : name) : bool :=
  match a, b with
  | [], [] => true
  | x :: a', y :: b' => (x =? y) && same_name a' b'
  | _, _ => false
  end.

Definition snoc (n : name) (c : Z) : name := (n ++ [c])%list.

Definition named (a : name) (attrs : list name) : bool :=
  existsb (same_name a) attrs.

(** The entities a document without declarations may refer to. *)
Definition predefined (n : name) : bool :=
  same_name n (name_of "amp") || same_name n (name_of "lt")
  || same_name n (name_of "gt") || same_name n (name_of "apos")
  || same_name n (name_of "quot").

(** The targets kept for the standard: [xml] in any case of its letters. *)
Definition reserved (n : name) : bool :=
  match n with
  | [x; m; l] =>
      ((x =? 120) || (x =? 88)) && ((m =? 109) || (m =? 77))
      && ((l =? 108) || (l =? 76))
  | _ => false
  end.

(** *** The XML declaration *)

Fixpoint skip_spaces (l : list Z) : list Z :=
  match l with
  | c :: r => if is_space c then skip_spaces r else l
  | [] => []
  end.

Fixpoint drop_word (word l : list Z) : option (list Z) :=
  match word, l with
  | [], _ => Some l
  | a :: w, b :: r => if a =? b then drop_word w r else None
  | _ :: _, [] => None
  end.

(** The value up to the quote [q], and what follows the quote. *)
Fixpoint until_quote (q : Z) (l : list Z) : option (list Z * list Z) :=
  match l with
  | [] => None
  | c :: r =>
      if c =? q then Some ([], r)
      else match until_quote q r with
           | Some (v, rest) => Some (c :: v, rest)
           | None => None
           end
  end.

(** [S name Eq quote value quote], with a value that [ok] accepts: what
    follows it. *)
Definition pseudo_attribute (key : string) (ok : list Z -> bool) (l : list Z)
    : option (list Z) :=
  match l with
  | c :: _ =>
      if is_space c then
        match drop_word (name_of key) (skip_spaces l) with
        | Some r1 =>
            match skip_spaces r1 with
            | e :: r2 =>
                if is_char e "=" then
                  match skip_spaces r2 with
                  | q :: r3 =>
                      if is_char q "034" || is_char q "'" then
                        match until_quote q r3 with
                        | Some (v, rest) => if ok v then Some rest else None
                        | None => None
                        end
                      else None
                  | [] => None
                  end
                else None
            | [] => None
            end
        | None => None
        end
      else None
  | [] => None
  end.

(** [VersionNum]: [1.] and digits. *)
Definition version_num (v : list Z) : bool :=
  match v with
  | a :: b :: d :: r => is_char a "1" && is_char b "." && forallb is_decimal (d :: r)
  | _ => false
  end.

(** The encoding the document is read in: [UTF-8], in any case of its
    letters. *)
Definition enc_name (v : list Z) : bool :=
  match v with
  | [u; t; f; h; e] =>
      ((u =? 85) || (u =? 117)) && ((t =? 84) || (t =? 116))
      && ((f =? 70) || (f =? 102)) && is_char h "-" && is_char e "8"
  | _ => false
  end.

Definition yes_no (v : list Z) : bool :=
  same_name v (name_of "yes") || same_name v (name_of "no").

(** What stands between [<?xml] and [?>] in an XML declaration: the
    version, then the encoding and the standalone declaration when they are
    there. *)
Definition declaration (body : list Z) : bool :=
  match pseudo_attribute "version" version_num body with
  | Some r1 =>
      let r2 := match pseudo_attribute "encoding" enc_name r1 with
                | Some r => r
                | None => r1
                end in
      let r3 := match pseudo_attribute "standalone" yes_no r2 with
                | Some r => r
                | None => r2
                end in
      match skip_spaces r3 with
      | [] => true
      | _ => false
      end
  | None => false
  end.

(** *** The automaton *)

Inductive reference :=
| RefStart
| RefName (n : name)
| RefHash
| RefDec (value : Z)
| RefHexStart
| RefHex (value : Z).

Inductive mode :=
| Begin (mark : bool)
| Text (brackets : nat)
| Lt (first : bool)
| StartName (n : name)
| Tag (n : name) (attrs : list name) (spaced : bool)
| AttrName (n : name) (attrs : list name) (attr : name)
| AttrEq (n : name) (attrs : list name)
| AttrQuote (n : name) (attrs : list name)
| AttrValue (n : name) (attrs : list name) (q : Z)
| AttrRef (n : name) (attrs : list name) (q : Z) (r : reference)
| SelfClose (n : name)
| EndName (n : name)
| EndSpace (n : name)
| Ref (r : reference)
| Bang
| BangDash
| Comment (dashes : nat)
| CDataOpen (seen : nat)
| CData (brackets : nat)
| PIName (first : bool) (n : name)
| PIBody (question : bool)
| PIEnd
| Decl (body : list Z) (question : bool).

Record state := {
  now : mode;
  open : list name;
  root_closed : bool
}.

Definition go (m : mode) (st : state) : option state :=
  Some {| now := m; open := open st; root_closed := root_closed st |}.

(** One step of a reference; [None] is a failure, [Some None] its end.  A
    character reference must name a legal character. *)
Definition reference_step (r : reference) (c : Z)
    : option (option reference) :=
  match r with
  | RefStart =>
      if is_char c "#" then Some (Some RefHash)
      else if name_start c then Some (Some (RefName [c]))
      else None
  | RefName n =>
      if is_char c ";" then (if predefined n then Some None else None)
      else if name_char c then Some (Some (RefName (snoc n c)))
      else None
  | RefHash =>
      if is_char c "x" then Some (Some RefHexStart)
      else if is_decimal c then Some (Some (RefDec (c - 48)))
      else None
  | RefDec value =>
      if is_char c ";" then (if legal value then Some None else None)
      else if is_decimal c then Some (Some (RefDec (value * 10 + (c - 48))))
      else None
  | RefHexStart =>
      match hex_value c with
      | Some v => Some (Some (RefHex v))
      | None => None
      end
  | RefHex value =>
      if is_char c ";" then (if legal value then Some None else None)
      else match hex_value c with
           | Some v => Some (Some (RefHex (value * 16 + v)))
           | None => None
           end
  end.

(** The end of a start tag: the element is now open. *)
Definition push (n : name) (st : state) : option state :=
  Some {| now := Text 0; open := n :: open st;
          root_closed := root_closed st |}.

(** The end of an empty-element tag. *)
Definition close_empty (st : state) : option state :=
  Some {| now := Text 0; open := open st;
          root_closed := match open st with
                         | [] => true
                         | _ => root_closed st
                         end |}.

(** The end of an end tag: it must name the innermost open element. *)
Definition pop (n : name) (st : state) : option state :=
  match open st with
  | top :: rest =>
      if same_name top n
      then Some {| now := Text 0; open := rest;
                   root_closed := match rest with
                                  | [] => true
                                  | _ => root_closed st
                                  end |}
      else None
  | [] => None
  end.

Definition inside (st : state) : bool :=
  match open st with
  | [] => false
  | _ => true
  end.

(** After a [<]. *)
Definition markup (first : bool) (st : state) (c : Z) : option state :=
  if is_char c "/" then (if inside st then go (EndName []) st else None)
  else if is_char c "!" then go Bang st
  else if is_char c "?" then go (PIName first []) st
  else if name_start c then
    (if negb (inside st) && root_closed st then None
     else go (StartName [c]) st)
  else None.

Definition step (st : state) (c : Z) : option state :=
  match now st with
  | Begin mark =>
      if mark && (c =? 0xFEFF) then go (Begin false) st
      else if is_char c "<" then go (Lt true) st
      else if is_space c then go (Text 0) st
      else None
  | Text brackets =>
      if is_char c "<" then go (Lt false) st
      else if negb (inside st) then (if is_space c then go (Text 0) st else None)
      else if is_char c "&" then go (Ref RefStart) st
      else if is_char c ">" then
        (if (2 <=? brackets)%nat then None else go (Text 0) st)
      else if is_char c "]" then go (Text (S brackets)) st
      else if legal c then go (Text 0) st
      else None
  | Lt first => markup first st c
  | StartName n =>
      if name_char c then go (StartName (snoc n c)) st
      else if is_space c then go (Tag n [] true) st
      else if is_char c ">" then push n st
      else if is_char c "/" then go (SelfClose n) st
      else None
  | Tag n attrs spaced =>
      if is_space c then go (Tag n attrs true) st
      else if is_char c ">" then push n st
      else if is_char c "/" then go (SelfClose n) st
      else if name_start c && spaced then go (AttrName n attrs [c]) st
      else None
  | AttrName n attrs attr =>
      if name_char c then go (AttrName n attrs (snoc attr c)) st
      else if named attr attrs then None
      else if is_space c then go (AttrEq n (attr :: attrs)) st
      else if is_char c "=" then go (AttrQuote n (attr :: attrs)) st
      else None
  | AttrEq n attrs =>
      if is_space c then go (AttrEq n attrs) st
      else if is_char c "=" then go (AttrQuote n attrs) st
      else None
  | AttrQuote n attrs =>
      if is_space c then go (AttrQuote n attrs) st
      else if is_char c "034" || is_char c "'" then go (AttrValue n attrs c) st
      else None
  | AttrValue n attrs q =>
      if c =? q then go (Tag n attrs false) st
      else if is_char c "<" then None
      else if is_char c "&" then go (AttrRef n attrs q RefStart) st
      else if legal c then go (AttrValue n attrs q) st
      else None
  | AttrRef n attrs q r =>
      match reference_step r c with
      | Some (Some r') => go (AttrRef n attrs q r') st
      | Some None => go (AttrValue n attrs q) st
      | None => None
      end
  | SelfClose n => if is_char c ">" then close_empty st else None
  | EndName n =>
      if (match n with
          | [] => name_start c
          | _ => name_char c
          end)
      then go (EndName (snoc n c)) st
      else
        match n with
        | [] => None
        | _ =>
            if is_space c then go (EndSpace n) st
            else if is_char c ">" then pop n st
            else None
        end
  | EndSpace n =>
      if is_space c then go (EndSpace n) st
      else if is_char c ">" then pop n st
      else None
  | Ref r =>
      match reference_step r c with
      | Some (Some r') => go (Ref r') st
      | Some None => go (Text 0) st
      | None => None
      end
  | Bang =>
      if is_char c "-" then go BangDash st
      else if is_char c "[" then (if inside st then go (CDataOpen 1) st else None)
      else None
  | BangDash => if is_char c "-" then go (Comment 0) st else None
  | Comment dashes =>
      match dashes with
      | S (S _) => if is_char c ">" then go (Text 0) st else None
      | _ =>
          if is_char c "-" then go (Comment (S dashes)) st
          else if legal c then go (Comment 0) st
          else None
      end
  | CDataOpen seen =>
      match String.get seen "[CDATA[" with
      | Some expected =>
          if is_char c expected
          then go (if (seen =? 6)%nat then CData 0 else CDataOpen (S seen)) st
          else None
      | None => None
      end
  | CData brackets =>
      if is_char c "]" then go (CData (S brackets)) st
      else if is_char c ">" && (2 <=? brackets)%nat then go (Text 0) st
      else if legal c then go (CData 0) st
      else None
  | PIName first n =>
      match n with
      | [] => if name_start c then go (PIName first [c]) st else None
      | _ =>
          if name_char c then go (PIName first (snoc n c)) st
          else if first && same_name n (name_of "xml")
          then (if is_space c then go (Decl [c] false) st else None)
          else if reserved n then None
          else if is_space c then go (PIBody false) st
          else if is_char c "?" then go PIEnd st
          else None
      end
  | PIBody question =>
      if is_char c ">" && question then go (Text 0) st
      else if legal c then go (PIBody (is_char c "?")) st
      else None
  | PIEnd => if is_char c ">" then go (Text 0) st else None
  | Decl body question =>
      if is_char c ">" && question
      then (if declaration (removelast body) then go (Text 0) st else None)
      else if legal c then go (Decl (snoc body c) (is_char c "?")) st
      else None
  end.

(** The automaton over the bytes of the document. *)
Record reader := {
  parsed : state;
  pending : option partial
}.

Definition read (r : reader) (b : ascii) : option reader :=
  match feed (pending r) (char_code b) with
  | Bad => None
  | More p => Some {| parsed := parsed r; pending := Some p |}
  | Char c =>
      match step (parsed r) c with
      | Some st => Some {| parsed := st; pending := None |}
      | None => None
      end
  end.

Fixpoint run (r : option reader) (text : string) : option reader :=
  match text with
  | EmptyString => r
  | String b rest =>
      match r with
      | Some s => run (read s b) rest
      | None => None
      end
  end.

Definition start : reader :=
  {| parsed := {| now := Begin true; open := []; root_closed := false |};
     pending := None |}.

Definition accepted (r : option reader) : bool :=
  match r with
  | Some {| parsed := {| now := Text _; open := []; root_closed := true |};
            pending := None |} => true
  | _ => false
  end.

(** Whether the bytes are a well-formed XML 1.0 document in UTF-8 that has
    no document type declaration: a declared encoding other than UTF-8 is
    refused, and so is a [<!DOCTYPE], with the entities it could declare. *)
Definition well_formed (document : string) : bool :=
  accepted (run (Some start) document).

End XML.

(** ** Sample data, for the closed statements of Part III *)

Module Sample.
Import JS JSON Http.

Definition stateSecret : string := "state-secret".

(** A payload as the authorization-start function writes it. *)
Definition payload : json :=
  OAuthAuthorize.statePayload "3f1c9a52-7f0e-4a57-9d1b-0c2f6a1d9b11" "HUMAN"
    1700000600 "bm9uY2U" "dmVyaWZpZXI".

(** The same payload for [userId=a.b]. *)
Definition dotted_payload : json :=
  OAuthAuthorize.statePayload "a.b" "HUMAN" 1700000600 "bm9uY2U" "dmVyaWZpZXI".

Definition state : string := OAuthAuthorize.signedState payload stateSecret.

Definition dotted_state : string :=
  OAuthAuthorize.signedState dotted_payload stateSecret.

(** The text of [state] with a third part after the signature. *)
Definition three_part_state : string :=
  let canonicalJson := stringify payload in
  OAuthAuthorize.base64urlEncode
    (TextEncoder_encode
       (canonicalJson ++ "."
        ++ OAuthAuthorize.hmacSha256 canonicalJson stateSecret ++ ".x")).

(** Ten minutes before, and one second after, the expiry of [payload]. *)
Definition issued_ms : Z := 1700000000000.

Definition late_ms : Z := 1700000601000.

(** *** A callback *)

Definition user : string := "3f1c9a52-7f0e-4a57-9d1b-0c2f6a1d9b11".

Definition settings : Env := fun key =>
  if String.eqb key "SUPABASE_URL" then Some "https://app.example"
  else if String.eqb key "STATE_SECRET" then Some stateSecret
  else if String.eqb key "STRAVA_CLIENT_ID" then Some "1234"
  else if String.eqb key "STRAVA_CLIENT_SECRET" then Some "client-secret"
  else if String.eqb key "ALLOWED_ORIGIN" then Some "https://app.example"
  else None.

Definition athlete7 : Strava.Athlete :=
  {| Strava.id := 7; Strava.username := Some "rex";
     Strava.firstname := Some "Rex"; Strava.lastname := None;
     Strava.profile := None; Strava.profile_medium := None |}.

Definition tokens7 : Strava.TokenData :=
  {| Strava.access_token := "access-7"; Strava.refresh_token := "refresh-7";
     Strava.expires_at := 1700021600; Strava.athlete := Some athlete7 |}.

(** The user has linked athlete 7 as PET. *)
Definition pet7 : Supabase.Connection :=
  {| Supabase.id := "c-1"; Supabase.user_id := user; Supabase.role := "PET";
     Supabase.athlete_id := 7; Supabase.athlete_username := "rex";
     Supabase.athlete_fullname := "Rex"; Supabase.athlete_avatar := None;
     Supabase.access_token := "access-old"; Supabase.refresh_token := "refresh-old";
     Supabase.expires_at := 1700010000 |}.

Definition callback_world : OAuthCallback.World :=
  {| OAuthCallback.env := settings;
     OAuthCallback.now_ms := issued_ms;
     OAuthCallback.token_endpoint := fun _ => Strava.Replied (Ok tokens7);
     OAuthCallback.faults := Supabase.no_faults;
     OAuthCallback.store :=
       {| Supabase.connections := [pet7]; Supabase.mirrors := [];
          Supabase.uuids := ["c-2"] |} |}.

(** The provider's redirect for the HUMAN role. *)
Definition callback_request : Request :=
  {| method := "GET";
     searchParams := [("code", "authorization-code"); ("state", state)];
     headers := []; body := "" |}.

(** *** A mirror request *)

(** Coordinates by their decimal text, and the one date of the sample. *)
Definition decimal : Type := string.

Definition decimal_text (x : decimal) : string := x.

Definition sample_date (text : string) : option Z :=
  if String.eqb text "2024-05-01T06:30:00Z" then Some 1714545000000 else None.

Definition run (title : string) : MirrorActivity.StravaActivity decimal :=
  {| MirrorActivity.id := 42; MirrorActivity.athlete_id := 5;
     MirrorActivity.name := title; MirrorActivity.type := "Run";
     MirrorActivity.distance := "5012.3"; MirrorActivity.moving_time := 1800;
     MirrorActivity.elapsed_time := 1900;
     MirrorActivity.total_elevation_gain := "12.0";
     MirrorActivity.start_date := "2024-05-01T06:30:00Z";
     MirrorActivity.start_latlng := None; MirrorActivity.end_latlng := None;
     MirrorActivity.visibility := "everyone" |}.

(** Three GPS samples; the altitude array, when there is one, is given. *)
Definition samples (altitude : option (list decimal))
    : MirrorActivity.StravaStream decimal :=
  {| MirrorActivity.latlng :=
       Some [("47.10", "8.50"); ("47.11", "8.51"); ("47.12", "8.52")];
     MirrorActivity.time := Some [0; 5; 65];
     MirrorActivity.altitude := altitude |}.

Definition human5 : Supabase.Connection :=
  {| Supabase.id := "c-5"; Supabase.user_id := user; Supabase.role := "HUMAN";
     Supabase.athlete_id := 5; Supabase.athlete_username := "ann";
     Supabase.athlete_fullname := "Ann"; Supabase.athlete_avatar := None;
     Supabase.access_token := "access-5"; Supabase.refresh_token := "refresh-5";
     Supabase.expires_at := 1800000000 |}.

Definition pet8 : Supabase.Connection :=
  {| Supabase.id := "c-8"; Supabase.user_id := user; Supabase.role := "PET";
     Supabase.athlete_id := 8; Supabase.athlete_username := "rex";
     Supabase.athlete_fullname := "Rex"; Supabase.athlete_avatar := None;
     Supabase.access_token := "access-8"; Supabase.refresh_token := "refresh-8";
     Supabase.expires_at := 1800000000 |}.

Definition linked : Supabase.Store :=
  {| Supabase.connections := [human5; pet8]; Supabase.mirrors := [];
     Supabase.uuids := ["m-1"; "m-2"] |}.

Definition mirror_world (faults : Supabase.Faults) (store : Supabase.Store)
    : MirrorActivity.World decimal :=
  {| MirrorActivity.env := settings;
     MirrorActivity.now_ms := issued_ms;
     MirrorActivity.getUser := fun authorization =>
       if String.eqb authorization "Bearer session-1" then Some user else None;
     MirrorActivity.token_endpoint := fun _ => Strava.Replied (Ok tokens7);
     MirrorActivity.activity_endpoint := fun activity _ =>
       if activity =? 42 then Strava.Replied (Ok (run "Morning Run"))
       else Strava.NotOk 404 "Record Not Found";
     MirrorActivity.streams_endpoint := fun _ _ =>
       Strava.Replied (Ok (samples None));
     MirrorActivity.upload_endpoint := fun _ => Strava.Replied (Ok 9001);
     MirrorActivity.faults := faults;
     MirrorActivity.store := store;
     MirrorActivity.calls := [] |}.

Definition mirror_request : Request :=
  {| method := "POST"; searchParams := [];
     headers := [("Authorization", "Bearer session-1")];
     body := stringify
               (JObject [("activityUrl",
                          JString "https://www.strava.com/activities/42")]) |}.

(** The store fails the insert of the mirror record, and nothing else. *)
Definition insert_fails : Supabase.Faults := fun call =>
  match call with
  | Supabase.InsertMirror => true
  | _ => false
  end.

(** The store fails the update of a connection, and nothing else. *)
Definition update_fails : Supabase.Faults := fun call =>
  match call with
  | Supabase.UpdateConnection => true
  | _ => false
  end.

(** A connection whose token expires 100 s after [issued_ms]. *)
Definition stale5 : Supabase.Connection :=
  Supabase.set_tokens "access-5" "refresh-5" 1700000100 human5.

Definition stale_store : Supabase.Store :=
  {| Supabase.connections := [stale5; pet8]; Supabase.mirrors := [];
     Supabase.uuids := [] |}.

Definition is_upload (e : MirrorActivity.Event) : bool :=
  match e with
  | MirrorActivity.UploadCall _ => true
  | _ => false
  end.

End Sample.

(** ** More sample data *)

Module Fixture.
Import JS JSON Http.

(** A payload signed by somebody who does not hold the secret. *)
Definition forged_payload : json :=
  OAuthAuthorize.statePayload "victim" "HUMAN" 1800000000 "bm9uY2U"
    "dmVyaWZpZXI".

Definition forged_text : string := stringify forged_payload ++ ".AAAA".

Definition forged_state : string :=
  OAuthAuthorize.base64urlEncode (TextEncoder_encode forged_text).

(** A request to the authorization-start function, and the bytes the
    random generator gives it. *)
Definition authorize_request : Request :=
  {| method := "GET";
     searchParams := [("role", "PET"); ("userId", Sample.user)];
     headers := []; body := "" |}.

Definition entropy : list byte := repeat x5a%byte 64.

(** The world of a user who has linked nothing yet. *)
Definition unlinked_world : OAuthCallback.World :=
  {| OAuthCallback.env := Sample.settings;
     OAuthCallback.now_ms := Sample.issued_ms;
     OAuthCallback.token_endpoint := fun _ => Strava.Replied (Ok Sample.tokens7);
     OAuthCallback.faults := Supabase.no_faults;
     OAuthCallback.store :=
       {| Supabase.connections := []; Supabase.mirrors := [];
          Supabase.uuids := ["c-1"; "c-2"] |} |}.

(** The provider's redirect for the PET role. *)
Definition pet_payload : json :=
  OAuthAuthorize.statePayload Sample.user "PET" 1700000600 "bm9uY2U"
    "dmVyaWZpZXI".

Definition pet_request : Request :=
  {| method := "GET";
     searchParams :=
       [("code", "authorization-code");
        ("state", OAuthAuthorize.signedState pet_payload Sample.stateSecret)];
     headers := []; body := "" |}.

(** Two GPS samples, and a time stream that stops after the first. *)
Definition short_time : MirrorActivity.StravaStream Sample.decimal :=
  {| MirrorActivity.latlng := Some [("47.10", "8.50"); ("47.11", "8.51")];
     MirrorActivity.time := Some [0];
     MirrorActivity.altitude := None |}.

(** The connections function in front of a store, for the session of
    [Sample.user]. *)
Definition listing_world (s : Supabase.Store) : Connections.World :=
  {| Connections.env := Sample.settings;
     Connections.getUser := fun authorization =>
       if String.eqb authorization "Bearer session-1"
       then Some Sample.user else None;
     Connections.faults := fun _ => false;
     Connections.store := s |}.

Definition listing_request : Request :=
  {| method := "GET"; searchParams := [];
     headers := [("Authorization", "Bearer session-1")]; body := "" |}.

Definition unlink_request (role : string) : Request :=
  {| method := "DELETE"; searchParams := [("role", role)];
     headers := [("Authorization", "Bearer session-1")]; body := "" |}.

(** The linked store after both tokens of the human account were rotated. *)
Definition rotated : Supabase.Store :=
  {| Supabase.connections :=
       [Supabase.set_tokens "access-5b" "refresh-5b" 1800000000 Sample.human5;
        Sample.pet8];
     Supabase.mirrors := []; Supabase.uuids := ["m-1"; "m-2"] |}.

End Fixture.

(* ================================================================== *)
(** * Part II.  The vocabulary of the statements                      *)
(* ================================================================== *)

Import JS.

(** ** The base64url alphabet *)

(** A six-bit group. *)
Definition sextet (v : Z) : Prop := 0 <= v < 64.

(** The base64url form of a list of sextets: [+] and [/] replaced. *)
Definition url_of (s : string) : string :=
  replaceAll "/" "_" (replaceAll "+" "-" s).

(** ** The state payload *)

(** Text in ASCII. *)
Fixpoint ascii_text (s : string) : bool :=
  match s with
  | EmptyString => true
  | String c r => (char_code c <? 128) && ascii_text r
  end.

(** A printable ASCII character other than the double quote, the backslash
    and the full stop. *)
Definition simple_char (c : ascii) : bool :=
  let n := char_code c in
  (32 <=? n) && (n <? 127) && negb (n =? 34) && negb (n =? 92)
  && negb (n =? 46).

(** A string of such characters: a UUID, a role, a base64url text. *)
Fixpoint simple (s : string) : bool :=
  match s with
  | EmptyString => true
  | String c r => simple_char c && simple r
  end.

(** A quoted string, with what follows it. *)
Definition quoted (s rest : string) : string :=
  String "034" (s ++ String "034" rest).

(** What may follow a number: nothing that goes on with it. *)
Definition ends_number (rest : string) : bool :=
  match rest with
  | EmptyString => true
  | String c _ =>
      negb (JSON.is_digit c) && negb (JSON.starts_fraction_or_exponent rest)
  end.

(** The canonical JSON of a state payload whose strings are simple. *)
Definition payload_text (userId role : string) (exp : Z)
    (nonce codeVerifier : string) : string :=
  String "{"
    (quoted "userId" (String ":" (quoted userId (String ","
    (quoted "role" (String ":" (quoted role (String ","
    (quoted "exp" (String ":" (JSON.Number_toString exp ++ String ","
    (quoted "nonce" (String ":" (quoted nonce (String ","
    (quoted "codeVerifier" (String ":" (quoted codeVerifier "}"
    )))))))))))))))))).

(** ** The token refresh *)

(** The request of lines 261-272. *)
Definition refresh_request {number : Type} (w : MirrorActivity.World number)
    (connection : Supabase.Connection) : Strava.TokenRequest :=
  {| Strava.client_id := MirrorActivity.env w "STRAVA_CLIENT_ID";
     Strava.client_secret := MirrorActivity.env w "STRAVA_CLIENT_SECRET";
     Strava.grant_type := "refresh_token";
     Strava.code := None;
     Strava.code_verifier := None;
     Strava.refresh := Some (Supabase.refresh_token connection) |}.

(** ** The callback *)

(** UNIQUE(user_id, athlete_id) on the connections table. *)
Definition unique_athletes (rows : list Supabase.Connection) : Prop :=
  NoDup (map (fun c => (Supabase.user_id c, Supabase.athlete_id c)) rows).

(** A callback request that gets as far as the lookup of the connection:
    no provider error, a code, a state that verifies to a payload with a
    user and a role, configured credentials, and a token exchange whose
    reply names the athlete. *)
Record reaches_lookup (w : OAuthCallback.World) (req : Http.Request)
    (userId role : string) (tokenData : Strava.TokenData)
    (athlete : Strava.Athlete) : Prop := {
  not_preflight : Http.method req <> "OPTIONS";
  no_error : falsy (Http.param req "error") = true;
  has_code : falsy (Http.param req "code") = false;
  has_state : falsy (Http.param req "state") = false;
  has_secret : falsy (OAuthCallback.env w "STATE_SECRET") = false;
  state_valid :
    exists statePayload,
      OAuthCallback.validateState
        (Http.show (OAuthCallback.env w "STATE_SECRET"))
        (OAuthCallback.now_ms w) (Http.show (Http.param req "state"))
      = Ok statePayload
      /\ JSON.get statePayload "userId" = Ok (Some (JSON.JString userId))
      /\ JSON.get statePayload "role" = Ok (Some (JSON.JString role))
      /\ exists codeVerifier,
           JSON.get statePayload "codeVerifier" = Ok codeVerifier
           /\ OAuthCallback.token_endpoint w
                {| Strava.client_id := OAuthCallback.env w "STRAVA_CLIENT_ID";
                   Strava.client_secret :=
                     OAuthCallback.env w "STRAVA_CLIENT_SECRET";
                   Strava.grant_type := "authorization_code";
                   Strava.code := Http.param req "code";
                   Strava.code_verifier := codeVerifier;
                   Strava.refresh := None |}
              = Strava.Replied (Ok tokenData);
  has_client_id : falsy (OAuthCallback.env w "STRAVA_CLIENT_ID") = false;
  has_client_secret : falsy (OAuthCallback.env w "STRAVA_CLIENT_SECRET") = false;
  names_athlete : Strava.athlete tokenData = Some athlete
}.

(** The queries the callback appends to the application's base URL. *)
Definition redirect_query (q : string) : Prop :=
  In q ["?error=oauth_denied"; "?error=invalid_request"; "?error=server_error";
        "?error=invalid_state"; "?error=token_exchange_failed";
        "?error=database_error"]
  \/ (exists athlete_id,
        q = "?error=athlete_role_conflict&athlete_id="
            ++ JSON.Number_toString athlete_id)
  \/ (exists role, q = "?oauth_success=true&role=" ++ JSON.ToString role).

(** The same world, where the provider hands out other tokens: every reply
    of the token endpoint has its access and refresh token replaced. *)
Definition with_other_tokens (other : Strava.TokenData -> string * string)
    (w : OAuthCallback.World) : OAuthCallback.World :=
  {| OAuthCallback.env := OAuthCallback.env w;
     OAuthCallback.now_ms := OAuthCallback.now_ms w;
     OAuthCallback.token_endpoint := fun request =>
       match OAuthCallback.token_endpoint w request with
       | Strava.Replied (Ok d) =>
           Strava.Replied
             (Ok {| Strava.access_token := fst (other d);
                    Strava.refresh_token := snd (other d);
                    Strava.expires_at := Strava.expires_at d;
                    Strava.athlete := Strava.athlete d |})
       | reply => reply
       end;
     OAuthCallback.faults := OAuthCallback.faults w;
     OAuthCallback.store := OAuthCallback.store w |}.

(** A 302 whose Location is the base URL and one of these queries. *)
Definition is_redirect (w : OAuthCallback.World) (r : Http.Response) : Prop :=
  Http.status r = 302
  /\ exists q, Http.Location r
               = Some (Http.show (OAuthCallback.env w "SUPABASE_URL") ++ q)
               /\ redirect_query q.

(** ** The mirror record *)

(** A reply that reports a stored mirror record: status 200 and a [mirror]
    field that is not null. *)
Definition recorded (response : Http.Response) (record : JSON.json) : Prop :=
  Http.status response = 200
  /\ exists body, Http.response_body response = Some body
                  /\ JSON.get body "mirror" = Ok (Some record)
                  /\ record <> JSON.JNull.

(** ** The GPX track log *)


(** [Deno.env.get('TITLE_PREFIX') || 'Run with ... '] (line 325). *)
Definition titlePrefix (env : Http.Env) : string :=
  MirrorActivity.or_default (env "TITLE_PREFIX")
    MirrorActivity.default_title_prefix.

(** The text of the file up to the first name element's content. *)
Definition gpx_head (env : Http.Env) : string :=
  "<?xml version=" ++ JS.dquote ++ "1.0" ++ JS.dquote ++ " encoding="
  ++ JS.dquote ++ "UTF-8" ++ JS.dquote ++ "?>" ++ JS.newline
  ++ "<gpx version=" ++ JS.dquote ++ "1.1" ++ JS.dquote ++ " creator="
  ++ JS.dquote
  ++ MirrorActivity.or_default (env "APP_NAME") "Pet Activity Syncer"
  ++ JS.dquote ++ ">" ++ JS.newline
  ++ "  <metadata>" ++ JS.newline
  ++ "    <name>" ++ titlePrefix env.

(** A time value a Date can hold. *)
Definition in_range (t : Z) : Prop := Z.abs t <= 8640000000000000.

(** The altitude sample of point [i], when there is one. *)
Definition altitude_at {number : Type} (altitude : option (list number))
    (i : nat) : option number :=
  match altitude with
  | Some data => nth_error data i
  | None => None
  end.

(** A track point element, with its elevation element when [ele] is given. *)
Definition track_point (lat lon timestamp : string) (ele : option string)
    : string :=
  "      <trkpt lat=" ++ JS.dquote ++ lat ++ JS.dquote
  ++ " lon=" ++ JS.dquote ++ lon ++ JS.dquote ++ ">" ++ JS.newline
  ++ "        <time>" ++ timestamp ++ "</time>"
  ++ match ele with
     | Some e => JS.newline ++ "        <ele>" ++ e ++ "</ele>"
     | None => ""
     end
  ++ JS.newline ++ "      </trkpt>" ++ JS.newline.

(** What the claim expects of the file: the fixed frame around [n] track
    points. *)
Definition track_log (env : Http.Env) (title started : string)
    (points : list string) : string :=
  gpx_head env ++ title ++ "</name>" ++ JS.newline
  ++ "    <time>" ++ started ++ "</time>" ++ JS.newline
  ++ "  </metadata>" ++ JS.newline
  ++ "  <trk>" ++ JS.newline
  ++ "    <name>" ++ titlePrefix env ++ title ++ "</name>" ++ JS.newline
  ++ "    <trkseg>" ++ JS.newline
  ++ fold_right append "" points ++ "    </trkseg>" ++ JS.newline
  ++ "  </trk>" ++ JS.newline
  ++ "</gpx>".

(** Whether the text, read as UTF-8 after the bytes that left [p] under
    way, is made of whole characters that all satisfy [ok]. *)
Fixpoint text_of (ok : Z -> bool) (p : option XML.partial) (text : string)
    : bool :=
  match text with
  | EmptyString =>
      match p with
      | None => true
      | Some _ => false
      end
  | String b rest =>
      match XML.feed p (JS.char_code b) with
      | XML.Bad => false
      | XML.More q => text_of ok (Some q) rest
      | XML.Char c => ok c && text_of ok None rest
      end
  end.

(** Character data that needs no escaping and cannot end a CDATA section:
    a legal character other than [<], [&] and [>]. *)
Definition plain (c : Z) : bool :=
  XML.legal c && negb (XML.is_char c "<") && negb (XML.is_char c "&")
  && negb (XML.is_char c ">").

(** Text of such characters. *)
Definition plain_text (text : string) : bool := text_of plain None text.



(** Where the name of the metadata stands: character data of [name] in
    [metadata] in [gpx]. *)
Definition in_metadata_name : XML.reader :=
  {| XML.parsed :=
       {| XML.now := XML.Text 0;
          XML.open := [XML.name_of "name"; XML.name_of "metadata";
                       XML.name_of "gpx"];
          XML.root_closed := false |};
     XML.pending := None |}.

(** The second track point of the sample activity, as the file has it when
    the altitude stream holds one sample only. *)
Definition second_point_text : string :=
  "      <trkpt lat=" ++ JS.dquote ++ "47.11" ++ JS.dquote ++ " lon="
  ++ JS.dquote ++ "8.51" ++ JS.dquote ++ ">" ++ JS.newline
  ++ "        <time>2024-05-01T06:30:05.000Z</time>" ++ JS.newline
  ++ "        <ele>undefined</ele>" ++ JS.newline
  ++ "      </trkpt>" ++ JS.newline.

(** ** The texts of the codec *)

(** A character of the base64url alphabet. *)
Definition base64url_char (c : ascii) : bool :=
  let n := char_code c in
  ((48 <=? n) && (n <=? 57)) || ((65 <=? n) && (n <=? 90))
  || ((97 <=? n) && (n <=? 122)) || (n =? 45) || (n =? 95).

Fixpoint base64url_text (s : string) : bool :=
  match s with
  | EmptyString => true
  | String c r => base64url_char c && base64url_text r
  end.

(** ** The connections table *)

(** UNIQUE(user_id, role) on the connections table. *)
Definition unique_roles (rows : list Supabase.Connection) : Prop :=
  NoDup (map (fun c => (Supabase.user_id c, Supabase.role c)) rows).

(** The row an upsert writes over [r], which keeps its id. *)
Definition overwrite (row r : Supabase.Connection) : Supabase.Connection :=
  {| Supabase.id := Supabase.id r; Supabase.user_id := Supabase.user_id row;
     Supabase.role := Supabase.role row;
     Supabase.athlete_id := Supabase.athlete_id row;
     Supabase.athlete_username := Supabase.athlete_username row;
     Supabase.athlete_fullname := Supabase.athlete_fullname row;
     Supabase.athlete_avatar := Supabase.athlete_avatar row;
     Supabase.access_token := Supabase.access_token row;
     Supabase.refresh_token := Supabase.refresh_token row;
     Supabase.expires_at := Supabase.expires_at row |}.

(** Whether [r] is the row of the user and role of [row]. *)
Definition same_slot (row r : Supabase.Connection) : bool :=
  String.eqb (Supabase.user_id r) (Supabase.user_id row)
  && String.eqb (Supabase.role r) (Supabase.role row).

(** The two UNIQUE constraints of the table. *)
Definition consistent (s : Supabase.Store) : Prop :=
  unique_roles (Supabase.connections s)
  /\ unique_athletes (Supabase.connections s).

(** ** The calls of the mirror function *)

(** The uploads among the calls made. *)
Definition uploads (events : list MirrorActivity.Event)
    : list MirrorActivity.UploadRequest :=
  flat_map (fun e => match e with
                     | MirrorActivity.UploadCall r => [r]
                     | _ => []
                     end) events.

(** What a connection is, apart from its tokens. *)
Definition identity (c : Supabase.Connection)
    : string * string * string * Z * string * string * option string :=
  (Supabase.id c, Supabase.user_id c, Supabase.role c, Supabase.athlete_id c,
   Supabase.athlete_username c, Supabase.athlete_fullname c,
   Supabase.athlete_avatar c).

(** What a step of the function keeps of the world: the environment, the
    clock, the user directory, the provider and the store's faults. *)
Definition same_setting {number : Type} (w w' : MirrorActivity.World number)
    : Prop :=
  MirrorActivity.env w' = MirrorActivity.env w
  /\ MirrorActivity.now_ms w' = MirrorActivity.now_ms w
  /\ MirrorActivity.getUser w' = MirrorActivity.getUser w
  /\ MirrorActivity.token_endpoint w' = MirrorActivity.token_endpoint w
  /\ MirrorActivity.activity_endpoint w' = MirrorActivity.activity_endpoint w
  /\ MirrorActivity.streams_endpoint w' = MirrorActivity.streams_endpoint w
  /\ MirrorActivity.upload_endpoint w' = MirrorActivity.upload_endpoint w
  /\ MirrorActivity.faults w' = MirrorActivity.faults w.

(** The upload the function makes for an activity: the track, as GPX data,
    under the prefixed name, with the pet account's token. *)
Definition upload_request (env : Http.Env) (petToken gpx name : string)
    : MirrorActivity.UploadRequest :=
  {| MirrorActivity.bearer := petToken; MirrorActivity.file := gpx;
     MirrorActivity.data_type := "gpx";
     MirrorActivity.upload_name := titlePrefix env ++ name |}.

(** The mirrors table after a request that uploaded: as it was, or with one
    more record, PENDING, of the user and the activity, in which case the
    provider accepted the upload and the reply is a 200. *)
Definition recorded_upload {number : Type} (w w' : MirrorActivity.World number)
    (response : Http.Response) (user : string) (activityId : Z)
    (request : MirrorActivity.UploadRequest) : Prop :=
  Supabase.mirrors (MirrorActivity.store w')
  = Supabase.mirrors (MirrorActivity.store w)
  \/ exists uploadId m,
       MirrorActivity.upload_endpoint w request = Strava.Replied (Ok uploadId)
       /\ Http.status response = 200
       /\ Supabase.mirrors (MirrorActivity.store w')
          = (Supabase.mirrors (MirrorActivity.store w) ++ [m])%list
       /\ Supabase.mirror_user_id m = user
       /\ Supabase.source_activity_id m = activityId
       /\ Supabase.mirror_state m = Supabase.PENDING
       /\ Supabase.dog_activity_id m = None.

(** The reply to a request whose pipeline ended with [r]: the [catch]
    answers 500. *)
Definition answer {number : Type} (w : MirrorActivity.World number)
    (r : result Http.Response) : Http.Response :=
  match r with
  | Ok response => response
  | Throw _ =>
      Http.error_response (MirrorActivity.env w) 500 "Internal server error"
  end.

(** An upload the mirror function may make on a request: the user is
    authenticated and has both connections, the activity was fetched with
    the human account's token and belongs to the human account, and what is
    uploaded, with the pet account's token, is the GPX of that activity and
    its streams. *)
Definition authorised_upload {number : Type}
    (Number_toString : number -> string) (Date_parse : string -> option Z)
    (w : MirrorActivity.World number) (req : Http.Request)
    (user : string) (activityId : Z) (request : MirrorActivity.UploadRequest)
    : Prop :=
  exists humanConnection petConnection humanToken petToken w1 w2 activity
         streams gpx,
    MirrorActivity.identify w req = Ok (inr (user, activityId))
    /\ MirrorActivity.existing_mirror w user activityId = None
    /\ In humanConnection (Supabase.connections (MirrorActivity.store w))
    /\ Supabase.user_id humanConnection = user
    /\ Supabase.role humanConnection = "HUMAN"
    /\ In petConnection (Supabase.connections (MirrorActivity.store w))
    /\ Supabase.user_id petConnection = user
    /\ Supabase.role petConnection = "PET"
    /\ MirrorActivity.refreshTokenIfNeeded humanConnection w
       = (Ok humanToken, w1)
    /\ MirrorActivity.refreshTokenIfNeeded petConnection w1
       = (Ok petToken, w2)
    /\ MirrorActivity.activity_endpoint w activityId humanToken
       = Strava.Replied (Ok activity)
    /\ MirrorActivity.athlete_id activity
       = Supabase.athlete_id humanConnection
    /\ MirrorActivity.streams_endpoint w activityId humanToken
       = Strava.Replied (Ok streams)
    /\ MirrorActivity.generateGPX number Number_toString Date_parse
         (MirrorActivity.env w) activity streams = Ok gpx
    /\ request = upload_request (MirrorActivity.env w) petToken gpx
                   (MirrorActivity.name activity).


(** A text of decimal digits only. *)
Fixpoint digit_text (s : string) : Prop :=
  match s with
  | EmptyString => True
  | String c r => JSON.is_digit c = true /\ digit_text r
  end.

(** A text that does not go on with a digit. *)
Definition no_digit_ahead (s : string) : Prop :=
  match s with
  | EmptyString => True
  | String c _ => JSON.is_digit c = false
  end.

(** ** The connections listing *)

(** What the connections function reads of a row: everything but the two
    tokens. *)
Definition public (c : Supabase.Connection)
    : (string * string * string * Z * string * string * option string) * Z :=
  (identity c, Supabase.expires_at c).

(** The body of the listing. *)
Definition listing (human pet : JSON.json) : JSON.json :=
  JSON.JObject [("humanConnection", human); ("petConnection", pet)].

(** The entry of the listing for a user and a role: the first row of the
    table with both, or null. *)
Definition entry (user role : string) (rows : list Supabase.Connection)
    : JSON.json :=
  Supabase.nullable Connections.selected
    (find (fun c => String.eqb (Supabase.user_id c) user
                    && String.eqb (Supabase.role c) role) rows).

(** ** Texts inside the track log *)

(** A character of an attribute value in double quotes that needs no
    escaping: a legal character other than [<], [&] and the quote. *)
Definition attribute_char (c : Z) : bool :=
  XML.legal c && negb (XML.is_char c "<") && negb (XML.is_char c "&")
  && negb (XML.is_char c "034").

Definition attribute_text (text : string) : bool :=
  text_of attribute_char None text.

(** Where the track points stand: character data of [trkseg] in [trk] in
    [gpx]. *)
Definition in_segment : XML.reader :=
  {| XML.parsed :=
       {| XML.now := XML.Text 0;
          XML.open := [XML.name_of "trkseg"; XML.name_of "trk";
                       XML.name_of "gpx"];
          XML.root_closed := false |};
     XML.pending := None |}.

(** ** The lookup of a mirror record *)

(** The mirror records of a user and an activity. *)
Definition records (user : string) (activityId : Z)
    (rows : list Supabase.Mirror) : list Supabase.Mirror :=
  filter (fun m => String.eqb (Supabase.mirror_user_id m) user
                   && (Supabase.source_activity_id m =? activityId)) rows.

(** The lookup of the record came back empty: the store failed it, or the
    table has no record of the user and the activity, or, against its
    UNIQUE constraint, several. *)
Definition lookup_empty {number : Type} (w : MirrorActivity.World number)
    (user : string) (activityId : Z) : Prop :=
  MirrorActivity.faults w Supabase.SelectMirror = true
  \/ records user activityId (Supabase.mirrors (MirrorActivity.store w)) = []
  \/ (2 <= List.length
             (records user activityId
                (Supabase.mirrors (MirrorActivity.store w))))%nat.

(* ================================================================== *)
(** * Part III.  Lemmas and theorems                                   *)
(* ================================================================== *)

(** ** Strings *)

Lemma string_app_assoc (a b c : string) : (a ++ b) ++ c = a ++ (b ++ c).
Proof. induction a as [|x a IH]; simpl; [reflexivity | now rewrite IH]. Qed.

Lemma string_app_nil_r (a : string) : a ++ "" = a.
Proof. induction a as [|x a IH]; simpl; [reflexivity | now rewrite IH]. Qed.

Lemma string_length_app (a b : string) :
  String.length (a ++ b) = (String.length a + String.length b)%nat.
Proof. induction a as [|x a IH]; simpl; [reflexivity | now rewrite IH]. Qed.

Lemma list_byte_of_string_app (a b : string) :
  list_byte_of_string (a ++ b)
  = (list_byte_of_string a ++ list_byte_of_string b)%list.
Proof.
  induction a as [|x a IH]; [reflexivity|].
  cbn [append]. unfold list_byte_of_string in *. cbn [list_ascii_of_string map].
  rewrite IH. reflexivity.
Qed.

Lemma replaceAll_app (c : ascii) (r a b : string) :
  replaceAll c r (a ++ b) = replaceAll c r a ++ replaceAll c r b.
Proof.
  induction a as [|x a IH]; simpl; [reflexivity|].
  destruct (Ascii.eqb x c); simpl; rewrite IH;
    [now rewrite string_app_assoc | reflexivity].
Qed.

Lemma list3_ind (A : Type) (P : list A -> Prop) :
  P [] -> (forall a, P [a]) -> (forall a b, P [a; b]) ->
  (forall a b c r, P r -> P (a :: b :: c :: r)) ->
  forall l, P l.
Proof.
  intros H0 H1 H2 H3.
  fix IH 1.
  intros [|a [|b [|c r]]]; [exact H0 | apply H1 | apply H2 | apply H3, IH].
Qed.

(** ** Bytes and base64 *)

Lemma byte_to_Z_range (b : byte) : 0 <= byte_to_Z b < 256.
Proof. unfold byte_to_Z. pose proof (Byte.to_N_bounded b). lia. Qed.

Lemma byte_of_to_Z (b : byte) : byte_of_Z (byte_to_Z b) = b.
Proof.
  unfold byte_of_Z, byte_to_Z. rewrite N2Z.id, Byte.of_to_N. reflexivity.
Qed.

Lemma byte_of_Z_eq (z : Z) (b : byte) : z = byte_to_Z b -> byte_of_Z z = b.
Proof. intros ->. apply byte_of_to_Z. Qed.

Lemma byte_to_Z_inj (a b : byte) : byte_to_Z a = byte_to_Z b -> a = b.
Proof.
  intros H. rewrite <- (byte_of_to_Z a), <- (byte_of_to_Z b). now rewrite H.
Qed.

Lemma base64_char_spec (n : nat) :
  (n < 64)%nat ->
  base64_value (base64_char (Z.of_nat n)) = Some (Z.of_nat n)
  /\ ascii_whitespace (base64_char (Z.of_nat n)) = false
  /\ Ascii.eqb (base64_char (Z.of_nat n)) "=" = false
  /\ Ascii.eqb (base64_char (Z.of_nat n)) "." = false.
Proof.
  intros H.
  do 64 (destruct n as [|n]; [vm_compute; auto|]).
  lia.
Qed.

Lemma base64_char_value (v : Z) :
  sextet v -> base64_value (base64_char v) = Some v.
Proof.
  intros H. unfold sextet in H.
  rewrite <- (Z2Nat.id v) by lia. apply base64_char_spec. lia.
Qed.

Ltac sextet_bounds :=
  unfold sextet; Z.div_mod_to_equations; lia.

Lemma sextets_of_bytes_range (l : list byte) : Forall sextet (sextets_of_bytes l).
Proof.
  induction l as [| a | a b | a b c r IH] using list3_ind;
    cbn [sextets_of_bytes].
  - constructor.
  - pose proof (byte_to_Z_range a). repeat constructor; sextet_bounds.
  - pose proof (byte_to_Z_range a). pose proof (byte_to_Z_range b).
    repeat constructor; sextet_bounds.
  - pose proof (byte_to_Z_range a). pose proof (byte_to_Z_range b).
    pose proof (byte_to_Z_range c).
    repeat (constructor; [sextet_bounds|]). exact IH.
Qed.

Ltac solve_bytes :=
  repeat match goal with
         | |- _ :: _ = _ :: _ => f_equal
         | |- byte_of_Z _ = _ => apply byte_of_Z_eq
         end; try reflexivity; Z.div_mod_to_equations; lia.

Lemma bytes_of_sextets_of_bytes (l : list byte) :
  bytes_of_sextets (sextets_of_bytes l) = l.
Proof.
  induction l as [| a | a b | a b c r IH] using list3_ind;
    cbn [sextets_of_bytes bytes_of_sextets].
  - reflexivity.
  - pose proof (byte_to_Z_range a). solve_bytes.
  - pose proof (byte_to_Z_range a). pose proof (byte_to_Z_range b).
    solve_bytes.
  - pose proof (byte_to_Z_range a). pose proof (byte_to_Z_range b).
    pose proof (byte_to_Z_range c).
    rewrite IH. solve_bytes.
Qed.

Lemma sextets_length_mod (l : list byte) :
  (List.length (sextets_of_bytes l) mod 4 =
     match (List.length l mod 3)%nat with 0 => 0 | 1 => 2 | _ => 3 end)%nat.
Proof.
  induction l as [| a | a b | a b c r IH] using list3_ind; try reflexivity.
  cbn [sextets_of_bytes List.length].
  replace (S (S (S (S (List.length (sextets_of_bytes r))))))
    with (List.length (sextets_of_bytes r) + 1 * 4)%nat by lia.
  replace (S (S (S (List.length r)))) with (List.length r + 1 * 3)%nat by lia.
  rewrite !Nat.Div0.mod_add. exact IH.
Qed.

Lemma base64_char_url (n : nat) (s : string) :
  (n < 64)%nat ->
  let c := base64_char (Z.of_nat n) in
  exists c', url_of (String c s) = String c' (url_of s)
     /\ (forall t, replaceAll "=" "" (String c' t)
                   = String c' (replaceAll "=" "" t))
     /\ (forall t, replaceAll "_" "/" (replaceAll "-" "+" (String c' t))
                   = String c (replaceAll "_" "/" (replaceAll "-" "+" t)))
     /\ Ascii.eqb c' "." = false
     /\ (char_code c' <? 128) = true.
Proof.
  intros H.
  do 64 (destruct n as [|n]; [eexists; repeat split; reflexivity|]).
  lia.
Qed.

Lemma url_of_app (a b : string) : url_of (a ++ b) = url_of a ++ url_of b.
Proof. unfold url_of. now rewrite !replaceAll_app. Qed.

Lemma base64url_chars_strip (vs : list Z) :
  Forall sextet vs ->
  replaceAll "=" "" (url_of (base64_chars vs)) = url_of (base64_chars vs).
Proof.
  induction 1 as [|v vs Hv _ IH]; [reflexivity|].
  cbn [base64_chars].
  destruct (base64_char_url (Z.to_nat v) (base64_chars vs)) as (c' & E & Hs & _).
  { unfold sextet in Hv. lia. }
  rewrite Z2Nat.id in E by (unfold sextet in Hv; lia).
  rewrite E, Hs, IH. reflexivity.
Qed.

Lemma base64url_chars_back (vs : list Z) :
  Forall sextet vs ->
  replaceAll "_" "/" (replaceAll "-" "+" (url_of (base64_chars vs)))
  = base64_chars vs.
Proof.
  induction 1 as [|v vs Hv _ IH]; [reflexivity|].
  cbn [base64_chars].
  destruct (base64_char_url (Z.to_nat v) (base64_chars vs))
    as (c' & E & _ & Hb & _).
  { unfold sextet in Hv. lia. }
  rewrite Z2Nat.id in E, Hb by (unfold sextet in Hv; lia).
  rewrite E, Hb, IH. reflexivity.
Qed.

Lemma base64_chars_length (vs : list Z) :
  String.length (base64_chars vs) = List.length vs.
Proof. induction vs; simpl; congruence. Qed.

Lemma base64_values_chars (vs : list Z) :
  Forall sextet vs -> base64_values (base64_chars vs) = Some vs.
Proof.
  induction 1 as [|v vs Hv _ IH]; [reflexivity|].
  cbn [base64_chars base64_values].
  rewrite base64_char_value, IH by exact Hv. reflexivity.
Qed.

Lemma remove_whitespace_chars (vs : list Z) (k : nat) :
  Forall sextet vs ->
  remove_whitespace (base64_chars vs ++ repeat_string "=" k)
  = base64_chars vs ++ repeat_string "=" k.
Proof.
  induction 1 as [|v vs Hv _ IH].
  - induction k as [|k IHk]; [reflexivity|]. simpl in *. now rewrite IHk.
  - cbn [base64_chars append remove_whitespace].
    destruct (base64_char_spec (Z.to_nat v)) as (_ & W & _).
    { unfold sextet in Hv. lia. }
    rewrite Z2Nat.id in W by (unfold sextet in Hv; lia).
    rewrite W, IH. reflexivity.
Qed.

Lemma strip_padding_chars (vs : list Z) (k : nat) :
  Forall sextet vs -> (k <= 2)%nat ->
  strip_padding (base64_chars vs ++ repeat_string "=" k) = base64_chars vs.
Proof.
  intros H Hk. induction H as [|v vs Hv _ IH].
  - destruct k as [|[|[|k]]]; try reflexivity. lia.
  - cbn [base64_chars append].
    destruct (base64_char_spec (Z.to_nat v)) as (_ & _ & W & _).
    { unfold sextet in Hv. lia. }
    rewrite Z2Nat.id in W by (unfold sextet in Hv; lia).
    cbn [strip_padding].
    destruct (base64_char v) as [b0 b1 b2 b3 b4 b5 b6 b7] eqn:Ec.
    destruct b0, b1, b2, b3, b4, b5, b6, b7;
      first [ now rewrite IH | vm_compute in W; discriminate W ].
Qed.

Lemma repeat_eq_url (k : nat) : url_of (repeat_string "=" k) = repeat_string "=" k.
Proof.
  induction k as [|k IH]; [reflexivity|].
  unfold url_of in *. simpl. now rewrite IH.
Qed.

Lemma repeat_eq_strip (k : nat) : replaceAll "=" "" (repeat_string "=" k) = "".
Proof. induction k as [|k IH]; [reflexivity|]. simpl. exact IH. Qed.

Lemma base64urlEncode_chars (data : Uint8Array) :
  OAuthAuthorize.base64urlEncode data
  = url_of (base64_chars (sextets_of_bytes data)).
Proof.
  unfold OAuthAuthorize.base64urlEncode, btoa, charCodes, String_fromCharCode.
  rewrite list_byte_of_string_of_list_byte.
  set (chars := base64_chars (sextets_of_bytes data)).
  change (replaceAll "=" ""
            (url_of (chars ++
               repeat_string "=" ((4 - String.length chars mod 4) mod 4)))
          = url_of chars).
  rewrite url_of_app, replaceAll_app, repeat_eq_url, repeat_eq_strip,
    string_app_nil_r.
  apply base64url_chars_strip, sextets_of_bytes_range.
Qed.

Lemma pad_loop_chars (s : string) :
  (String.length s mod 4 <> 1)%nat ->
  OAuthCallback.pad_loop 3 s
  = s ++ repeat_string "=" ((4 - String.length s mod 4) mod 4).
Proof.
  intros H.
  assert (Hm : (String.length s mod 4 < 4)%nat)
    by (apply Nat.mod_upper_bound; lia).
  destruct (String.length s mod 4)%nat as [|[|[|[|m]]]] eqn:E; try lia.
  - cbn [OAuthCallback.pad_loop]. rewrite E. simpl.
    now rewrite string_app_nil_r.
  - cbn [OAuthCallback.pad_loop]. rewrite E. cbn [Nat.eqb].
    assert (E1 : (String.length (s ++ "=") mod 4 = 3)%nat).
    { rewrite string_length_app. cbn [String.length].
      rewrite Nat.Div0.add_mod, E. reflexivity. }
    rewrite E1. cbn [Nat.eqb].
    assert (E2 : (String.length ((s ++ "=") ++ "=") mod 4 = 0)%nat).
    { rewrite string_length_app. cbn [String.length].
      rewrite Nat.Div0.add_mod, E1. reflexivity. }
    rewrite E2. cbn [Nat.eqb]. rewrite string_app_assoc. reflexivity.
  - cbn [OAuthCallback.pad_loop]. rewrite E. cbn [Nat.eqb].
    assert (E1 : (String.length (s ++ "=") mod 4 = 0)%nat).
    { rewrite string_length_app. cbn [String.length].
      rewrite Nat.Div0.add_mod, E. reflexivity. }
    rewrite E1. reflexivity.
Qed.

Lemma atob_chars (vs : list Z) :
  Forall sextet vs -> (List.length vs mod 4 <> 1)%nat ->
  atob (base64_chars vs
        ++ repeat_string "=" ((4 - String.length (base64_chars vs) mod 4) mod 4))
  = Ok (String_fromCharCode (bytes_of_sextets vs)).
Proof.
  intros Hvs Hlen. unfold atob.
  rewrite remove_whitespace_chars by exact Hvs.
  rewrite base64_chars_length.
  set (k := ((4 - List.length vs mod 4) mod 4)%nat).
  assert (Hk : (k <= 2)%nat).
  { subst k.
    assert (List.length vs mod 4 < 4)%nat by (apply Nat.mod_upper_bound; lia).
    destruct (List.length vs mod 4)%nat as [|[|[|[|m]]]]; cbn; lia. }
  assert (Hz : (String.length (base64_chars vs ++ repeat_string "=" k) mod 4
                = 0)%nat).
  { rewrite string_length_app, base64_chars_length.
    assert (El : String.length (repeat_string "=" k) = k).
    { clear. induction k; simpl; congruence. }
    rewrite El. subst k.
    assert (List.length vs mod 4 < 4)%nat by (apply Nat.mod_upper_bound; lia).
    rewrite Nat.Div0.add_mod.
    destruct (List.length vs mod 4)%nat as [|[|[|[|m]]]]; cbn; lia. }
  rewrite Hz. cbn [Nat.eqb].
  rewrite strip_padding_chars by assumption.
  rewrite base64_chars_length.
  destruct (List.length vs mod 4 =? 1)%nat eqn:E1.
  { apply Nat.eqb_eq in E1. contradiction. }
  rewrite base64_values_chars by exact Hvs. reflexivity.
Qed.

(** The decoder of the callback inverts the encoder of the
    authorization-start function, on every byte array. *)
Theorem base64url_round_trip (data : Uint8Array) :
  OAuthCallback.base64urlDecode (OAuthAuthorize.base64urlEncode data) = Ok data.
Proof.
  unfold OAuthCallback.base64urlDecode. rewrite base64urlEncode_chars.
  rewrite base64url_chars_back by apply sextets_of_bytes_range.
  assert (Hlen : (List.length (sextets_of_bytes data) mod 4 <> 1)%nat).
  { rewrite sextets_length_mod.
    destruct (List.length data mod 3)%nat as [|[|m]]; lia. }
  rewrite pad_loop_chars by (rewrite base64_chars_length; exact Hlen).
  rewrite atob_chars by (auto using sextets_of_bytes_range).
  cbn [bind]. rewrite bytes_of_sextets_of_bytes.
  unfold charCodes, String_fromCharCode.
  now rewrite list_byte_of_string_of_list_byte.
Qed.

(** The two copies of [hmacSha256] compute the same signature. *)
Lemma hmacSha256_same (message secret : string) :
  OAuthCallback.hmacSha256 message secret
  = OAuthAuthorize.hmacSha256 message secret.
Proof. reflexivity. Qed.

(** ** constantTimeEqual *)

Lemma fold_lor_zero (f : nat -> Z) (l : list nat) (acc : Z) :
  fold_left (fun result i => Z.lor result (f i)) l acc = 0
  <-> acc = 0 /\ forall i, In i l -> f i = 0.
Proof.
  revert acc. induction l as [|x l IH]; intros acc; cbn [fold_left].
  - split; [intros ->; split; [reflexivity | intros i []] | intros [-> _]; reflexivity].
  - rewrite IH, Z.lor_eq_0_iff. split.
    + intros [[Ha Hx] Hl]. split; [exact Ha|].
      intros i [<- | Hi]; [exact Hx | apply Hl, Hi].
    + intros [Ha Hl]. repeat split.
      * exact Ha.
      * apply Hl. now left.
      * intros i Hi. apply Hl. now right.
Qed.

Lemma constantTimeEqual_true_iff (a b : Uint8Array) :
  OAuthCallback.constantTimeEqual a b = true
  <-> List.length a = List.length b
      /\ forall i, (i < List.length a)%nat -> nth i a x00 = nth i b x00.
Proof.
  unfold OAuthCallback.constantTimeEqual.
  destruct (List.length a =? List.length b)%nat eqn:El; cbn [negb].
  - apply Nat.eqb_eq in El. rewrite Z.eqb_eq, fold_lor_zero. split.
    + intros [_ H]. split; [exact El|]. intros i Hi.
      apply byte_to_Z_inj, Z.lxor_eq. apply H, in_seq. lia.
    + intros [_ H]. split; [reflexivity|]. intros i Hi%in_seq.
      unfold OAuthCallback.at_. rewrite H by lia. apply Z.lxor_nilpotent.
  - apply Nat.eqb_neq in El. split; [discriminate | intros [E _]; contradiction].
Qed.

(** C8.  [constantTimeEqual a b] is false whenever the lengths differ, false
    whenever the lengths agree and some byte differs, and true exactly when
    the two arrays are equal. *)
Theorem constantTimeEqual_correct (a b : Uint8Array) :
  (List.length a <> List.length b -> OAuthCallback.constantTimeEqual a b = false)
  /\ (List.length a = List.length b ->
      (exists i, (i < List.length a)%nat /\ nth i a x00 <> nth i b x00) ->
      OAuthCallback.constantTimeEqual a b = false)
  /\ (OAuthCallback.constantTimeEqual a b = true <-> a = b).
Proof.
  pose proof (constantTimeEqual_true_iff a b) as Hiff.
  split; [|split].
  - intros Hlen.
    destruct (OAuthCallback.constantTimeEqual a b); [|reflexivity].
    destruct Hiff as [Hiff _]. destruct (Hiff eq_refl) as [E _]. contradiction.
  - intros _ (i & Hi & Hne).
    destruct (OAuthCallback.constantTimeEqual a b); [|reflexivity].
    destruct Hiff as [Hiff _]. destruct (Hiff eq_refl) as [_ E].
    elim Hne. apply E, Hi.
  - rewrite Hiff. split.
    + intros [El E]. apply (nth_ext a b x00 x00 El E).
    + intros ->. split; reflexivity.
Qed.

(** ** The signature is a non-empty base64url text *)

Lemma round_length (st : list Z) (kw : Z * Z) :
  List.length (WebCrypto.round st kw) = List.length st.
Proof.
  unfold WebCrypto.round.
  destruct st as [|a [|b [|c [|d [|e [|f [|g [|h [|i st]]]]]]]]]; reflexivity.
Qed.

Lemma fold_round_length (kws : list (Z * Z)) (st : list Z) :
  List.length (fold_left WebCrypto.round kws st) = List.length st.
Proof.
  revert st. induction kws as [|kw kws IH]; intros st; cbn [fold_left].
  - reflexivity.
  - rewrite IH. apply round_length.
Qed.

Lemma compress_length (h : list Z) (block : list byte) :
  List.length (WebCrypto.compress h block) = List.length h.
Proof.
  unfold WebCrypto.compress.
  rewrite length_map, length_combine, fold_round_length. lia.
Qed.

Lemma fold_compress_length (blocks : list (list byte)) (h : list Z) :
  List.length (fold_left WebCrypto.compress blocks h) = List.length h.
Proof.
  revert h. induction blocks as [|b blocks IH]; intros h; cbn [fold_left].
  - reflexivity.
  - rewrite IH. apply compress_length.
Qed.

Lemma flat_map_be_bytes_length (h : list Z) :
  List.length (flat_map (WebCrypto.be_bytes 4) h) = (4 * List.length h)%nat.
Proof.
  induction h as [|x h IH]; [reflexivity|].
  cbn [flat_map]. rewrite length_app, IH. cbn [WebCrypto.be_bytes List.length]. lia.
Qed.

(** A SHA-256 digest has 32 bytes, and so has an HMAC-SHA-256 signature. *)
Lemma sha256_length (msg : list byte) : List.length (WebCrypto.sha256 msg) = 32%nat.
Proof.
  unfold WebCrypto.sha256.
  rewrite flat_map_be_bytes_length, fold_compress_length. reflexivity.
Qed.

Lemma sign_HMAC_length (key msg : Uint8Array) :
  List.length (WebCrypto.sign_HMAC key msg) = 32%nat.
Proof. unfold WebCrypto.sign_HMAC. apply sha256_length. Qed.

Lemma sextets_nonempty (l : list byte) : l <> [] -> sextets_of_bytes l <> [].
Proof. destruct l as [|a [|b [|c r]]]; cbn; congruence. Qed.

Lemma url_of_chars_nonempty (vs : list Z) :
  Forall sextet vs -> vs <> [] -> url_of (base64_chars vs) <> "".
Proof.
  intros H Hne. destruct H as [|v vs Hv Hvs]; [congruence|].
  cbn [base64_chars].
  destruct (base64_char_url (Z.to_nat v) (base64_chars vs)) as (c' & E & _).
  { unfold sextet in Hv. lia. }
  rewrite Z2Nat.id in E by (unfold sextet in Hv; lia).
  rewrite E. discriminate.
Qed.

Lemma hmacSha256_nonempty (message secret : string) :
  OAuthCallback.hmacSha256 message secret <> "".
Proof.
  rewrite hmacSha256_same. unfold OAuthAuthorize.hmacSha256.
  rewrite base64urlEncode_chars.
  apply url_of_chars_nonempty; [apply sextets_of_bytes_range|].
  apply sextets_nonempty. intros E.
  pose proof (sign_HMAC_length (TextEncoder_encode secret)
                (TextEncoder_encode message)) as L.
  rewrite E in L. discriminate L.
Qed.

Lemma constantTimeEqual_refl (a : Uint8Array) :
  OAuthCallback.constantTimeEqual a a = true.
Proof. apply constantTimeEqual_true_iff. split; reflexivity. Qed.

(** ** Splitting on the delimiter *)

Lemma split_no_delimiter (sep : ascii) (s : string) :
  contains sep s = false -> split sep s = [s].
Proof.
  induction s as [|c s IH]; [reflexivity|].
  cbn [contains split]. intros H. apply orb_false_iff in H as [Hc Hs].
  rewrite Hc, (IH Hs). reflexivity.
Qed.

Lemma split_at_delimiter (sep : ascii) (a b : string) :
  contains sep a = false ->
  split sep (a ++ String sep b) = a :: split sep b.
Proof.
  induction a as [|c a IH]; cbn [contains append split].
  - intros _. now rewrite Ascii.eqb_refl.
  - intros H. apply orb_false_iff in H as [Hc Ha].
    rewrite Hc, (IH Ha). reflexivity.
Qed.

Lemma split_head (sep : ascii) (s : string) :
  exists h t, split sep s = h :: t.
Proof.
  destruct s as [|c s]; cbn [split]; [eauto|].
  destruct (Ascii.eqb c sep); [eauto|].
  destruct (split sep s); eauto.
Qed.

(** ** The state codec *)

Lemma falsy_some (s : string) : s <> "" -> falsy (Some s) = false.
Proof. destruct s; [congruence | reflexivity]. Qed.

(** The steps of [validateState] once the text is split into a non-empty
    payload part and the signature the server would give it. *)
Lemma validateState_signed (stateSecret : string) (now_ms : Z)
    (stateParam : string) (stateData : Uint8Array) (jsonPart : string)
    (rest : list string) :
  OAuthCallback.base64urlDecode stateParam = Ok stateData ->
  split "." (TextDecoder_decode stateData)
  = jsonPart :: OAuthCallback.hmacSha256 jsonPart stateSecret :: rest ->
  jsonPart <> "" ->
  OAuthCallback.validateState stateSecret now_ms stateParam
  = (let* statePayload := JSON.parse jsonPart in
     let* exp := JSON.get statePayload "exp" in
     if JSON.less_than exp (now_ms / 1000) then Throw (Error "State expired")
     else Ok statePayload).
Proof.
  intros Hdec Hsplit Hne. unfold OAuthCallback.validateState.
  rewrite Hdec. cbn [bind]. rewrite Hsplit. cbn [nth_error].
  rewrite (falsy_some _ Hne), (falsy_some _ (hmacSha256_nonempty _ _)).
  cbn [orb]. rewrite constantTimeEqual_refl. reflexivity.
Qed.

(** C6.  When the state splits into a payload part and the signature that
    verifies for it, and the payload's [exp] is earlier than the current
    time in seconds, [validateState] throws State expired; and a callback
    that carries this state answers with the [invalid_state] redirect. *)
Theorem expired_state_rejected (stateSecret : string) (now_ms : Z)
    (stateParam : string) (stateData : Uint8Array) (jsonPart : string)
    (rest : list string) (statePayload : JSON.json) (exp : Z) :
  OAuthCallback.base64urlDecode stateParam = Ok stateData ->
  split "." (TextDecoder_decode stateData)
  = jsonPart :: OAuthCallback.hmacSha256 jsonPart stateSecret :: rest ->
  jsonPart <> "" ->
  JSON.parse jsonPart = Ok statePayload ->
  JSON.get statePayload "exp" = Ok (Some (JSON.JNumber exp)) ->
  exp < now_ms / 1000 ->
  OAuthCallback.validateState stateSecret now_ms stateParam
  = Throw (Error "State expired")
  /\ forall (w : OAuthCallback.World) (req : Http.Request) (code : string),
       Http.method req <> "OPTIONS" ->
       Http.param req "error" = None ->
       Http.param req "code" = Some code -> code <> "" ->
       Http.param req "state" = Some stateParam -> stateParam <> "" ->
       OAuthCallback.env w "STATE_SECRET" = Some stateSecret ->
       stateSecret <> "" ->
       OAuthCallback.now_ms w = now_ms ->
       OAuthCallback.serve w req
       = (OAuthCallback.redirect w "?error=invalid_state", w).
Proof.
  intros Hdec Hsplit Hne Hparse Hexp Hlt.
  assert (Hv : OAuthCallback.validateState stateSecret now_ms stateParam
               = Throw (Error "State expired")).
  { rewrite (validateState_signed _ _ _ _ _ _ Hdec Hsplit Hne).
    rewrite Hparse. cbn [bind]. rewrite Hexp. cbn [bind].
    unfold JSON.less_than, JSON.ToNumber.
    apply Z.ltb_lt in Hlt. rewrite Hlt. reflexivity. }
  split; [exact Hv|].
  intros w req code Hm He Hc Hcne Hs Hsne Hsec Hsecne Hnow.
  unfold OAuthCallback.serve.
  destruct (String.eqb_spec (Http.method req) "OPTIONS") as [E|_];
    [contradiction|].
  unfold OAuthCallback.callback.
  rewrite He, Hc, Hs, Hsec.
  rewrite (falsy_some _ Hcne), (falsy_some _ Hsne), (falsy_some _ Hsecne).
  cbn [falsy negb orb Http.show]. rewrite Hnow, Hv. reflexivity.
Qed.

Lemma expired_state_rejected_witness :
  OAuthCallback.validateState Sample.stateSecret Sample.late_ms Sample.state
  = Throw (Error "State expired").
Proof.
  refine (proj1 (expired_state_rejected Sample.stateSecret Sample.late_ms
            Sample.state
            (TextEncoder_encode
               (JSON.stringify Sample.payload ++ "."
                ++ OAuthCallback.hmacSha256 (JSON.stringify Sample.payload)
                     Sample.stateSecret))
            (JSON.stringify Sample.payload) [] Sample.payload 1700000600
            _ _ _ _ _ _)).
  - vm_compute. reflexivity.
  - vm_compute. reflexivity.
  - vm_compute. discriminate.
  - vm_compute. reflexivity.
  - reflexivity.
  - vm_compute. reflexivity.
Defined.

(** C1.  The round trip breaks on a payload the authorization-start function
    accepts: for [userId=a.b] the state it signs is refused by
    [validateState], under the same secret and before the expiry, because
    the payload part is cut at the first [.] inside the JSON text. *)
Theorem dotted_userId_state_rejected :
  OAuthCallback.validateState Sample.stateSecret Sample.issued_ms
    Sample.dotted_state
  = Throw (Error "Invalid state signature")
  /\ JSON.get Sample.dotted_payload "exp" = Ok (Some (JSON.JNumber 1700000600))
  /\ Sample.issued_ms / 1000 <= 1700000600.
Proof.
  split; [vm_compute; reflexivity|].
  split; [reflexivity|].
  vm_compute. discriminate.
Qed.

(** C7, as the claim states it, fails: a state whose text has three parts,
    a payload, its signature and one more, is not refused at all. *)
Lemma three_part_state_accepted :
  (let* stateData := OAuthCallback.base64urlDecode Sample.three_part_state in
   Ok (List.length (split "." (TextDecoder_decode stateData)))) = Ok 3%nat
  /\ OAuthCallback.validateState Sample.stateSecret Sample.issued_ms
       Sample.three_part_state = Ok Sample.payload.
Proof. split; vm_compute; reflexivity. Qed.

(** C7, amended.  When the decoded text has no delimiter, or its first part
    is empty, or its second part is empty, [validateState] throws Invalid
    state format.  Parts after the second are not looked at. *)
Theorem malformed_state_rejected (stateSecret : string) (now_ms : Z)
    (stateParam : string) (stateData : Uint8Array) :
  OAuthCallback.base64urlDecode stateParam = Ok stateData ->
  contains "." (TextDecoder_decode stateData) = false
  \/ nth_error (split "." (TextDecoder_decode stateData)) 0 = Some ""
  \/ nth_error (split "." (TextDecoder_decode stateData)) 1 = Some "" ->
  OAuthCallback.validateState stateSecret now_ms stateParam
  = Throw (Error "Invalid state format").
Proof.
  intros Hdec Hparts. unfold OAuthCallback.validateState.
  rewrite Hdec. cbn [bind].
  set (parts := split "." (TextDecoder_decode stateData)) in *.
  assert (Hf : falsy (nth_error parts 0) || falsy (nth_error parts 1) = true).
  { destruct Hparts as [Hnone | [Hfirst | Hsecond]].
    - subst parts. rewrite (split_no_delimiter _ _ Hnone).
      cbn [nth_error falsy]. apply orb_true_r.
    - rewrite Hfirst. reflexivity.
    - rewrite Hsecond. apply orb_true_r. }
  rewrite Hf. reflexivity.
Qed.

Lemma malformed_state_rejected_witness :
  OAuthCallback.validateState Sample.stateSecret Sample.issued_ms "YWJj"
  = Throw (Error "Invalid state format").
Proof.
  apply (malformed_state_rejected Sample.stateSecret Sample.issued_ms "YWJj"
           (TextEncoder_encode "abc")).
  - vm_compute. reflexivity.
  - left. vm_compute. reflexivity.
Defined.

(** ** The round trip of the state *)

Section StateRoundTrip.
Import JSON.

Lemma byte_to_Z_of_ascii (c : ascii) : byte_to_Z (byte_of_ascii c) = char_code c.
Proof.
  unfold byte_to_Z, char_code. f_equal.
  pose proof (byte_of_ascii_via_N c) as H. symmetry in H.
  apply Byte.to_of_N in H. exact H.
Qed.

Lemma utf8_decode_ascii (s : string) :
  ascii_text s = true ->
  utf8_decode [] 0 128 191 (list_byte_of_string s) = list_byte_of_string s.
Proof.
  induction s as [|c s IH]; [reflexivity|].
  cbn [ascii_text]. intros H. apply andb_true_iff in H as [Hc Hs].
  change (list_byte_of_string (String c s))
    with (byte_of_ascii c :: list_byte_of_string s).
  cbn [utf8_decode]. unfold lead, between.
  rewrite byte_to_Z_of_ascii.
  assert (E : (0 <=? char_code c) && (char_code c <=? 127) = true).
  { apply Z.ltb_lt in Hc. unfold char_code in *.
    apply andb_true_iff. split; apply Z.leb_le; lia. }
  rewrite E. cbn [app]. now rewrite (IH Hs).
Qed.

Lemma strip_bom_ascii (s : string) :
  ascii_text s = true ->
  strip_bom (list_byte_of_string s) = list_byte_of_string s.
Proof.
  destruct s as [|c s]; [reflexivity|].
  cbn [ascii_text]. intros H. apply andb_true_iff in H as [Hc _].
  change (list_byte_of_string (String c s))
    with (byte_of_ascii c :: list_byte_of_string s).
  pose proof (byte_to_Z_of_ascii c) as E.
  destruct (byte_of_ascii c) eqn:B; try reflexivity.
  rewrite <- E in Hc. vm_compute in Hc. discriminate Hc.
Qed.

Lemma decode_encode_ascii (s : string) :
  ascii_text s = true -> TextDecoder_decode (TextEncoder_encode s) = s.
Proof.
  intros H. unfold TextDecoder_decode, TextEncoder_encode.
  rewrite (strip_bom_ascii s H), (utf8_decode_ascii s H).
  apply string_of_list_byte_of_string.
Qed.

Lemma ascii_text_app (a b : string) :
  ascii_text (a ++ b) = ascii_text a && ascii_text b.
Proof.
  induction a as [|c a IH]; [reflexivity|].
  cbn [append ascii_text]. now rewrite IH, andb_assoc.
Qed.

Lemma contains_app (c : ascii) (a b : string) :
  contains c (a ++ b) = contains c a || contains c b.
Proof.
  induction a as [|x a IH]; [reflexivity|].
  cbn [append contains]. now rewrite IH, orb_assoc.
Qed.

Lemma url_of_chars_text (vs : list Z) :
  Forall sextet vs ->
  contains "." (url_of (base64_chars vs)) = false
  /\ ascii_text (url_of (base64_chars vs)) = true.
Proof.
  induction 1 as [|v vs Hv Hvs IH]; [split; reflexivity|].
  cbn [base64_chars].
  destruct (base64_char_url (Z.to_nat v) (base64_chars vs))
    as (c' & E & _ & _ & Hdot & Hascii).
  { unfold sextet in Hv. lia. }
  rewrite Z2Nat.id in E by (unfold sextet in Hv; lia).
  rewrite E. cbn [contains ascii_text]. rewrite Hdot, Hascii.
  exact IH.
Qed.

Lemma hmacSha256_text (message secret : string) :
  contains "." (OAuthAuthorize.hmacSha256 message secret) = false
  /\ ascii_text (OAuthAuthorize.hmacSha256 message secret) = true.
Proof.
  unfold OAuthAuthorize.hmacSha256. rewrite base64urlEncode_chars.
  apply url_of_chars_text, sextets_of_bytes_range.
Qed.

(** The state the authorization-start function signs verifies in the
    callback whenever the JSON text is ASCII and holds no [.]: what is left
    is to parse the text and to compare [exp] with the clock. *)
Lemma validateState_signedState (payload : JSON.json) (stateSecret : string)
    (now_ms : Z) :
  ascii_text (JSON.stringify payload) = true ->
  contains "." (JSON.stringify payload) = false ->
  JSON.stringify payload <> "" ->
  OAuthCallback.validateState stateSecret now_ms
    (OAuthAuthorize.signedState payload stateSecret)
  = (let* statePayload := JSON.parse (JSON.stringify payload) in
     let* exp := JSON.get statePayload "exp" in
     if JSON.less_than exp (now_ms / 1000) then Throw (Error "State expired")
     else Ok statePayload).
Proof.
  intros Hascii Hdot Hne.
  destruct (hmacSha256_text (JSON.stringify payload) stateSecret)
    as [Hsdot Hsascii].
  apply (validateState_signed stateSecret now_ms _
           (TextEncoder_encode
              (JSON.stringify payload ++ "."
               ++ OAuthAuthorize.hmacSha256 (JSON.stringify payload)
                    stateSecret))
           (JSON.stringify payload) []).
  - apply base64url_round_trip.
  - rewrite decode_encode_ascii.
    + change ("." ++ ?x) with (String "." x).
      rewrite (split_at_delimiter "." _ _ Hdot).
      rewrite (split_no_delimiter "." _ Hsdot).
      reflexivity.
    + rewrite ascii_text_app, Hascii. cbn [append ascii_text].
      now rewrite Hsascii.
  - exact Hne.
Qed.

Ltac each_char c :=
  destruct c as [[] [] [] [] [] [] [] []].

Lemma simple_char_spec (c : ascii) :
  simple_char c = true ->
  quote_char c = String c ""
  /\ Ascii.eqb c "." = false
  /\ (char_code c <? 128) = true
  /\ forall f r,
       parse_chars (S f) (String c r)
       = match parse_chars f r with
         | Some (t, rest) => Some (String c t, rest)
         | None => None
         end.
Proof.
  intros H.
  each_char c; vm_compute in H; try discriminate H;
    repeat split; reflexivity.
Qed.

Lemma simple_text (s : string) :
  simple s = true ->
  quote_chars s = s /\ contains "." s = false /\ ascii_text s = true.
Proof.
  induction s as [|c s IH]; [repeat split; reflexivity|].
  cbn [simple]. intros H. apply andb_true_iff in H as [Hc Hs].
  destruct (simple_char_spec c Hc) as (Hq & Hdot & Hascii & _).
  destruct (IH Hs) as (IHq & IHdot & IHascii).
  cbn [quote_chars contains ascii_text].
  rewrite Hq, IHq, Hdot, IHdot, Hascii, IHascii. repeat split; reflexivity.
Qed.

Lemma parse_chars_simple (s : string) :
  simple s = true ->
  forall (f : nat) (rest : string),
    (String.length s < f)%nat ->
    parse_chars f (s ++ String "034" rest) = Some (s, rest).
Proof.
  induction s as [|c s IH]; intros H f rest Hf.
  - destruct f as [|f]; [cbn in Hf; lia | reflexivity].
  - cbn [simple] in H. apply andb_true_iff in H as [Hc Hs].
    destruct f as [|f]; [cbn in Hf; lia|].
    cbn [append].
    rewrite (proj2 (proj2 (proj2 (simple_char_spec c Hc)))).
    rewrite (IH Hs) by (cbn in Hf; lia). reflexivity.
Qed.

Lemma quote_simple (s rest : string) :
  simple s = true -> quote s ++ rest = quoted s rest.
Proof.
  intros H. unfold quote, quoted, dquote. cbn [append].
  rewrite (proj1 (simple_text s H)), string_app_assoc. reflexivity.
Qed.

Lemma parse_chars_quoted (s rest : string) :
  simple s = true ->
  parse_chars (S (String.length (s ++ String "034" rest)))
    (s ++ String "034" rest)
  = Some (s, rest).
Proof.
  intros H. apply parse_chars_simple; [exact H|].
  rewrite string_length_app. lia.
Qed.

Lemma parse_value_quoted (f : nat) (s rest : string) :
  simple s = true ->
  parse_value (S f) (quoted s rest) = Some (JString s, rest).
Proof.
  intros H. unfold quoted.
  change (parse_value (S f) (String "034" (s ++ String "034" rest)))
    with (match parse_chars (S (String.length (s ++ String "034" rest)))
                  (s ++ String "034" rest) with
          | Some (t, rest') => Some (JString t, rest')
          | None => None
          end).
  now rewrite (parse_chars_quoted s rest H).
Qed.

Ltac char_codes :=
  repeat match goal with
         | |- context [char_code ?c] =>
             let v := eval vm_compute in (char_code c) in
             change (char_code c) with v
         end.

Lemma digits_stop (rest : string) (acc : Z) :
  ends_number rest = true -> digits rest acc = (acc, rest).
Proof.
  destruct rest as [|c rest]; [reflexivity|]. cbn [ends_number digits].
  intros H. apply andb_true_iff in H as [H _].
  now destruct (is_digit c).
Qed.

Lemma digits_acc (d : Decimal.uint) (rest : string) :
  ends_number rest = true ->
  forall acc : positive,
    digits (NilEmpty.string_of_uint d ++ rest) (Zpos acc)
    = (Zpos (Pos.of_uint_acc d acc), rest).
Proof.
  intros Hr.
  induction d as [|d IH|d IH|d IH|d IH|d IH|d IH|d IH|d IH|d IH|d IH];
    intros acc; cbn [NilEmpty.string_of_uint append Pos.of_uint_acc];
    [now apply digits_stop| ..];
    cbn [digits]; (change (is_digit _) with true); cbv iota;
    rewrite <- IH; f_equal; char_codes; lia.
Qed.

Lemma digits_uint (d : Decimal.uint) (rest : string) :
  ends_number rest = true ->
  digits (NilEmpty.string_of_uint d ++ rest) 0 = (Z.of_N (Pos.of_uint d), rest).
Proof.
  intros Hr.
  induction d as [|d IH|d IH|d IH|d IH|d IH|d IH|d IH|d IH|d IH|d IH];
    cbn [NilEmpty.string_of_uint append Pos.of_uint];
    [now apply digits_stop | exact IH | ..];
    cbn [digits]; (change (is_digit _) with true); cbv iota;
    cbn [Z.of_N]; rewrite <- (digits_acc d rest Hr); f_equal.
Qed.

Lemma to_uint_head (p : positive) (l : Decimal.uint) :
  Pos.to_uint p <> Decimal.D0 l.
Proof.
  intros E.
  pose proof (Unsigned.to_of (Pos.to_uint p)) as H.
  rewrite Unsigned.of_to in H. cbn [N.to_uint] in H.
  rewrite E in H. unfold Decimal.unorm in H.
  destruct (Decimal.nzhead (Decimal.D0 l)) eqn:N; try discriminate H.
  - apply (Unsigned.to_uint_nonzero p). now rewrite E.
  - now apply nzhead_nonzero in N.
Qed.

Lemma ends_number_spec (rest : string) :
  ends_number rest = true ->
  starts_fraction_or_exponent rest = false
  /\ match rest with
     | String c _ => is_digit c = false
     | EmptyString => True
     end.
Proof.
  destruct rest as [|c rest]; [now split|].
  unfold ends_number. intros H. apply andb_true_iff in H as [H1 H2].
  split; [now destruct (starts_fraction_or_exponent _)|].
  now destruct (is_digit c).
Qed.

Lemma uint_text (d : Decimal.uint) :
  contains "." (NilEmpty.string_of_uint d) = false
  /\ ascii_text (NilEmpty.string_of_uint d) = true.
Proof.
  induction d as [|d IH|d IH|d IH|d IH|d IH|d IH|d IH|d IH|d IH|d IH];
    cbn [NilEmpty.string_of_uint contains ascii_text];
    [split; reflexivity | ..]; exact IH.
Qed.

Lemma uint_text_head (d : Decimal.uint) :
  d <> Decimal.Nil ->
  exists c r, NilEmpty.string_of_uint d = String c r /\ is_digit c = true.
Proof.
  destruct d; [congruence | ..]; intros _;
    cbn [NilEmpty.string_of_uint]; eauto.
Qed.

Lemma parse_number_unsigned (c : ascii) (r : string) :
  is_digit c = true ->
  parse_number (String c r)
  = match parse_int (String c r) with
    | Some (n, rest) =>
        if starts_fraction_or_exponent rest then parse_tail false n rest
        else Some (JNumber n, rest)
    | None => None
    end.
Proof.
  intros H. each_char c; vm_compute in H; try discriminate H; reflexivity.
Qed.

Lemma parse_value_number (f : nat) (c : ascii) (r : string) :
  is_digit c = true \/ c = "-"%char ->
  parse_value (S f) (String c r) = parse_number (String c r).
Proof.
  intros H.
  each_char c; destruct H as [H|H]; vm_compute in H; try discriminate H;
    reflexivity.
Qed.

Lemma parse_int_nonzero (c : ascii) (r : string) :
  is_digit c = true ->
  (char_code c =? 48) = false ->
  parse_int (String c r) = Some (digits (String c r) 0).
Proof. unfold parse_int. now intros -> ->. Qed.

Lemma parse_int_positive (p : positive) (rest : string) :
  ends_number rest = true ->
  parse_int (NilEmpty.string_of_uint (Pos.to_uint p) ++ rest)
  = Some (Zpos p, rest).
Proof.
  intros Hr.
  pose proof (digits_uint (Pos.to_uint p) rest Hr) as Hd.
  rewrite Unsigned.of_to in Hd. cbn [Z.of_N] in Hd.
  pose proof (Unsigned.to_uint_nonnil p) as Hnil.
  pose proof (to_uint_head p) as Hzero.
  destruct (Pos.to_uint p) as [|l|l|l|l|l|l|l|l|l|l];
    [congruence | now destruct (Hzero l) | ..];
    cbn [NilEmpty.string_of_uint append] in *;
    rewrite parse_int_nonzero by reflexivity; now rewrite Hd.
Qed.

Lemma Number_toString_pos (p : positive) :
  Number_toString (Zpos p) = NilEmpty.string_of_uint (Pos.to_uint p).
Proof.
  unfold Number_toString, NilZero.string_of_int, NilZero.string_of_uint.
  cbn [Z.to_int].
  destruct (Pos.to_uint p) eqn:U; [|reflexivity..].
  now destruct (Unsigned.to_uint_nonnil p).
Qed.

Lemma Number_toString_neg (p : positive) :
  Number_toString (Zneg p)
  = String "-" (NilEmpty.string_of_uint (Pos.to_uint p)).
Proof.
  unfold Number_toString, NilZero.string_of_int, NilZero.string_of_uint.
  cbn [Z.to_int].
  destruct (Pos.to_uint p) eqn:U; [|reflexivity..].
  now destruct (Unsigned.to_uint_nonnil p).
Qed.

Lemma parse_number_toString (n : Z) (rest : string) :
  ends_number rest = true ->
  parse_number (Number_toString n ++ rest) = Some (JNumber n, rest).
Proof.
  intros Hr. destruct (ends_number_spec rest Hr) as [Hf Hd].
  destruct n as [|p|p].
  - change (Number_toString 0) with "0". cbn [append].
    rewrite parse_number_unsigned by reflexivity.
    unfold parse_int. change (is_digit "0") with true.
    change (char_code "0" =? 48) with true. cbv iota. cbn [negb].
    destruct rest as [|c rest]; [reflexivity|].
    rewrite Hd. now rewrite Hf.
  - rewrite Number_toString_pos.
    pose proof (parse_int_positive p rest Hr) as Hp.
    destruct (uint_text_head (Pos.to_uint p) (Unsigned.to_uint_nonnil p))
      as (c & r & E & Hc).
    rewrite E in *. cbn [append] in *.
    now rewrite (parse_number_unsigned c _ Hc), Hp, Hf.
  - rewrite Number_toString_neg. cbn [append]. unfold parse_number.
    now rewrite (parse_int_positive p rest Hr), Hf.
Qed.

Lemma Number_toString_text (n : Z) :
  contains "." (Number_toString n) = false
  /\ ascii_text (Number_toString n) = true
  /\ exists c r, Number_toString n = String c r
                 /\ (is_digit c = true \/ c = "-"%char).
Proof.
  destruct n as [|p|p].
  - change (Number_toString 0) with "0". repeat split; eauto.
  - rewrite Number_toString_pos.
    destruct (uint_text (Pos.to_uint p)) as [Hdot Hascii].
    destruct (uint_text_head (Pos.to_uint p) (Unsigned.to_uint_nonnil p))
      as (c & r & E & Hc).
    repeat split; eauto.
  - rewrite Number_toString_neg.
    destruct (uint_text (Pos.to_uint p)) as [Hdot Hascii].
    cbn [contains ascii_text]. rewrite Hdot, Hascii.
    repeat split; eauto.
Qed.

Lemma parse_value_toString (f : nat) (n : Z) (rest : string) :
  ends_number rest = true ->
  parse_value (S f) (Number_toString n ++ rest) = Some (JNumber n, rest).
Proof.
  intros Hr.
  pose proof (parse_number_toString n rest Hr) as Hp.
  destruct (Number_toString_text n) as (_ & _ & c & r & E & Hc).
  rewrite E in *. cbn [append] in *.
  now rewrite (parse_value_number f c _ Hc), Hp.
Qed.

Lemma parse_member (f : nat) (acc : list (string * json)) (k r1 : string)
    (v : json) (r2 : string) :
  simple k = true ->
  parse_value f r1 = Some (v, r2) ->
  parse_members (S f) acc (quoted k (String ":" r1))
  = match skip_ws r2 with
    | String "," r3 => parse_members f (set_field k v acc) r3
    | String "}" r3 => Some (JObject (set_field k v acc), r3)
    | _ => None
    end.
Proof.
  intros Hk Hv. unfold quoted.
  cbn [parse_members skip_ws]. change (is_ws "034") with false. cbv iota.
  rewrite (parse_chars_quoted k _ Hk).
  cbn [skip_ws]. change (is_ws ":") with false. cbv iota.
  rewrite Hv. reflexivity.
Qed.

Lemma stringify_statePayload (userId role : string) (exp : Z)
    (nonce codeVerifier : string) :
  simple userId = true -> simple role = true ->
  simple nonce = true -> simple codeVerifier = true ->
  stringify (OAuthAuthorize.statePayload userId role exp nonce codeVerifier)
  = payload_text userId role exp nonce codeVerifier.
Proof.
  intros Hu Hr Hn Hv.
  unfold OAuthAuthorize.statePayload, payload_text.
  cbn [stringify map join fst snd].
  repeat rewrite string_app_assoc.
  rewrite !quote_simple by (assumption || reflexivity).
  reflexivity.
Qed.

Lemma parse_value_payload (f : nat) (userId role : string) (exp : Z)
    (nonce codeVerifier : string) :
  simple userId = true -> simple role = true ->
  simple nonce = true -> simple codeVerifier = true ->
  parse_value (S (S (S (S (S (S (S f)))))))
    (payload_text userId role exp nonce codeVerifier)
  = Some (OAuthAuthorize.statePayload userId role exp nonce codeVerifier, "").
Proof.
  intros Hu Hr Hn Hv. unfold payload_text.
  match goal with
  | |- parse_value (S ?g) (String "{" ?r) = _ =>
      change (parse_value (S g) (String "{" r)) with (parse_members g [] r)
  end.
  repeat (erewrite parse_member
            by first [ reflexivity
                     | apply parse_value_quoted; assumption
                     | apply parse_value_toString; reflexivity ];
          cbn [skip_ws]; try (change (is_ws ",") with false); cbv iota).
  reflexivity.
Qed.

Lemma parse_statePayload (userId role : string) (exp : Z)
    (nonce codeVerifier : string) :
  simple userId = true -> simple role = true ->
  simple nonce = true -> simple codeVerifier = true ->
  parse (stringify
           (OAuthAuthorize.statePayload userId role exp nonce codeVerifier))
  = Ok (OAuthAuthorize.statePayload userId role exp nonce codeVerifier).
Proof.
  intros Hu Hr Hn Hv.
  rewrite (stringify_statePayload _ _ _ _ _ Hu Hr Hn Hv).
  unfold parse.
  assert (L : exists f,
             String.length (payload_text userId role exp nonce codeVerifier)
             = S (S (S (S (S (S f)))))).
  { unfold payload_text, quoted. cbn [String.length append]. eauto. }
  destruct L as [f ->].
  now rewrite (parse_value_payload f _ _ _ _ _ Hu Hr Hn Hv).
Qed.

Lemma payload_text_plain (userId role : string) (exp : Z)
    (nonce codeVerifier : string) :
  simple userId = true -> simple role = true ->
  simple nonce = true -> simple codeVerifier = true ->
  ascii_text (payload_text userId role exp nonce codeVerifier) = true
  /\ contains "." (payload_text userId role exp nonce codeVerifier) = false.
Proof.
  intros Hu Hr Hn Hv.
  destruct (simple_text _ Hu) as (_ & Du & Au).
  destruct (simple_text _ Hr) as (_ & Dr & Ar).
  destruct (simple_text _ Hn) as (_ & Dn & An).
  destruct (simple_text _ Hv) as (_ & Dv & Av).
  destruct (Number_toString_text exp) as (De & Ae & _).
  unfold payload_text, quoted.
  cbn [ascii_text contains append].
  repeat (rewrite ?ascii_text_app, ?contains_app;
          cbn [ascii_text contains append]).
  rewrite Du, Au, Dr, Ar, Dn, An, Dv, Av, De, Ae.
  split; reflexivity.
Qed.

(** The round trip of the state, for simple strings: what the
    authorization-start function signs, the callback accepts under the same
    secret until [exp], and reads the payload back. *)
Theorem state_round_trip (userId role : string) (exp : Z)
    (nonce codeVerifier : string) (stateSecret : string) (now_ms : Z) :
  simple userId = true -> simple role = true ->
  simple nonce = true -> simple codeVerifier = true ->
  now_ms / 1000 <= exp ->
  OAuthCallback.validateState stateSecret now_ms
    (OAuthAuthorize.signedState
       (OAuthAuthorize.statePayload userId role exp nonce codeVerifier)
       stateSecret)
  = Ok (OAuthAuthorize.statePayload userId role exp nonce codeVerifier).
Proof.
  intros Hu Hr Hn Hv Hexp.
  destruct (payload_text_plain userId role exp nonce codeVerifier Hu Hr Hn Hv)
    as [Hascii Hdot].
  rewrite <- (stringify_statePayload _ _ _ _ _ Hu Hr Hn Hv) in Hascii, Hdot.
  rewrite validateState_signedState; [|exact Hascii | exact Hdot |].
  - rewrite (parse_statePayload _ _ _ _ _ Hu Hr Hn Hv).
    cbn [bind get OAuthAuthorize.statePayload lookup String.eqb Ascii.eqb
         Bool.eqb].
    unfold less_than, ToNumber.
    apply Z.ltb_ge in Hexp. now rewrite Hexp.
  - rewrite (stringify_statePayload _ _ _ _ _ Hu Hr Hn Hv). discriminate.
Qed.

(** And once [exp] is behind the clock, the same state is refused as
    expired. *)
Theorem signed_state_expires (userId role : string) (exp : Z)
    (nonce codeVerifier : string) (stateSecret : string) (now_ms : Z) :
  simple userId = true -> simple role = true ->
  simple nonce = true -> simple codeVerifier = true ->
  exp < now_ms / 1000 ->
  OAuthCallback.validateState stateSecret now_ms
    (OAuthAuthorize.signedState
       (OAuthAuthorize.statePayload userId role exp nonce codeVerifier)
       stateSecret)
  = Throw (Error "State expired").
Proof.
  intros Hu Hr Hn Hv Hexp.
  destruct (payload_text_plain userId role exp nonce codeVerifier Hu Hr Hn Hv)
    as [Hascii Hdot].
  rewrite <- (stringify_statePayload _ _ _ _ _ Hu Hr Hn Hv) in Hascii, Hdot.
  rewrite validateState_signedState; [|exact Hascii | exact Hdot |].
  - rewrite (parse_statePayload _ _ _ _ _ Hu Hr Hn Hv).
    cbn [bind get OAuthAuthorize.statePayload lookup String.eqb Ascii.eqb
         Bool.eqb].
    unfold less_than, ToNumber.
    apply Z.ltb_lt in Hexp. now rewrite Hexp.
  - rewrite (stringify_statePayload _ _ _ _ _ Hu Hr Hn Hv). discriminate.
Qed.

End StateRoundTrip.

Example sample_state_round_trip :
  OAuthCallback.validateState Sample.stateSecret Sample.issued_ms Sample.state
  = Ok Sample.payload.
Proof.
  apply state_round_trip; try reflexivity. vm_compute. discriminate.
Qed.

(** ** The callback *)

Lemma filter_none (A : Type) (f : A -> bool) (l : list A) :
  (forall x, In x l -> f x = false) -> filter f l = [].
Proof.
  induction l as [|x l IH]; intros H; [reflexivity|].
  cbn [filter]. rewrite (H x (or_introl eq_refl)).
  apply IH. intros y Hy. apply H. now right.
Qed.

Lemma select_by_athlete (rows : list Supabase.Connection)
    (c : Supabase.Connection) :
  unique_athletes rows -> In c rows ->
  filter (fun r => String.eqb (Supabase.user_id r) (Supabase.user_id c)
                   && (Supabase.athlete_id r =? Supabase.athlete_id c)) rows
  = [c].
Proof.
  unfold unique_athletes.
  induction rows as [|r rows IH]; intros Hnd Hin; [destruct Hin|].
  cbn [map] in Hnd. apply NoDup_cons_iff in Hnd as [Hnotin Hnd].
  cbn [filter]. destruct Hin as [-> | Hin].
  - rewrite String.eqb_refl, Z.eqb_refl. cbn [andb]. f_equal.
    apply filter_none. intros x Hx.
    destruct (String.eqb_spec (Supabase.user_id x) (Supabase.user_id c)) as [Eu|];
      [|reflexivity].
    destruct (Z.eqb_spec (Supabase.athlete_id x) (Supabase.athlete_id c)) as [Ea|];
      [|reflexivity].
    exfalso. apply Hnotin. rewrite <- Eu, <- Ea.
    apply (in_map (fun c => (Supabase.user_id c, Supabase.athlete_id c)) rows x Hx).
  - destruct (String.eqb_spec (Supabase.user_id r) (Supabase.user_id c)) as [Eu|].
    + destruct (Z.eqb_spec (Supabase.athlete_id r) (Supabase.athlete_id c)) as [Ea|].
      * exfalso. apply Hnotin. rewrite Eu, Ea.
        apply (in_map (fun c => (Supabase.user_id c, Supabase.athlete_id c))
                 rows c Hin).
      * cbn [andb]. apply IH; assumption.
    + cbn [andb]. apply IH; assumption.
Qed.

Lemma callback_reaches_lookup (w : OAuthCallback.World) (req : Http.Request)
    (userId role : string) (tokenData : Strava.TokenData)
    (athlete : Strava.Athlete) :
  reaches_lookup w req userId role tokenData athlete ->
  OAuthCallback.serve w req
  = match
      (match OAuthCallback.existing_connection w (Some (JSON.JString userId))
               (Strava.id athlete) with
       | Some c =>
           if JSON.strict_ne_string (Supabase.role c) (Some (JSON.JString role))
           then Ok (OAuthCallback.redirect w
                      ("?error=athlete_role_conflict&athlete_id="
                       ++ JSON.Number_toString (Strava.id athlete)), w)
           else OAuthCallback.upsert w (Some (JSON.JString userId))
                  (Some (JSON.JString role)) tokenData athlete
       | None =>
           OAuthCallback.upsert w (Some (JSON.JString userId))
             (Some (JSON.JString role)) tokenData athlete
       end) with
    | Ok out => out
    | Throw _ => (OAuthCallback.redirect w "?error=server_error", w)
    end.
Proof.
  intros [Hm He Hc Hs Hsec (statePayload & Hv & Hu & Hr & cv & Hcv & Htok)
            Hid Hcs Hath].
  unfold OAuthCallback.serve.
  destruct (String.eqb_spec (Http.method req) "OPTIONS") as [E|_];
    [contradiction|].
  unfold OAuthCallback.callback.
  rewrite He, Hc, Hs, Hsec. cbn [negb orb].
  rewrite Hv, Hu, Hr, Hcv. cbn [bind].
  rewrite Hid, Hcs. cbn [orb].
  rewrite Htok. cbn [bind]. rewrite Hath. reflexivity.
Qed.

(** C4.  When the request gets as far as the lookup, the store answers it,
    and the user already has a connection to the same athlete under a role
    other than the requested one, the callback answers with the
    [athlete_role_conflict] redirect that carries the athlete id and leaves
    the store as it was.  Nothing depends on which of the two roles came
    first. *)
Theorem role_conflict_rejected (w : OAuthCallback.World) (req : Http.Request)
    (userId role : string) (tokenData : Strava.TokenData)
    (athlete : Strava.Athlete) (c : Supabase.Connection) :
  reaches_lookup w req userId role tokenData athlete ->
  OAuthCallback.faults w Supabase.SelectConnectionByAthlete = false ->
  unique_athletes (Supabase.connections (OAuthCallback.store w)) ->
  In c (Supabase.connections (OAuthCallback.store w)) ->
  Supabase.user_id c = userId ->
  Supabase.athlete_id c = Strava.id athlete ->
  Supabase.role c <> role ->
  OAuthCallback.serve w req
  = (OAuthCallback.redirect w
       ("?error=athlete_role_conflict&athlete_id="
        ++ JSON.Number_toString (Strava.id athlete)), w).
Proof.
  intros Hreach Hfault Huniq Hin Huser Hath Hrole.
  rewrite (callback_reaches_lookup _ _ _ _ _ _ Hreach).
  unfold OAuthCallback.existing_connection. rewrite Hfault.
  cbn [JSON.ToString JSON.ToString_json].
  rewrite <- Huser, <- Hath.
  rewrite (select_by_athlete _ _ Huniq Hin). cbn [Supabase.maybeSingle].
  unfold JSON.strict_ne_string.
  destruct (String.eqb_spec (Supabase.role c) role) as [E|_]; [contradiction|].
  reflexivity.
Qed.

Lemma redirect_is_redirect (w w' : OAuthCallback.World) (q : string) :
  OAuthCallback.env w' = OAuthCallback.env w -> redirect_query q ->
  is_redirect w (OAuthCallback.redirect w' q).
Proof.
  intros E Hq. split; [reflexivity|]. exists q. split; [|exact Hq].
  unfold OAuthCallback.redirect, Http.Location. cbn. now rewrite E.
Qed.

Ltac fixed_query := left; cbn [In]; tauto.

Lemma upsert_is_redirect (w : OAuthCallback.World) (userId role : JSON.jsvalue)
    (tokenData : Strava.TokenData) (athlete : Strava.Athlete) :
  exists out, OAuthCallback.upsert w userId role tokenData athlete = Ok out
              /\ is_redirect w (fst out).
Proof.
  unfold OAuthCallback.upsert.
  destruct (if OAuthCallback.faults w Supabase.UpsertConnection then None
            else match OAuthCallback.connection_row userId role tokenData athlete
                 with
                 | Some row => Supabase.upsert_connection row (OAuthCallback.store w)
                 | None => None
                 end) as [s|].
  - eexists. split; [reflexivity|]. cbn [fst].
    apply redirect_is_redirect; [reflexivity|]. right. right. now exists role.
  - eexists. split; [reflexivity|]. cbn [fst].
    apply redirect_is_redirect; [reflexivity | fixed_query].
Qed.

(** Whether the store takes the upsert does not depend on the tokens in the
    row. *)
Lemma upsert_connection_tokens (c c' : Supabase.Connection) (s : Supabase.Store) :
  Supabase.user_id c = Supabase.user_id c' ->
  Supabase.role c = Supabase.role c' ->
  Supabase.athlete_id c = Supabase.athlete_id c' ->
  (Supabase.upsert_connection c s = None
   <-> Supabase.upsert_connection c' s = None).
Proof.
  intros Eu Er Ea.
  unfold Supabase.upsert_connection, Supabase.athlete_taken.
  rewrite Eu, Er, Ea.
  destruct (negb (Supabase.connection_role (Supabase.role c')) || _);
    [tauto|].
  destruct (existsb _ (Supabase.connections s)); [split; discriminate|].
  destruct (Supabase.fresh_uuid s). split; discriminate.
Qed.

Lemma upsert_location_tokens (w : OAuthCallback.World)
    (other : Strava.TokenData -> string * string) (userId role : JSON.jsvalue)
    (d : Strava.TokenData) (athlete : Strava.Athlete) :
  match OAuthCallback.upsert (with_other_tokens other w) userId role
          {| Strava.access_token := fst (other d);
             Strava.refresh_token := snd (other d);
             Strava.expires_at := Strava.expires_at d;
             Strava.athlete := Strava.athlete d |} athlete,
        OAuthCallback.upsert w userId role d athlete with
  | Ok out', Ok out => Http.Location (fst out') = Http.Location (fst out)
  | _, _ => False
  end.
Proof.
  unfold OAuthCallback.upsert. cbn [with_other_tokens OAuthCallback.faults
    OAuthCallback.store].
  destruct (OAuthCallback.faults w Supabase.UpsertConnection); [reflexivity|].
  unfold OAuthCallback.connection_row.
  destruct userId as [[| | | |u| |]|]; try reflexivity.
  destruct role as [[| | | |r| |]|]; try reflexivity.
  cbn [Strava.access_token Strava.refresh_token Strava.expires_at].
  match goal with
  | |- context [Supabase.upsert_connection ?row1 ?s] =>
      match goal with
      | |- context [Supabase.upsert_connection ?row2 s] =>
          tryif constr_eq row1 row2 then fail
          else (pose proof (upsert_connection_tokens row1 row2 s
                              eq_refl eq_refl eq_refl) as Hiff;
                destruct (Supabase.upsert_connection row1 s) as [s1|];
                destruct (Supabase.upsert_connection row2 s) as [s2|])
      end
  end; try reflexivity.
  - destruct Hiff as [_ H]. discriminate (H eq_refl).
  - destruct Hiff as [H _]. discriminate (H eq_refl).
Qed.

Ltac leaf :=
  cbn [bind fst]; apply redirect_is_redirect; [reflexivity | fixed_query].

Lemma callback_is_redirect (w : OAuthCallback.World) (req : Http.Request) :
  Http.method req <> "OPTIONS" ->
  is_redirect w (fst (OAuthCallback.serve w req)).
Proof.
  intros Hm. unfold OAuthCallback.serve.
  destruct (String.eqb_spec (Http.method req) "OPTIONS") as [E|_];
    [contradiction|].
  unfold OAuthCallback.callback.
  destruct (negb (falsy (Http.param req "error"))); [leaf|].
  destruct (falsy (Http.param req "code") || falsy (Http.param req "state"));
    [leaf|].
  destruct (falsy (OAuthCallback.env w "STATE_SECRET")); [leaf|].
  destruct (OAuthCallback.validateState _ _ _) as [statePayload|e]; [|leaf].
  destruct (JSON.get statePayload "userId") as [userId|e]; [|leaf].
  destruct (JSON.get statePayload "role") as [role|e]; [|leaf].
  destruct (JSON.get statePayload "codeVerifier") as [codeVerifier|e]; [|leaf].
  cbn [bind].
  destruct (falsy (OAuthCallback.env w "STRAVA_CLIENT_ID")
            || falsy (OAuthCallback.env w "STRAVA_CLIENT_SECRET")); [leaf|].
  destruct (OAuthCallback.token_endpoint w _) as [|code text|[tokenData|e]];
    try leaf.
  cbn [bind].
  destruct (Strava.athlete tokenData) as [athlete|]; [|leaf].
  destruct (upsert_is_redirect w userId role tokenData athlete)
    as (out & Hout & Hred).
  destruct (OAuthCallback.existing_connection w userId (Strava.id athlete))
    as [c|].
  - destruct (JSON.strict_ne_string (Supabase.role c) role).
    + cbn [fst]. apply redirect_is_redirect; [reflexivity|].
      right. left. now exists (Strava.id athlete).
    + rewrite Hout. exact Hred.
  - rewrite Hout. exact Hred.
Qed.

Lemma callback_location_tokens (w : OAuthCallback.World) (req : Http.Request)
    (other : Strava.TokenData -> string * string) :
  Http.Location (fst (OAuthCallback.serve (with_other_tokens other w) req))
  = Http.Location (fst (OAuthCallback.serve w req)).
Proof.
  unfold OAuthCallback.serve.
  destruct (String.eqb (Http.method req) "OPTIONS"); [reflexivity|].
  unfold OAuthCallback.callback.
  cbn [with_other_tokens OAuthCallback.env OAuthCallback.now_ms
       OAuthCallback.token_endpoint].
  destruct (negb (falsy (Http.param req "error"))); [reflexivity|].
  destruct (falsy (Http.param req "code") || falsy (Http.param req "state"));
    [reflexivity|].
  destruct (falsy (OAuthCallback.env w "STATE_SECRET")); [reflexivity|].
  destruct (OAuthCallback.validateState _ _ _) as [statePayload|e];
    [|reflexivity].
  destruct (JSON.get statePayload "userId") as [userId|e]; [|reflexivity].
  destruct (JSON.get statePayload "role") as [role|e]; [|reflexivity].
  destruct (JSON.get statePayload "codeVerifier") as [codeVerifier|e];
    [|reflexivity].
  cbn [bind].
  destruct (falsy (OAuthCallback.env w "STRAVA_CLIENT_ID")
            || falsy (OAuthCallback.env w "STRAVA_CLIENT_SECRET"));
    [reflexivity|].
  destruct (OAuthCallback.token_endpoint w _) as [|code text|[tokenData|e]];
    try reflexivity.
  cbn [bind Strava.athlete].
  destruct (Strava.athlete tokenData) as [athlete|]; [|reflexivity].
  pose proof (upsert_location_tokens w other userId role tokenData athlete)
    as Hup.
  change (OAuthCallback.existing_connection (with_other_tokens other w)
            userId (Strava.id athlete))
    with (OAuthCallback.existing_connection w userId (Strava.id athlete)).
  destruct (OAuthCallback.existing_connection w userId (Strava.id athlete))
    as [c|].
  - destruct (JSON.strict_ne_string (Supabase.role c) role); [reflexivity|].
    destruct (OAuthCallback.upsert (with_other_tokens other w) _ _ _ _);
      destruct (OAuthCallback.upsert w _ _ _ _); try contradiction.
    exact Hup.
  - destruct (OAuthCallback.upsert (with_other_tokens other w) _ _ _ _);
      destruct (OAuthCallback.upsert w _ _ _ _); try contradiction.
    exact Hup.
Qed.

(** C2, as the claim states it, fails: the preflight of a browser, an
    OPTIONS request, is answered 200 and without a Location header. *)
Lemma preflight_is_not_a_redirect :
  let w := {| OAuthCallback.env := fun _ => None;
              OAuthCallback.now_ms := Sample.issued_ms;
              OAuthCallback.token_endpoint := fun _ => Strava.Rejected;
              OAuthCallback.faults := Supabase.no_faults;
              OAuthCallback.store :=
                {| Supabase.connections := []; Supabase.mirrors := [];
                   Supabase.uuids := [] |} |} in
  let req := {| Http.method := "OPTIONS"; Http.searchParams := [];
                Http.headers := []; Http.body := "" |} in
  Http.status (fst (OAuthCallback.serve w req)) = 200
  /\ Http.Location (fst (OAuthCallback.serve w req)) = None.
Proof. split; reflexivity. Qed.

(** C2, amended.  Every request other than the OPTIONS preflight is
    answered with status 302 and a Location made of the application's base
    URL and one of the status queries, and the Location is the same whatever
    access and refresh token the provider returned. *)
Theorem callback_redirects_without_tokens (w : OAuthCallback.World)
    (req : Http.Request) :
  Http.method req <> "OPTIONS" ->
  Http.status (fst (OAuthCallback.serve w req)) = 302
  /\ (exists q,
        Http.Location (fst (OAuthCallback.serve w req))
        = Some (Http.show (OAuthCallback.env w "SUPABASE_URL") ++ q)
        /\ redirect_query q)
  /\ forall other : Strava.TokenData -> string * string,
       Http.Location (fst (OAuthCallback.serve (with_other_tokens other w) req))
       = Http.Location (fst (OAuthCallback.serve w req)).
Proof.
  intros Hm. destruct (callback_is_redirect w req Hm) as [Hs Hq].
  split; [exact Hs|]. split; [exact Hq|].
  intros other. apply callback_location_tokens.
Qed.

Lemma callback_redirects_without_tokens_witness :
  Http.status (fst (OAuthCallback.serve Sample.callback_world
                      Sample.callback_request)) = 302
  /\ (exists q,
        Http.Location (fst (OAuthCallback.serve Sample.callback_world
                              Sample.callback_request))
        = Some (Http.show (OAuthCallback.env Sample.callback_world "SUPABASE_URL")
                ++ q)
        /\ redirect_query q)
  /\ forall other : Strava.TokenData -> string * string,
       Http.Location
         (fst (OAuthCallback.serve
                 (with_other_tokens other Sample.callback_world)
                 Sample.callback_request))
       = Http.Location (fst (OAuthCallback.serve Sample.callback_world
                               Sample.callback_request)).
Proof.
  apply (callback_redirects_without_tokens Sample.callback_world
           Sample.callback_request).
  discriminate.
Defined.

Lemma sample_reaches_lookup :
  reaches_lookup Sample.callback_world Sample.callback_request
    Sample.user "HUMAN" Sample.tokens7 Sample.athlete7.
Proof.
  constructor; try reflexivity; try discriminate.
  exists Sample.payload. split; [vm_compute; reflexivity|].
  split; [reflexivity|]. split; [reflexivity|].
  exists (Some (JSON.JString "dmVyaWZpZXI")). split; reflexivity.
Defined.

Lemma role_conflict_rejected_witness :
  OAuthCallback.serve Sample.callback_world Sample.callback_request
  = (OAuthCallback.redirect Sample.callback_world
       ("?error=athlete_role_conflict&athlete_id=" ++ JSON.Number_toString 7),
     Sample.callback_world).
Proof.
  apply (role_conflict_rejected Sample.callback_world Sample.callback_request
           Sample.user "HUMAN" Sample.tokens7 Sample.athlete7 Sample.pet7).
  - exact sample_reaches_lookup.
  - reflexivity.
  - repeat constructor. intros [].
  - left. reflexivity.
  - reflexivity.
  - reflexivity.
  - discriminate.
Defined.

(** ** The mirror record *)

Section MirrorTwice.

Variable number : Type.
Variable Number_toString : number -> string.
Variable Date_parse : string -> option Z.

Lemma error_response_not_recorded (env : Http.Env) (code : Z) (message : string)
    (record : JSON.json) :
  ~ recorded (Http.error_response env code message) record.
Proof. intros (_ & body & Hb & Hg & _). injection Hb as <-. discriminate Hg. Qed.

Lemma insert_mirror_spec (user : string) (activityId : Z)
    (s s' : Supabase.Store) (m : Supabase.Mirror) :
  Supabase.insert_mirror user activityId s = Some (m, s') ->
  Supabase.mirrors s' = (Supabase.mirrors s ++ [m])%list
  /\ Supabase.mirror_user_id m = user
  /\ Supabase.source_activity_id m = activityId
  /\ forall x, In x (Supabase.mirrors s) ->
       String.eqb (Supabase.mirror_user_id x) user
       && (Supabase.source_activity_id x =? activityId) = false.
Proof.
  unfold Supabase.insert_mirror.
  destruct (existsb _ (Supabase.mirrors s)) eqn:Hex; [discriminate|].
  assert (Hm : Supabase.mirrors (snd (Supabase.fresh_uuid s)) = Supabase.mirrors s).
  { unfold Supabase.fresh_uuid. destruct (Supabase.uuids s); reflexivity. }
  destruct (Supabase.fresh_uuid s) as [u s0]. cbn [snd] in Hm.
  intros H. injection H as <- <-. cbn. rewrite Hm. repeat split.
  intros x Hx.
  destruct (String.eqb (Supabase.mirror_user_id x) user
            && (Supabase.source_activity_id x =? activityId)) eqn:E;
    [|reflexivity].
  assert (Hyes : existsb (fun m => String.eqb (Supabase.mirror_user_id m) user
                          && (Supabase.source_activity_id m =? activityId))
                   (Supabase.mirrors s) = true).
  { apply existsb_exists. exists x. split; assumption. }
  rewrite Hyes in Hex. discriminate Hex.
Qed.

Lemma refresh_keeps_mirrors (c : Supabase.Connection)
    (w : MirrorActivity.World number) :
  Supabase.mirrors
    (MirrorActivity.store (snd (MirrorActivity.refreshTokenIfNeeded c w)))
  = Supabase.mirrors (MirrorActivity.store w).
Proof.
  unfold MirrorActivity.refreshTokenIfNeeded.
  destruct (_ <? _); [reflexivity|].
  destruct (MirrorActivity.token_endpoint w _) as [| code text | [d|e]];
    try reflexivity.
  destruct (MirrorActivity.faults w Supabase.UpdateConnection); reflexivity.
Qed.

Ltac not_recorded :=
  intros H; injection H as <- <-; intros Hrec;
  exfalso; exact (error_response_not_recorded _ _ _ _ Hrec).

Lemma upload_recorded (user : string) (activityId : Z) (petToken : string)
    (activity : MirrorActivity.StravaActivity number)
    (streams : MirrorActivity.StravaStream number)
    (w w' : MirrorActivity.World number) (response : Http.Response)
    (record : JSON.json) :
  MirrorActivity.upload number Number_toString Date_parse user activityId
    petToken activity streams w = (Ok response, w') ->
  recorded response record ->
  exists m, record = Supabase.mirror_json m
            /\ Supabase.insert_mirror user activityId (MirrorActivity.store w)
               = Some (m, MirrorActivity.store w').
Proof.
  unfold MirrorActivity.upload.
  destruct (MirrorActivity.generateGPX _ _ _ _ _ _) as [gpx|e]; [|discriminate].
  destruct (MirrorActivity.upload_endpoint w _) as [| code text | [uploadId|e]];
    try discriminate; try not_recorded.
  cbn [MirrorActivity.called MirrorActivity.store].
  destruct (MirrorActivity.faults w Supabase.InsertMirror).
  - intros H. injection H as <- <-. intros (_ & body & Hb & Hg & Hne).
    injection Hb as <-. cbn in Hg. injection Hg as <-. congruence.
  - destruct (Supabase.insert_mirror user activityId (MirrorActivity.store w))
      as [[m s]|].
    + intros H. injection H as <- <-. intros (_ & body & Hb & Hg & Hne).
      injection Hb as <-. cbn in Hg. injection Hg as <-.
      exists m. split; reflexivity.
    + intros H. injection H as <- <-. intros (_ & body & Hb & Hg & Hne).
      injection Hb as <-. cbn in Hg. injection Hg as <-. congruence.
Qed.

Lemma fetch_and_upload_recorded (user : string) (activityId : Z)
    (humanConnection : Supabase.Connection) (humanToken petToken : string)
    (w w' : MirrorActivity.World number) (response : Http.Response)
    (record : JSON.json) :
  MirrorActivity.fetch_and_upload number Number_toString Date_parse user
    activityId humanConnection humanToken petToken w = (Ok response, w') ->
  recorded response record ->
  exists m, record = Supabase.mirror_json m
            /\ Supabase.insert_mirror user activityId (MirrorActivity.store w)
               = Some (m, MirrorActivity.store w').
Proof.
  unfold MirrorActivity.fetch_and_upload.
  destruct (MirrorActivity.activity_endpoint w _ _)
    as [| code text | [activity|e]]; try discriminate.
  - destruct (code =? 404); not_recorded.
  - destruct (negb _); [not_recorded|].
    destruct (MirrorActivity.streams_endpoint w _ _)
      as [| code text | [streams|e]]; try discriminate; try not_recorded.
    destruct (MirrorActivity.latlng streams) as [points|]; [|not_recorded].
    destruct (MirrorActivity.time streams) as [offsets|]; [|not_recorded].
    intros Hup Hrec.
    exact (upload_recorded _ _ _ _ _ _ _ _ _ Hup Hrec).
Qed.

Lemma mirror_activity_recorded (user : string) (activityId : Z)
    (w w' : MirrorActivity.World number) (response : Http.Response)
    (record : JSON.json) :
  MirrorActivity.mirror_activity number Number_toString Date_parse user
    activityId w = (Ok response, w') ->
  recorded response record ->
  exists m s, record = Supabase.mirror_json m
              /\ Supabase.mirrors s = Supabase.mirrors (MirrorActivity.store w)
              /\ Supabase.insert_mirror user activityId s
                 = Some (m, MirrorActivity.store w').
Proof.
  unfold MirrorActivity.mirror_activity.
  destruct (MirrorActivity.existing_mirror w user activityId) as [existing|].
  { intros H. injection H as <- <-. intros (Hs & _). discriminate Hs. }
  destruct (MirrorActivity.faults w Supabase.SelectConnections);
    [not_recorded|].
  destruct (find _ _) as [humanConnection|]; [|not_recorded].
  destruct (find _ _) as [petConnection|]; [|not_recorded].
  pose proof (refresh_keeps_mirrors humanConnection w) as K1.
  destruct (MirrorActivity.refreshTokenIfNeeded humanConnection w)
    as [[humanToken|e] w1]; [|discriminate].
  pose proof (refresh_keeps_mirrors petConnection w1) as K2.
  destruct (MirrorActivity.refreshTokenIfNeeded petConnection w1)
    as [[petToken|e] w2]; [|discriminate].
  cbn [snd] in K1, K2.
  intros Hup Hrec.
  destruct (fetch_and_upload_recorded _ _ _ _ _ _ _ _ _ Hup Hrec)
    as (m & Hm & Hins).
  exists m, (MirrorActivity.store w2). repeat split; [exact Hm | | exact Hins].
  now rewrite K2, K1.
Qed.

(** C3, amended.  When a first call for a user and an activity id was
    answered 200 with the mirror record it stored, a later call for the same
    user and activity id, made against the store the first call left and
    with the store answering the lookup, is answered 400 Activity already
    mirrored with that same record, and leaves the world as it found it: no
    call to the provider, so no second upload, and no write. *)
Theorem second_mirror_refused (w1 w1' w2 : MirrorActivity.World number)
    (req1 req2 : Http.Request) (user : string) (activityId : Z)
    (response1 : Http.Response) (record : JSON.json) :
  MirrorActivity.identify w1 req1 = Ok (inr (user, activityId)) ->
  MirrorActivity.serve number Number_toString Date_parse w1 req1
  = (response1, w1') ->
  recorded response1 record ->
  Http.method req2 = "POST" ->
  MirrorActivity.identify w2 req2 = Ok (inr (user, activityId)) ->
  MirrorActivity.store w2 = MirrorActivity.store w1' ->
  MirrorActivity.faults w2 Supabase.SelectMirror = false ->
  MirrorActivity.serve number Number_toString Date_parse w2 req2
  = (Http.json_response (MirrorActivity.env w2) 400
       (JSON.JObject [("error", JSON.JString "Activity already mirrored");
                      ("mirror", record)]),
     w2).
Proof.
  intros Hid1 Hserve1 Hrec Hpost Hid2 Hstore Hfault.
  assert (Hfirst : exists m s,
             record = Supabase.mirror_json m
             /\ Supabase.mirrors s = Supabase.mirrors (MirrorActivity.store w1)
             /\ Supabase.insert_mirror user activityId s
                = Some (m, MirrorActivity.store w1')).
  { revert Hserve1. unfold MirrorActivity.serve.
    destruct (String.eqb (Http.method req1) "OPTIONS").
    { intros H. injection H as <- <-.
      destruct Hrec as (_ & body & Hb & _). discriminate Hb. }
    destruct (negb (String.eqb (Http.method req1) "POST")).
    { intros H. injection H as <- <-.
      exfalso. exact (error_response_not_recorded _ _ _ _ Hrec). }
    unfold MirrorActivity.mirror. rewrite Hid1.
    destruct (MirrorActivity.mirror_activity _ _ _ _ _ w1)
      as [[response|e] w] eqn:Hm.
    - intros H. injection H as <- <-.
      exact (mirror_activity_recorded _ _ _ _ _ _ Hm Hrec).
    - intros H. injection H as <- <-.
      exfalso. exact (error_response_not_recorded _ _ _ _ Hrec). }
  destruct Hfirst as (m & s & -> & Hs & Hins).
  apply insert_mirror_spec in Hins as (Hmirrors & Hu & Ha & Hnone).
  unfold MirrorActivity.serve. rewrite Hpost. cbn [String.eqb Ascii.eqb Bool.eqb negb].
  unfold MirrorActivity.mirror. rewrite Hid2.
  unfold MirrorActivity.mirror_activity, MirrorActivity.existing_mirror.
  rewrite Hfault, Hstore, Hmirrors, filter_app.
  rewrite (filter_none _ _ _ Hnone). cbn [filter app].
  rewrite Hu, Ha, String.eqb_refl, Z.eqb_refl. reflexivity.
Qed.

End MirrorTwice.

(** C3, as the claim states it, fails: the first call is answered 200 though
    the store refused its mirror record, and the second call for the same
    user and activity uploads again. *)
Lemma unrecorded_mirror_is_repeated :
  let serve :=
    MirrorActivity.serve Sample.decimal Sample.decimal_text Sample.sample_date in
  let first :=
    serve (Sample.mirror_world Sample.insert_fails Sample.linked)
      Sample.mirror_request in
  let second :=
    serve (Sample.mirror_world Supabase.no_faults
             (MirrorActivity.store (snd first)))
      Sample.mirror_request in
  (Http.status (fst first) = 200
   /\ exists body, Http.response_body (fst first) = Some body
                   /\ JSON.get body "success" = Ok (Some (JSON.JBool true))
                   /\ JSON.get body "mirror" = Ok (Some JSON.JNull))
  /\ Http.status (fst second) = 200
  /\ List.length (filter Sample.is_upload (MirrorActivity.calls (snd second)))
     = 1%nat.
Proof.
  cbv zeta. split; [split; [vm_compute; reflexivity|]|].
  - eexists. split; [vm_compute; reflexivity|]. split; reflexivity.
  - split; vm_compute; reflexivity.
Qed.

Lemma second_mirror_refused_witness :
  let serve :=
    MirrorActivity.serve Sample.decimal Sample.decimal_text Sample.sample_date in
  let first :=
    serve (Sample.mirror_world Supabase.no_faults Sample.linked)
      Sample.mirror_request in
  let w2 :=
    Sample.mirror_world Supabase.no_faults (MirrorActivity.store (snd first)) in
  serve w2 Sample.mirror_request
  = (Http.json_response Sample.settings 400
       (JSON.JObject
          [("error", JSON.JString "Activity already mirrored");
           ("mirror",
            Supabase.mirror_json
              {| Supabase.mirror_id := "m-1";
                 Supabase.mirror_user_id := Sample.user;
                 Supabase.source_activity_id := 42;
                 Supabase.dog_activity_id := None;
                 Supabase.mirror_state := Supabase.PENDING;
                 Supabase.error_message := None |})]),
     w2).
Proof.
  cbv zeta.
  apply (second_mirror_refused Sample.decimal Sample.decimal_text
           Sample.sample_date
           (Sample.mirror_world Supabase.no_faults Sample.linked)
           (snd (MirrorActivity.serve Sample.decimal Sample.decimal_text
                   Sample.sample_date
                   (Sample.mirror_world Supabase.no_faults Sample.linked)
                   Sample.mirror_request))
           (Sample.mirror_world Supabase.no_faults
              (MirrorActivity.store
                 (snd (MirrorActivity.serve Sample.decimal Sample.decimal_text
                         Sample.sample_date
                         (Sample.mirror_world Supabase.no_faults Sample.linked)
                         Sample.mirror_request))))
           Sample.mirror_request Sample.mirror_request Sample.user 42
           (fst (MirrorActivity.serve Sample.decimal Sample.decimal_text
                   Sample.sample_date
                   (Sample.mirror_world Supabase.no_faults Sample.linked)
                   Sample.mirror_request))
           (Supabase.mirror_json
              {| Supabase.mirror_id := "m-1";
                 Supabase.mirror_user_id := Sample.user;
                 Supabase.source_activity_id := 42;
                 Supabase.dog_activity_id := None;
                 Supabase.mirror_state := Supabase.PENDING;
                 Supabase.error_message := None |})).
  - vm_compute. reflexivity.
  - apply surjective_pairing.
  - split; [vm_compute; reflexivity|].
    eexists. split; [vm_compute; reflexivity|].
    split; [reflexivity | discriminate].
  - reflexivity.
  - vm_compute. reflexivity.
  - reflexivity.
  - reflexivity.
Defined.

(** C9.  The update of the stored tokens goes unchecked.  The token of the
    connection is within 300 s of its expiry, the provider answers the
    refresh with a new triple, and the store fails the update: the helper
    made its one call and returns the new access token as if it had been
    persisted, yet the table still holds the row with the old access
    token, the old refresh token and the old expiry, and nothing was
    thrown. *)
Theorem refresh_update_failure_unreported :
  let w := Sample.mirror_world Sample.update_fails Sample.stale_store in
  let request := refresh_request w Sample.stale5 in
  Supabase.expires_at Sample.stale5 <= MirrorActivity.now_ms w / 1000 + 300
  /\ MirrorActivity.token_endpoint w request
     = Strava.Replied (Ok Sample.tokens7)
  /\ let (outcome, w') := MirrorActivity.refreshTokenIfNeeded Sample.stale5 w
     in
     outcome = Ok (Strava.access_token Sample.tokens7)
     /\ Strava.access_token Sample.tokens7 = "access-7"
     /\ MirrorActivity.calls w' = [MirrorActivity.TokenCall request]
     /\ Supabase.connections (MirrorActivity.store w')
        = [Sample.stale5; Sample.pet8]
     /\ Supabase.access_token Sample.stale5 = "access-5"
     /\ Supabase.refresh_token Sample.stale5 = "refresh-5"
     /\ Supabase.expires_at Sample.stale5 = 1700000100.
Proof.
  cbv zeta. split; [vm_compute; discriminate|]. split; [reflexivity|].
  vm_compute. repeat split.
Qed.

(** ** The GPX track log *)

Lemma Ok_inj {A : Type} (a b : A) : Ok a = Ok b -> a = b.
Proof. intros H. now injection H. Qed.

Section TrackLog.
Variable number : Type.
Variable Number_toString : number -> string.
Variable Date_parse : string -> option Z.



(** *** The track points *)

Lemma of_time_in_range (t : Z) : in_range t -> JSDate.of_time (Some t) = Some t.
Proof.
  unfold in_range, JSDate.of_time. intros H.
  now apply Z.leb_le in H as ->.
Qed.

Lemma trackPoint_spec (start : Z) (offsets : list Z)
    (altitude : option (list number)) (i : nat) (lat lon : number) (t : Z) :
  nth_error offsets i = Some t ->
  in_range (start + t * 1000) ->
  MirrorActivity.elevation_at altitude i <> MirrorActivity.ele_undefined ->
  MirrorActivity.trackPoint number Number_toString (Some start) offsets
    altitude i (lat, lon)
  = Ok (track_point (Number_toString lat) (Number_toString lon)
          (JSDate.format (start + t * 1000))
          (option_map Number_toString (altitude_at altitude i))).
Proof.
  intros Ht Hr Hele. unfold MirrorActivity.trackPoint.
  rewrite Ht. cbn [JSDate.getTime JSDate.plus_seconds].
  rewrite (of_time_in_range _ Hr). cbn [JSDate.toISOString bind].
  unfold track_point. f_equal.
  unfold MirrorActivity.elevation_at, altitude_at in *.
  destruct altitude as [data|].
  - destruct (nth_error data i) as [x|]; [|contradiction].
    cbn [MirrorActivity.not_null MirrorActivity.show_elevation option_map].
    repeat rewrite string_app_assoc. reflexivity.
  - cbn [MirrorActivity.not_null option_map].
    repeat rewrite string_app_assoc. reflexivity.
Qed.

Lemma trackPoints_from_spec (start : Z) (offsets : list Z)
    (altitude : option (list number)) (points : list (number * number)) :
  forall (i : nat) (trackPoints : string),
    (forall k, (k < List.length points)%nat ->
       (exists t, nth_error offsets (i + k) = Some t
                  /\ in_range (start + t * 1000))
       /\ MirrorActivity.elevation_at altitude (i + k)
          <> MirrorActivity.ele_undefined) ->
    exists texts,
      MirrorActivity.trackPoints_from number Number_toString (Some start)
        offsets altitude i points trackPoints
      = Ok (trackPoints ++ fold_right append "" texts)
      /\ List.length texts = List.length points
      /\ forall k lat lon t,
           nth_error points k = Some (lat, lon) ->
           nth_error offsets (i + k) = Some t ->
           nth_error texts k
           = Some (track_point (Number_toString lat) (Number_toString lon)
                     (JSDate.format (start + t * 1000))
                     (option_map Number_toString
                        (altitude_at altitude (i + k)))).
Proof.
  induction points as [|[lat lon] points IH]; intros i trackPoints Hall.
  - exists []. cbn. rewrite string_app_nil_r.
    split; [reflexivity|]. split; [reflexivity|].
    intros [|k] ? ? ? H; discriminate H.
  - destruct (Hall 0%nat) as [(t & Ht & Hr) Hele]; [cbn; lia|].
    rewrite Nat.add_0_r in Ht, Hele.
    cbn [MirrorActivity.trackPoints_from].
    rewrite (trackPoint_spec start offsets altitude i lat lon t Ht Hr Hele).
    cbn [bind].
    destruct (IH (S i) (trackPoints
                        ++ track_point (Number_toString lat)
                             (Number_toString lon)
                             (JSDate.format (start + t * 1000))
                             (option_map Number_toString
                                (altitude_at altitude i))))
      as (texts & Hrun & Hlen & Hnth).
    { intros k Hk. replace (S i + k)%nat with (i + S k)%nat by lia.
      apply Hall. cbn. lia. }
    eexists (_ :: texts). rewrite Hrun.
    split; [cbn [fold_right]; now rewrite string_app_assoc|].
    split; [cbn; now rewrite Hlen|].
    intros [|k] lat' lon' t' Hp Ho.
    + rewrite Nat.add_0_r in Ho. cbn in Hp. injection Hp as -> ->.
      rewrite Ht in Ho. injection Ho as ->.
      rewrite Nat.add_0_r. reflexivity.
    + cbn [nth_error] in *. replace (i + S k)%nat with (S i + k)%nat in * by lia.
      now apply Hnth.
Qed.

(** The part of C5 that the code does have: with [n] GPS samples, [n] time
    offsets and a start time, all within the range of a Date, and an
    altitude stream that is absent or has a sample for every point, the file
    is the fixed frame around exactly [n] track points; point [i] carries
    the position of sample [i], the time stamp of the start time plus the
    [i]-th offset in seconds, and its altitude sample when there is an
    altitude stream, and no elevation element when there is none. *)
Theorem generateGPX_track_points (env : Http.Env)
    (activity : MirrorActivity.StravaActivity number)
    (streams : MirrorActivity.StravaStream number)
    (points : list (number * number)) (offsets : list Z) (start : Z) :
  MirrorActivity.latlng streams = Some points ->
  MirrorActivity.time streams = Some offsets ->
  List.length offsets = List.length points ->
  Date_parse (MirrorActivity.start_date activity) = Some start ->
  in_range start ->
  (forall t, In t offsets -> in_range (start + t * 1000)) ->
  (forall data, MirrorActivity.altitude streams = Some data ->
                List.length data = List.length points) ->
  exists texts,
    MirrorActivity.generateGPX number Number_toString Date_parse env activity
      streams
    = Ok (track_log env (MirrorActivity.name activity) (JSDate.format start)
            texts)
    /\ List.length texts = List.length points
    /\ forall i lat lon t,
         nth_error points i = Some (lat, lon) ->
         nth_error offsets i = Some t ->
         nth_error texts i
         = Some (track_point (Number_toString lat) (Number_toString lon)
                   (JSDate.format (start + t * 1000))
                   (option_map Number_toString
                      (altitude_at (MirrorActivity.altitude streams) i))).
Proof.
  intros Hp Ho Hlen Hd Hs Hr Ha.
  unfold MirrorActivity.generateGPX. rewrite Hp, Ho, Hd.
  rewrite (of_time_in_range _ Hs).
  destruct (trackPoints_from_spec start offsets
              (MirrorActivity.altitude streams) points 0 "")
    as (texts & Hrun & Hn & Hnth).
  { intros k Hk. cbn [Nat.add]. split.
    - destruct (nth_error offsets k) as [t|] eqn:Ht.
      + exists t. split; [reflexivity|]. apply Hr.
        now apply nth_error_In with k.
      + apply nth_error_None in Ht. lia.
    - unfold MirrorActivity.elevation_at.
      destruct (MirrorActivity.altitude streams) as [data|]; [|discriminate].
      destruct (nth_error data k) eqn:Hk'; [discriminate|].
      apply nth_error_None in Hk'. specialize (Ha data eq_refl). lia. }
  exists texts. rewrite Hrun. cbn [bind JSDate.toISOString append].
  split; [|split; [exact Hn | exact Hnth]].
  unfold track_log, gpx_head, titlePrefix. f_equal.
  repeat rewrite string_app_assoc. reflexivity.
Qed.

Lemma run_app (st : option XML.reader) (a b : string) :
  XML.run st (a ++ b) = XML.run (XML.run st a) b.
Proof.
  revert st. induction a as [|c a IH]; intros st; [reflexivity|].
  cbn [append XML.run]. destruct st as [s|]; [apply IH|].
  now destruct b.
Qed.


Lemma run_plain (text : string) :
  forall (p : option XML.partial) (brackets : nat) (top : XML.name)
         (below : list XML.name) (closed : bool),
    text_of plain p text = true ->
    exists brackets',
      XML.run (Some {| XML.parsed := {| XML.now := XML.Text brackets;
                                        XML.open := top :: below;
                                        XML.root_closed := closed |};
                       XML.pending := p |}) text
      = Some {| XML.parsed := {| XML.now := XML.Text brackets';
                                 XML.open := top :: below;
                                 XML.root_closed := closed |};
                XML.pending := None |}.
Proof.
  induction text as [|b text IH]; intros p brackets top below closed Hp.
  - destruct p; [discriminate Hp|]. now exists brackets.
  - cbn [text_of] in Hp. cbn [XML.run]. unfold XML.read.
    cbn [XML.pending XML.parsed].
    destruct (XML.feed p (JS.char_code b)) as [|q|c]; [discriminate Hp| |].
    + now apply IH.
    + apply andb_true_iff in Hp as [Hc Hp]. unfold plain in Hc.
      repeat (apply andb_true_iff in Hc as [Hc ?]).
      unfold XML.step. cbn [XML.now XML.inside XML.open negb].
      destruct (XML.is_char c "<"); [discriminate|].
      destruct (XML.is_char c "&"); [discriminate|].
      destruct (XML.is_char c ">"); [discriminate|].
      rewrite Hc.
      destruct (XML.is_char c "]"); unfold XML.go;
        cbn [XML.open XML.root_closed]; now apply IH.
Qed.











(** The state in which the name begins, with the defaults of APP_NAME and
    TITLE_PREFIX: character data of [name] in [metadata] in [gpx]. *)
Lemma run_gpx_head (env : Http.Env) :
  env "APP_NAME" = None ->
  env "TITLE_PREFIX" = None ->
  XML.run (Some XML.start) (gpx_head env) = Some in_metadata_name.
Proof.
  intros Ha Hp. unfold gpx_head, titlePrefix. rewrite Ha, Hp.
  vm_compute. reflexivity.
Qed.




End TrackLog.

(** C5 fails on an altitude stream shorter than the position stream: of
    three GPS samples only the first has an altitude, [altitude[1]] is
    [undefined], which is not [null], and the second track point, instead of
    omitting the elevation element, is written with the text
    [<ele>undefined</ele>]. *)
Theorem short_altitude_writes_undefined :
  let streams := Sample.samples (Some ["400.5"]) in
  (exists points, MirrorActivity.latlng streams = Some points
                  /\ List.length points = 3%nat)
  /\ MirrorActivity.elevation_at (MirrorActivity.altitude streams) 1
     = MirrorActivity.ele_undefined
  /\ exists gpx,
       MirrorActivity.generateGPX Sample.decimal Sample.decimal_text
         Sample.sample_date (fun _ => None) (Sample.run "Morning Run") streams
       = Ok gpx
       /\ JS.includes gpx second_point_text = true.
Proof.
  cbv zeta. split; [eexists; split; reflexivity|].
  split; [reflexivity|].
  eexists. split; [vm_compute; reflexivity|]. vm_compute. reflexivity.
Qed.



(** ** Further properties of the functions *)

Ltac each_ascii c := destruct c as [[] [] [] [] [] [] [] []].

(** ** The codec *)

Lemma base64_char_safe (n : nat) (s : string) :
  (n < 64)%nat ->
  exists c', url_of (String (base64_char (Z.of_nat n)) s) = String c' (url_of s)
             /\ base64url_char c' = true /\ simple_char c' = true
             /\ OAuthAuthorize.unreserved c' = true.
Proof.
  intros H.
  do 64 (destruct n as [|n]; [eexists; repeat split; reflexivity|]).
  lia.
Qed.

Lemma url_of_chars_safe (vs : list Z) :
  Forall sextet vs ->
  String.length (url_of (base64_chars vs)) = List.length vs
  /\ base64url_text (url_of (base64_chars vs)) = true
  /\ simple (url_of (base64_chars vs)) = true
  /\ OAuthAuthorize.urlencode (url_of (base64_chars vs))
     = url_of (base64_chars vs).
Proof.
  induction 1 as [|v vs Hv Hvs IH]; [repeat split; reflexivity|].
  cbn [base64_chars].
  destruct (base64_char_safe (Z.to_nat v) (base64_chars vs))
    as (c' & E & Hb & Hs & Hu).
  { unfold sextet in Hv. lia. }
  rewrite Z2Nat.id in E by (unfold sextet in Hv; lia).
  destruct IH as (IHl & IHb & IHs & IHu).
  rewrite E.
  cbn [String.length List.length base64url_text simple OAuthAuthorize.urlencode].
  rewrite IHl, Hb, IHb, Hs, IHs, Hu, IHu. repeat split; reflexivity.
Qed.

Lemma sextets_of_bytes_length (l : list byte) :
  Z.of_nat (List.length (sextets_of_bytes l))
  = (4 * Z.of_nat (List.length l) + 2) / 3.
Proof.
  induction l as [| a | a b | a b c r IH] using list3_ind;
    try reflexivity.
  cbn [sextets_of_bytes List.length].
  rewrite !Nat2Z.inj_succ, IH.
  Z.div_mod_to_equations. lia.
Qed.

Lemma base64urlEncode_text (data : Uint8Array) :
  Z.of_nat (String.length (OAuthAuthorize.base64urlEncode data))
  = (4 * Z.of_nat (List.length data) + 2) / 3
  /\ base64url_text (OAuthAuthorize.base64urlEncode data) = true
  /\ simple (OAuthAuthorize.base64urlEncode data) = true
  /\ OAuthAuthorize.urlencode (OAuthAuthorize.base64urlEncode data)
     = OAuthAuthorize.base64urlEncode data.
Proof.
  rewrite base64urlEncode_chars.
  destruct (url_of_chars_safe _ (sextets_of_bytes_range data))
    as (Hl & Hb & Hs & Hu).
  rewrite Hl, sextets_of_bytes_length. repeat split; assumption.
Qed.

(** X1.  The decoder of the callback inverts the encoder of the
    authorization-start function on every byte array: padding, [+] and [/]
    are restored, and the bytes come back as they were. *)
Theorem base64urlDecode_inverts_base64urlEncode (data : Uint8Array) :
  OAuthCallback.base64urlDecode (OAuthAuthorize.base64urlEncode data)
  = Ok data.
Proof. apply base64url_round_trip. Qed.

(** X2.  [generateRandomString(n)], given at least [n] bytes of entropy,
    uses exactly [n] of them and returns [floor((4n + 2) / 3)] characters,
    all of the base64url alphabet; the URL serializer leaves such a text as
    it is. *)
Theorem generateRandomString_text (n : nat) (entropy : list byte) :
  (n <= List.length entropy)%nat ->
  let (text, rest) := OAuthAuthorize.generateRandomString n entropy in
  Z.of_nat (String.length text) = (4 * Z.of_nat n + 2) / 3
  /\ base64url_text text = true
  /\ OAuthAuthorize.urlencode text = text
  /\ List.length rest = (List.length entropy - n)%nat.
Proof.
  intros Hn. unfold OAuthAuthorize.generateRandomString.
  destruct (base64urlEncode_text (firstn n entropy)) as (Hl & Hb & _ & Hu).
  rewrite length_firstn, Nat.min_l in Hl by exact Hn.
  repeat split; try assumption. apply length_skipn.
Qed.

Lemma generateRandomString_text_witness :
  let (text, rest) :=
    OAuthAuthorize.generateRandomString 16
      (repeat x2a%byte 20) in
  Z.of_nat (String.length text) = 22
  /\ base64url_text text = true
  /\ OAuthAuthorize.urlencode text = text
  /\ List.length rest = 4%nat.
Proof.
  apply (generateRandomString_text 16 (repeat x2a%byte 20)).
  cbn [repeat List.length]. lia.
Defined.

(** X3.  The signature [hmacSha256] returns is always 43 characters of the
    base64url alphabet: no padding, no [.], whatever the message and the
    secret. *)
Theorem hmacSha256_is_base64url (message secret : string) :
  String.length (OAuthCallback.hmacSha256 message secret) = 43%nat
  /\ base64url_text (OAuthCallback.hmacSha256 message secret) = true
  /\ contains "." (OAuthCallback.hmacSha256 message secret) = false
  /\ contains "=" (OAuthCallback.hmacSha256 message secret) = false.
Proof.
  rewrite hmacSha256_same. unfold OAuthAuthorize.hmacSha256.
  set (signature := WebCrypto.sign_HMAC _ _).
  destruct (base64urlEncode_text signature) as (Hl & Hb & _ & _).
  unfold signature in Hl at 2. rewrite sign_HMAC_length in Hl.
  split; [change ((4 * Z.of_nat 32 + 2) / 3) with 43 in Hl; lia|].
  split; [exact Hb|].
  clear Hl. induction (OAuthAuthorize.base64urlEncode signature) as [|c s IH];
    [split; reflexivity|].
  cbn [base64url_text] in Hb. apply andb_true_iff in Hb as [Hc Hs].
  destruct (IH Hs) as [IH1 IH2]. cbn [contains]. rewrite IH1, IH2.
  split; (each_ascii c; vm_compute in Hc; try discriminate Hc); reflexivity.
Qed.

(** ** What the callback accepts as a state *)

Lemma TextEncoder_encode_inj (a b : string) :
  TextEncoder_encode a = TextEncoder_encode b -> a = b.
Proof.
  unfold TextEncoder_encode. intros H.
  rewrite <- (string_of_list_byte_of_string a),
          <- (string_of_list_byte_of_string b).
  now rewrite H.
Qed.

(** X4.  A state whose second part is not the HMAC of its first part under
    the server's secret is refused with Invalid state signature, whatever
    the first part says: the payload is not even parsed. *)
Theorem forged_signature_rejected (stateSecret : string) (now_ms : Z)
    (stateParam : string) (stateData : Uint8Array)
    (jsonPart providedSignature : string) (rest : list string) :
  OAuthCallback.base64urlDecode stateParam = Ok stateData ->
  split "." (TextDecoder_decode stateData)
  = jsonPart :: providedSignature :: rest ->
  jsonPart <> "" -> providedSignature <> "" ->
  providedSignature <> OAuthCallback.hmacSha256 jsonPart stateSecret ->
  OAuthCallback.validateState stateSecret now_ms stateParam
  = Throw (Error "Invalid state signature").
Proof.
  intros Hdec Hsplit Hj Hs Hne. unfold OAuthCallback.validateState.
  rewrite Hdec. cbn [bind]. rewrite Hsplit. cbn [nth_error].
  rewrite (falsy_some _ Hj), (falsy_some _ Hs). cbn [orb].
  destruct (OAuthCallback.constantTimeEqual _ _) eqn:E; [|reflexivity].
  apply constantTimeEqual_true_iff in E.
  exfalso. apply Hne. apply TextEncoder_encode_inj.
  apply nth_ext with (d := x00) (d' := x00); [apply E|].
  intros n Hn. now apply (proj2 E).
Qed.

Lemma forged_signature_rejected_witness :
  OAuthCallback.validateState Sample.stateSecret Sample.issued_ms
    Fixture.forged_state
  = Throw (Error "Invalid state signature").
Proof.
  apply (forged_signature_rejected Sample.stateSecret Sample.issued_ms
           Fixture.forged_state (TextEncoder_encode Fixture.forged_text)
           (JSON.stringify Fixture.forged_payload) "AAAA" []).
  - apply base64url_round_trip.
  - vm_compute. reflexivity.
  - vm_compute. discriminate.
  - discriminate.
  - vm_compute. discriminate.
Defined.

(** X5.  Whatever the callback accepts as a state was signed with the
    server's secret and has not expired: the decoded text has a first part
    that parses to the payload returned, a second part that is the HMAC of
    the first under the secret, and an [exp] that is not before the
    clock. *)
Theorem accepted_state_is_signed (stateSecret : string) (now_ms : Z)
    (stateParam : string) (statePayload : JSON.json) :
  OAuthCallback.validateState stateSecret now_ms stateParam = Ok statePayload ->
  exists stateData jsonPart rest exp,
    OAuthCallback.base64urlDecode stateParam = Ok stateData
    /\ split "." (TextDecoder_decode stateData)
       = jsonPart :: OAuthCallback.hmacSha256 jsonPart stateSecret :: rest
    /\ JSON.parse jsonPart = Ok statePayload
    /\ JSON.get statePayload "exp" = Ok exp
    /\ JSON.less_than exp (now_ms / 1000) = false.
Proof.
  unfold OAuthCallback.validateState.
  destruct (OAuthCallback.base64urlDecode stateParam) as [stateData|];
    [|discriminate].
  cbn [bind].
  destruct (split "." (TextDecoder_decode stateData))
    as [|jsonPart [|providedSignature rest]] eqn:Hsplit;
    cbn [nth_error]; try discriminate.
  { destruct (falsy (Some jsonPart) || falsy None); discriminate. }
  destruct (falsy (Some jsonPart) || falsy (Some providedSignature));
    [discriminate|].
  destruct (OAuthCallback.constantTimeEqual _ _) eqn:E; cbn [negb];
    [|discriminate].
  apply constantTimeEqual_true_iff in E.
  assert (Hsig : providedSignature
                 = OAuthCallback.hmacSha256 jsonPart stateSecret).
  { apply TextEncoder_encode_inj.
    apply nth_ext with (d := x00) (d' := x00); [apply E|].
    intros n Hn. now apply (proj2 E). }
  destruct (JSON.parse jsonPart) as [parsed|] eqn:Hparse; [|discriminate].
  cbn [bind].
  destruct (JSON.get parsed "exp") as [exp|] eqn:Hexp; [|discriminate].
  cbn [bind].
  destruct (JSON.less_than exp (now_ms / 1000)) eqn:Hlt; [discriminate|].
  intros H. apply Ok_inj in H. subst parsed.
  exists stateData, jsonPart, rest, exp. rewrite <- Hsig.
  repeat split; assumption.
Qed.

Lemma accepted_state_is_signed_witness :
  exists stateData jsonPart rest exp,
    OAuthCallback.base64urlDecode Sample.state = Ok stateData
    /\ split "." (TextDecoder_decode stateData)
       = jsonPart :: OAuthCallback.hmacSha256 jsonPart Sample.stateSecret
           :: rest
    /\ JSON.parse jsonPart = Ok Sample.payload
    /\ JSON.get Sample.payload "exp" = Ok exp
    /\ JSON.less_than exp (Sample.issued_ms / 1000) = false.
Proof.
  apply (accepted_state_is_signed Sample.stateSecret Sample.issued_ms
           Sample.state Sample.payload).
  vm_compute. reflexivity.
Defined.

(** X6.  The state codec, end to end: for a payload whose strings are
    simple, the state the authorization-start function signs is accepted by
    the callback under the same secret as long as the clock, in seconds, is
    not past [exp], and yields the payload; once the clock is past [exp] it
    is refused as expired. *)
Theorem state_codec_round_trip (userId role : string) (exp : Z)
    (nonce codeVerifier : string) (stateSecret : string) (now_ms : Z) :
  simple userId = true -> simple role = true ->
  simple nonce = true -> simple codeVerifier = true ->
  let payload :=
    OAuthAuthorize.statePayload userId role exp nonce codeVerifier in
  let state := OAuthAuthorize.signedState payload stateSecret in
  (now_ms / 1000 <= exp ->
   OAuthCallback.validateState stateSecret now_ms state = Ok payload)
  /\ (exp < now_ms / 1000 ->
      OAuthCallback.validateState stateSecret now_ms state
      = Throw (Error "State expired")).
Proof.
  intros Hu Hr Hn Hv. cbv zeta. split; intros Hexp.
  - now apply state_round_trip.
  - now apply signed_state_expires.
Qed.

Lemma state_codec_round_trip_witness :
  OAuthCallback.validateState Sample.stateSecret Sample.issued_ms Sample.state
  = Ok Sample.payload
  /\ OAuthCallback.validateState Sample.stateSecret Sample.late_ms Sample.state
     = Throw (Error "State expired").
Proof.
  split.
  - apply (proj1 (state_codec_round_trip
                    "3f1c9a52-7f0e-4a57-9d1b-0c2f6a1d9b11" "HUMAN" 1700000600
                    "bm9uY2U" "dmVyaWZpZXI" Sample.stateSecret Sample.issued_ms
                    eq_refl eq_refl eq_refl eq_refl)).
    vm_compute. discriminate.
  - apply (proj2 (state_codec_round_trip
                    "3f1c9a52-7f0e-4a57-9d1b-0c2f6a1d9b11" "HUMAN" 1700000600
                    "bm9uY2U" "dmVyaWZpZXI" Sample.stateSecret Sample.late_ms
                    eq_refl eq_refl eq_refl eq_refl)).
    reflexivity.
Defined.

(** ** The authorization-start function *)

(** X7.  The status of every reply of the authorization-start function to
    a request other than the preflight: 400 unless [role] is HUMAN or PET
    and [userId] is not empty, then 500 unless STRAVA_CLIENT_ID and
    STATE_SECRET are both set and not empty, and 200 otherwise. *)
Theorem authorize_status (env : Http.Env) (now_ms : Z) (entropy : list byte)
    (req : Http.Request) :
  Http.method req <> "OPTIONS" ->
  Http.status (OAuthAuthorize.serve env now_ms entropy req)
  = if falsy (Http.param req "role") || falsy (Http.param req "userId")
       || negb (String.eqb (Http.show (Http.param req "role")) "HUMAN"
                || String.eqb (Http.show (Http.param req "role")) "PET")
    then 400
    else if falsy (env "STRAVA_CLIENT_ID") || falsy (env "STATE_SECRET")
    then 500
    else 200.
Proof.
  intros Hm. apply String.eqb_neq in Hm.
  unfold OAuthAuthorize.serve. rewrite Hm.
  destruct (Http.param req "role") as [role|];
    [|reflexivity].
  destruct (Http.param req "userId") as [userId|];
    [|cbn [falsy]; now rewrite orb_true_r].
  cbn [Http.show].
  destruct (falsy (Some role) || falsy (Some userId)
            || negb (String.eqb role "HUMAN" || String.eqb role "PET"));
    [reflexivity|].
  destruct (env "STRAVA_CLIENT_ID") as [clientId|]; [|reflexivity].
  destruct (falsy (Some clientId)); [reflexivity|].
  destruct (OAuthAuthorize.generateRandomString 43 entropy) as [v e1].
  destruct (env "STATE_SECRET") as [secret|]; [|reflexivity].
  destruct (falsy (Some secret)); [reflexivity|].
  destruct (OAuthAuthorize.generateRandomString 16 e1). reflexivity.
Qed.

Lemma authorize_status_witness :
  Http.status
    (OAuthAuthorize.serve Sample.settings Sample.issued_ms Fixture.entropy
       Fixture.authorize_request) = 200.
Proof.
  apply (authorize_status Sample.settings Sample.issued_ms Fixture.entropy
           Fixture.authorize_request).
  discriminate.
Defined.

Lemma authorize_query (clientId redirectUri scopes state codeChallenge : string) :
  OAuthAuthorize.query_string
    [("client_id", clientId); ("redirect_uri", redirectUri);
     ("response_type", "code"); ("scope", scopes); ("state", state);
     ("code_challenge", codeChallenge); ("code_challenge_method", "S256")]
  = JSON.join "&"
      ["client_id=" ++ OAuthAuthorize.urlencode clientId;
       "redirect_uri=" ++ OAuthAuthorize.urlencode redirectUri;
       "response_type=code";
       "scope=" ++ OAuthAuthorize.urlencode scopes;
       "state=" ++ OAuthAuthorize.urlencode state;
       "code_challenge=" ++ OAuthAuthorize.urlencode codeChallenge;
       "code_challenge_method=S256"].
Proof. reflexivity. Qed.

(** X8.  What the authorization-start function hands out, the callback
    takes back.  For a request with role HUMAN or PET and a simple
    [userId], the reply is 200 with an authorization URL whose [state]
    parameter is written unescaped and whose [code_challenge] is the
    base64url SHA-256 of the code verifier inside the state; the state
    validates in the callback, under the same STATE_SECRET, up to 600
    seconds after it was issued, giving back [userId], [role] and the code
    verifier, and is refused as expired after that. *)
Theorem issued_state_validates (env : Http.Env) (now_ms : Z)
    (entropy : list byte) (req : Http.Request)
    (role userId clientId stateSecret : string) :
  Http.method req <> "OPTIONS" ->
  Http.param req "role" = Some role ->
  role = "HUMAN" \/ role = "PET" ->
  Http.param req "userId" = Some userId ->
  userId <> "" -> simple userId = true ->
  env "STRAVA_CLIENT_ID" = Some clientId -> clientId <> "" ->
  env "STATE_SECRET" = Some stateSecret -> stateSecret <> "" ->
  exists state nonce codeVerifier,
    OAuthAuthorize.serve env now_ms entropy req
    = Http.json_response env 200
        (JSON.JObject
           [("authUrl",
             JSON.JString
               ("https://www.strava.com/oauth/authorize?"
                ++ JSON.join "&"
                     ["client_id=" ++ OAuthAuthorize.urlencode clientId;
                      "redirect_uri="
                      ++ OAuthAuthorize.urlencode
                           (Http.show (env "SUPABASE_URL")
                            ++ "/functions/v1/oauth-callback");
                      "response_type=code";
                      "scope="
                      ++ OAuthAuthorize.urlencode
                           (if String.eqb role "HUMAN"
                            then "read,activity:read,activity:read_all"
                            else "activity:write");
                      "state=" ++ state;
                      "code_challenge="
                      ++ OAuthAuthorize.base64urlEncode
                           (WebCrypto.sha256 (TextEncoder_encode codeVerifier));
                      "code_challenge_method=S256"]))])
    /\ (forall later_ms,
          later_ms / 1000 <= now_ms / 1000 + 600 ->
          OAuthCallback.validateState stateSecret later_ms state
          = Ok (OAuthAuthorize.statePayload userId role (now_ms / 1000 + 600)
                  nonce codeVerifier))
    /\ (forall later_ms,
          now_ms / 1000 + 600 < later_ms / 1000 ->
          OAuthCallback.validateState stateSecret later_ms state
          = Throw (Error "State expired")).
Proof.
  intros Hm Hrole Hr Huser Hune Hu Hid Hidne Hsec Hsecne.
  apply String.eqb_neq in Hm.
  unfold OAuthAuthorize.serve. rewrite Hm, Hrole, Huser, Hid, Hsec.
  rewrite (falsy_some _ Hune), (falsy_some _ Hidne), (falsy_some _ Hsecne).
  assert (Hsr : simple role = true) by (destruct Hr as [-> | ->]; reflexivity).
  assert (Hne : falsy (Some role) = false)
    by (destruct Hr as [-> | ->]; reflexivity).
  assert (Hok : String.eqb role "HUMAN" || String.eqb role "PET" = true)
    by (destruct Hr as [-> | ->]; reflexivity).
  rewrite Hne, Hok. cbn [orb negb].
  unfold OAuthAuthorize.generateRandomString.
  set (verifier := OAuthAuthorize.base64urlEncode (firstn 43 entropy)).
  set (nonce := OAuthAuthorize.base64urlEncode
                  (firstn 16 (skipn 43 entropy))).
  destruct (base64urlEncode_text (firstn 43 entropy)) as (_ & _ & Hsv & _).
  destruct (base64urlEncode_text (firstn 16 (skipn 43 entropy)))
    as (_ & _ & Hsn & _).
  fold verifier in Hsv. fold nonce in Hsn.
  set (state := OAuthAuthorize.signedState
                  (OAuthAuthorize.statePayload userId role
                     (now_ms / 1000 + 10 * 60) nonce verifier) stateSecret).
  exists state, nonce, verifier.
  split; [|split].
  - rewrite authorize_query.
    assert (Hstate : OAuthAuthorize.urlencode state = state)
      by apply base64urlEncode_text.
    rewrite Hstate.
    now rewrite (proj2 (proj2 (proj2 (base64urlEncode_text
                   (WebCrypto.sha256 (TextEncoder_encode verifier)))))).
  - intros later Hl. now apply state_round_trip.
  - intros later Hl. now apply signed_state_expires.
Qed.

Lemma issued_state_validates_witness :
  exists state nonce codeVerifier,
    Http.status
      (OAuthAuthorize.serve Sample.settings Sample.issued_ms Fixture.entropy
         Fixture.authorize_request) = 200
    /\ OAuthCallback.validateState Sample.stateSecret
         (Sample.issued_ms + 599000) state
       = Ok (OAuthAuthorize.statePayload Sample.user "PET" 1700000600 nonce
               codeVerifier)
    /\ OAuthCallback.validateState Sample.stateSecret Sample.late_ms state
       = Throw (Error "State expired").
Proof.
  destruct (issued_state_validates Sample.settings Sample.issued_ms
              Fixture.entropy Fixture.authorize_request "PET" Sample.user
              "1234" Sample.stateSecret)
    as (state & nonce & codeVerifier & Hserve & Hok & Hlate);
    try reflexivity; try discriminate; [now right|].
  exists state, nonce, codeVerifier. split; [|split].
  - rewrite Hserve. reflexivity.
  - apply Hok. vm_compute. discriminate.
  - apply Hlate. reflexivity.
Defined.

(** ** The connections the callback stores *)

Lemma fresh_uuid_connections (s : Supabase.Store) :
  Supabase.connections (snd (Supabase.fresh_uuid s)) = Supabase.connections s.
Proof. unfold Supabase.fresh_uuid. now destruct (Supabase.uuids s). Qed.

Lemma athlete_taken_false (row : Supabase.Connection)
    (rows : list Supabase.Connection) :
  Supabase.athlete_taken row rows = false ->
  forall r, In r rows ->
    Supabase.user_id r = Supabase.user_id row ->
    Supabase.athlete_id r = Supabase.athlete_id row ->
    Supabase.role r = Supabase.role row.
Proof.
  unfold Supabase.athlete_taken. intros H r Hin Hu Ha.
  destruct (String.eqb_spec (Supabase.role r) (Supabase.role row)) as [E|N];
    [exact E|].
  exfalso.
  assert (T : existsb
                (fun r => String.eqb (Supabase.user_id r) (Supabase.user_id row)
                          && (Supabase.athlete_id r =? Supabase.athlete_id row)
                          && negb (String.eqb (Supabase.role r)
                                     (Supabase.role row))) rows = true).
  { apply existsb_exists. exists r. split; [exact Hin|].
    rewrite Hu, Ha, String.eqb_refl, Z.eqb_refl.
    apply String.eqb_neq in N. now rewrite N. }
  congruence.
Qed.

Lemma same_slot_spec (row r : Supabase.Connection) :
  same_slot row r = true
  <-> Supabase.user_id r = Supabase.user_id row
      /\ Supabase.role r = Supabase.role row.
Proof.
  unfold same_slot. rewrite andb_true_iff, !String.eqb_eq. reflexivity.
Qed.

Lemma upsert_connection_cases (row : Supabase.Connection)
    (s s' : Supabase.Store) :
  Supabase.upsert_connection row s = Some s' ->
  Supabase.connection_role (Supabase.role row) = true
  /\ Supabase.athlete_taken row (Supabase.connections s) = false
  /\ Supabase.mirrors s' = Supabase.mirrors s
  /\ ((existsb (same_slot row) (Supabase.connections s) = true
       /\ Supabase.connections s'
          = map (fun r => if same_slot row r then overwrite row r else r)
                (Supabase.connections s))
      \/ (existsb (same_slot row) (Supabase.connections s) = false
          /\ exists u,
               Supabase.connections s'
               = (Supabase.connections s ++ [overwrite row
                    {| Supabase.id := u; Supabase.user_id := "";
                       Supabase.role := ""; Supabase.athlete_id := 0;
                       Supabase.athlete_username := "";
                       Supabase.athlete_fullname := "";
                       Supabase.athlete_avatar := None;
                       Supabase.access_token := "";
                       Supabase.refresh_token := "";
                       Supabase.expires_at := 0 |}])%list)).
Proof.
  unfold Supabase.upsert_connection.
  destruct (Supabase.connection_role (Supabase.role row)); [|discriminate].
  destruct (Supabase.athlete_taken row (Supabase.connections s));
    [discriminate|].
  cbn [negb orb].
  change (fun r => String.eqb (Supabase.user_id r) (Supabase.user_id row)
                   && String.eqb (Supabase.role r) (Supabase.role row))
    with (same_slot row).
  destruct (existsb (same_slot row) (Supabase.connections s)).
  - intros H. injection H as <-. repeat split. left. split; reflexivity.
  - pose proof (fresh_uuid_connections s) as Hc.
    unfold Supabase.fresh_uuid in *.
    destruct (Supabase.uuids s) as [|u rest]; intros H; injection H as <-;
      repeat split; right; (split; [reflexivity|]); eexists; reflexivity.
Qed.

Lemma overwrite_keeps_slot (row : Supabase.Connection)
    (rows : list Supabase.Connection) :
  map (fun c => (Supabase.user_id c, Supabase.role c))
      (map (fun r => if same_slot row r then overwrite row r else r) rows)
  = map (fun c => (Supabase.user_id c, Supabase.role c)) rows.
Proof.
  induction rows as [|r rows IH]; [reflexivity|].
  cbn [map]. rewrite IH. f_equal.
  destruct (same_slot row r) eqn:E; [|reflexivity].
  apply same_slot_spec in E as [-> ->]. reflexivity.
Qed.

Lemma overwrite_unique_athletes (row : Supabase.Connection)
    (rows : list Supabase.Connection) :
  unique_roles rows -> unique_athletes rows ->
  Supabase.athlete_taken row rows = false ->
  unique_athletes
    (map (fun r => if same_slot row r then overwrite row r else r) rows).
Proof.
  unfold unique_roles, unique_athletes.
  induction rows as [|r rows IH]; intros Hr Ha Ht; [constructor|].
  cbn [map] in *.
  apply NoDup_cons_iff in Hr as [Hr1 Hr].
  apply NoDup_cons_iff in Ha as [Ha1 Ha].
  assert (Ht' : Supabase.athlete_taken row rows = false).
  { unfold Supabase.athlete_taken in *. cbn [existsb] in Ht.
    now apply orb_false_iff in Ht. }
  pose proof (athlete_taken_false row (r :: rows) Ht) as Hfree.
  apply NoDup_cons; [|now apply IH].
  intros Hin. rewrite map_map in Hin. apply in_map_iff in Hin as (x & Hx & Hxin).
  destruct (same_slot row r) eqn:Er; destruct (same_slot row x) eqn:Ex;
    cbn [overwrite Supabase.user_id Supabase.athlete_id] in Hx.
  - apply same_slot_spec in Er as [Eu Erole].
    apply same_slot_spec in Ex as [Exu Exrole].
    apply Hr1. apply in_map_iff. exists x. split; [|exact Hxin]. congruence.
  - injection Hx as Hu Hath.
    assert (Erole : Supabase.role x = Supabase.role row)
      by (apply Hfree; [now right | exact Hu | exact Hath]).
    assert (same_slot row x = true) by (apply same_slot_spec; now split).
    congruence.
  - injection Hx as Hu Hath.
    assert (Erole : Supabase.role r = Supabase.role row)
      by (apply Hfree; [now left | congruence | congruence]).
    assert (same_slot row r = true)
      by (apply same_slot_spec; split; congruence).
    congruence.
  - apply Ha1. apply in_map_iff. exists x. now split.
Qed.

Lemma not_same_slot (row : Supabase.Connection)
    (rows : list Supabase.Connection) :
  existsb (same_slot row) rows = false ->
  forall r, In r rows ->
    ~ (Supabase.user_id r = Supabase.user_id row
       /\ Supabase.role r = Supabase.role row).
Proof.
  intros H r Hin E. apply same_slot_spec in E.
  assert (existsb (same_slot row) rows = true)
    by (apply existsb_exists; now exists r).
  congruence.
Qed.

Lemma NoDup_snoc {A : Type} (l : list A) (a : A) :
  NoDup l -> ~ In a l -> NoDup (l ++ [a]).
Proof.
  induction l as [|x l IH]; intros Hn Hin; cbn [app].
  - constructor; [intros []|constructor].
  - apply NoDup_cons_iff in Hn as [Hx Hn]. apply NoDup_cons.
    + rewrite in_app_iff. intros [H|[->|[]]]; [now apply Hx|].
      apply Hin. now left.
    + apply IH; [exact Hn|]. intros H. apply Hin. now right.
Qed.

Lemma upsert_connection_consistent (row : Supabase.Connection)
    (s s' : Supabase.Store) :
  consistent s -> Supabase.upsert_connection row s = Some s' -> consistent s'.
Proof.
  intros [Hr Ha] Hup. unfold consistent.
  destruct (upsert_connection_cases row s s' Hup)
    as (_ & Ht & _ & [[_ ->] | [Hnone [u ->]]]).
  - split.
    + unfold unique_roles. now rewrite overwrite_keeps_slot.
    + now apply overwrite_unique_athletes.
  - pose proof (not_same_slot row _ Hnone) as Hfree.
    pose proof (athlete_taken_false row _ Ht) as Hath.
    split.
    + unfold unique_roles. rewrite map_app. cbn [map].
      apply NoDup_snoc; [exact Hr|].
      intros Hin. apply in_map_iff in Hin as (x & Hx & Hxin).
      cbn [overwrite Supabase.user_id Supabase.role] in Hx.
      injection Hx as Hu Hrole. now apply (Hfree x Hxin).
    + unfold unique_athletes. rewrite map_app. cbn [map].
      apply NoDup_snoc; [exact Ha|].
      intros Hin. apply in_map_iff in Hin as (x & Hx & Hxin).
      cbn [overwrite Supabase.user_id Supabase.athlete_id] in Hx.
      injection Hx as Hu Hath'.
      apply (Hfree x Hxin). split; [exact Hu|]. now apply Hath.
Qed.

Lemma callback_outcome (w : OAuthCallback.World) (req : Http.Request) :
  snd (OAuthCallback.serve w req) = w
  \/ exists statePayload userId role codeVerifier tokenData athlete row s',
       falsy (OAuthCallback.env w "STATE_SECRET") = false
       /\ OAuthCallback.validateState
            (Http.show (OAuthCallback.env w "STATE_SECRET"))
            (OAuthCallback.now_ms w) (Http.show (Http.param req "state"))
          = Ok statePayload
       /\ JSON.get statePayload "userId" = Ok userId
       /\ JSON.get statePayload "role" = Ok role
       /\ JSON.get statePayload "codeVerifier" = Ok codeVerifier
       /\ OAuthCallback.token_endpoint w
            {| Strava.client_id := OAuthCallback.env w "STRAVA_CLIENT_ID";
               Strava.client_secret :=
                 OAuthCallback.env w "STRAVA_CLIENT_SECRET";
               Strava.grant_type := "authorization_code";
               Strava.code := Http.param req "code";
               Strava.code_verifier := codeVerifier;
               Strava.refresh := None |}
          = Strava.Replied (Ok tokenData)
       /\ Strava.athlete tokenData = Some athlete
       /\ OAuthCallback.connection_row userId role tokenData athlete
          = Some row
       /\ Supabase.upsert_connection row (OAuthCallback.store w) = Some s'
       /\ OAuthCallback.serve w req
          = (OAuthCallback.redirect w
               ("?oauth_success=true&role=" ++ JSON.ToString role),
             OAuthCallback.with_store w s').
Proof.
  unfold OAuthCallback.serve.
  destruct (String.eqb (Http.method req) "OPTIONS"); [now left|].
  unfold OAuthCallback.callback.
  destruct (negb (falsy (Http.param req "error"))); [now left|].
  destruct (falsy (Http.param req "code") || falsy (Http.param req "state"));
    [now left|].
  destruct (falsy (OAuthCallback.env w "STATE_SECRET")) eqn:Hsec; [now left|].
  destruct (OAuthCallback.validateState _ _ _) as [statePayload|e] eqn:Hv;
    [|now left].
  destruct (JSON.get statePayload "userId") as [userId|e] eqn:Hu; [|now left].
  destruct (JSON.get statePayload "role") as [role|e] eqn:Hr; [|now left].
  destruct (JSON.get statePayload "codeVerifier") as [codeVerifier|e] eqn:Hcv;
    [|now left].
  cbn [bind].
  destruct (falsy (OAuthCallback.env w "STRAVA_CLIENT_ID")
            || falsy (OAuthCallback.env w "STRAVA_CLIENT_SECRET"));
    [now left|].
  destruct (OAuthCallback.token_endpoint w _)
    as [|code text|[tokenData|e]] eqn:Htok; try (now left).
  cbn [bind].
  destruct (Strava.athlete tokenData) as [athlete|] eqn:Hath; [|now left].
  assert (Hup :
    match OAuthCallback.upsert w userId role tokenData athlete with
    | Ok out =>
        snd out = w
        \/ exists row s',
             OAuthCallback.connection_row userId role tokenData athlete
             = Some row
             /\ Supabase.upsert_connection row (OAuthCallback.store w)
                = Some s'
             /\ out = (OAuthCallback.redirect w
                         ("?oauth_success=true&role=" ++ JSON.ToString role),
                       OAuthCallback.with_store w s')
    | Throw _ => True
    end).
  { unfold OAuthCallback.upsert.
    destruct (OAuthCallback.faults w Supabase.UpsertConnection); [now left|].
    destruct (OAuthCallback.connection_row userId role tokenData athlete)
      as [row|] eqn:Hrow; [|now left].
    destruct (Supabase.upsert_connection row (OAuthCallback.store w))
      as [s'|] eqn:Hs; [|now left].
    right. exists row, s'. repeat split; assumption. }
  destruct (OAuthCallback.existing_connection w userId (Strava.id athlete))
    as [c|].
  - destruct (JSON.strict_ne_string (Supabase.role c) role); [now left|].
    destruct (OAuthCallback.upsert w userId role tokenData athlete)
      as [out|e]; [|now left].
    destruct Hup as [H | (row & s' & Hrow & Hs & ->)]; [now left|].
    right.
    exists statePayload, userId, role, codeVerifier, tokenData, athlete,
           row, s'.
    repeat split; try assumption; reflexivity.
  - destruct (OAuthCallback.upsert w userId role tokenData athlete)
      as [out|e]; [|now left].
    destruct Hup as [H | (row & s' & Hrow & Hs & ->)]; [now left|].
    right.
    exists statePayload, userId, role, codeVerifier, tokenData, athlete,
           row, s'.
    repeat split; try assumption; reflexivity.
Qed.

Lemma string_app_inv_head (a b c : string) : a ++ b = a ++ c -> b = c.
Proof.
  induction a as [|x a IH]; cbn [append]; [auto|].
  intros H. injection H as H. auto.
Qed.

Lemma redirect_inj (w : OAuthCallback.World) (q q' : string) :
  OAuthCallback.redirect w q = OAuthCallback.redirect w q' -> q = q'.
Proof.
  unfold OAuthCallback.redirect. intros H. injection H as H.
  now apply string_app_inv_head in H.
Qed.

Lemma upsert_connection_stored (row : Supabase.Connection)
    (s s' : Supabase.Store) :
  Supabase.upsert_connection row s = Some s' ->
  (exists r, In (overwrite row r) (Supabase.connections s'))
  /\ forall c, In c (Supabase.connections s) -> same_slot row c = false ->
       In c (Supabase.connections s').
Proof.
  intros Hup.
  destruct (upsert_connection_cases row s s' Hup)
    as (_ & _ & _ & [[Hex ->] | [_ [u ->]]]).
  - split.
    + apply existsb_exists in Hex as (r & Hin & Hr). exists r.
      apply in_map_iff. exists r. now rewrite Hr.
    + intros c Hin Hc. apply in_map_iff. exists c. now rewrite Hc.
  - split.
    + eexists. apply in_app_iff. right. left. reflexivity.
    + intros c Hin _. apply in_app_iff. now left.
Qed.

Lemma link_succeeded (w : OAuthCallback.World) (req : Http.Request)
    (userId role : string) (tokenData : Strava.TokenData)
    (athlete : Strava.Athlete) :
  reaches_lookup w req userId role tokenData athlete ->
  fst (OAuthCallback.serve w req)
  = OAuthCallback.redirect w ("?oauth_success=true&role=" ++ role) ->
  exists row s',
    OAuthCallback.connection_row (Some (JSON.JString userId))
      (Some (JSON.JString role)) tokenData athlete = Some row
    /\ Supabase.upsert_connection row (OAuthCallback.store w) = Some s'
    /\ snd (OAuthCallback.serve w req) = OAuthCallback.with_store w s'.
Proof.
  intros Hreach. rewrite (callback_reaches_lookup _ _ _ _ _ _ Hreach).
  assert (Hup :
    fst match OAuthCallback.upsert w (Some (JSON.JString userId))
                (Some (JSON.JString role)) tokenData athlete with
        | Ok out => out
        | Throw _ => (OAuthCallback.redirect w "?error=server_error", w)
        end
    = OAuthCallback.redirect w ("?oauth_success=true&role=" ++ role) ->
    exists row s',
      OAuthCallback.connection_row (Some (JSON.JString userId))
        (Some (JSON.JString role)) tokenData athlete = Some row
      /\ Supabase.upsert_connection row (OAuthCallback.store w) = Some s'
      /\ snd match OAuthCallback.upsert w (Some (JSON.JString userId))
                     (Some (JSON.JString role)) tokenData athlete with
             | Ok out => out
             | Throw _ => (OAuthCallback.redirect w "?error=server_error", w)
             end
         = OAuthCallback.with_store w s').
  { unfold OAuthCallback.upsert.
    destruct (OAuthCallback.faults w Supabase.UpsertConnection).
    { cbn [fst]. intros H. apply redirect_inj in H. discriminate H. }
    destruct (OAuthCallback.connection_row _ _ tokenData athlete)
      as [row|] eqn:Hrow.
    2:{ cbn [fst]. intros H. apply redirect_inj in H. discriminate H. }
    destruct (Supabase.upsert_connection row (OAuthCallback.store w))
      as [s'|] eqn:Hs.
    2:{ cbn [fst]. intros H. apply redirect_inj in H. discriminate H. }
    intros _. exists row, s'. repeat split; assumption. }
  destruct (OAuthCallback.existing_connection w _ _) as [c|]; [|exact Hup].
  destruct (JSON.strict_ne_string (Supabase.role c) _); [|exact Hup].
  cbn [fst]. intros H. apply redirect_inj in H. discriminate H.
Qed.

(** X9.  The callback changes nothing unless it succeeds: either it leaves
    the world as it found it, or the state validated under STATE_SECRET, the
    token exchange was answered with an athlete, the store accepted the
    upsert of the connection row, and the reply is the [oauth_success]
    redirect. *)
Theorem callback_writes_only_on_success (w : OAuthCallback.World)
    (req : Http.Request) :
  snd (OAuthCallback.serve w req) = w
  \/ exists statePayload userId role codeVerifier tokenData athlete row s',
       falsy (OAuthCallback.env w "STATE_SECRET") = false
       /\ OAuthCallback.validateState
            (Http.show (OAuthCallback.env w "STATE_SECRET"))
            (OAuthCallback.now_ms w) (Http.show (Http.param req "state"))
          = Ok statePayload
       /\ JSON.get statePayload "userId" = Ok userId
       /\ JSON.get statePayload "role" = Ok role
       /\ JSON.get statePayload "codeVerifier" = Ok codeVerifier
       /\ OAuthCallback.token_endpoint w
            {| Strava.client_id := OAuthCallback.env w "STRAVA_CLIENT_ID";
               Strava.client_secret :=
                 OAuthCallback.env w "STRAVA_CLIENT_SECRET";
               Strava.grant_type := "authorization_code";
               Strava.code := Http.param req "code";
               Strava.code_verifier := codeVerifier;
               Strava.refresh := None |}
          = Strava.Replied (Ok tokenData)
       /\ Strava.athlete tokenData = Some athlete
       /\ OAuthCallback.connection_row userId role tokenData athlete
          = Some row
       /\ Supabase.upsert_connection row (OAuthCallback.store w) = Some s'
       /\ OAuthCallback.serve w req
          = (OAuthCallback.redirect w
               ("?oauth_success=true&role=" ++ JSON.ToString role),
             OAuthCallback.with_store w s').
Proof. apply callback_outcome. Qed.

(** X10.  The callback keeps the two UNIQUE constraints of the connections
    table, (user_id, role) and (user_id, athlete_id), and never touches the
    mirrors table. *)
Theorem callback_keeps_constraints (w : OAuthCallback.World)
    (req : Http.Request) :
  consistent (OAuthCallback.store w) ->
  consistent (OAuthCallback.store (snd (OAuthCallback.serve w req)))
  /\ Supabase.mirrors (OAuthCallback.store (snd (OAuthCallback.serve w req)))
     = Supabase.mirrors (OAuthCallback.store w).
Proof.
  intros Hc.
  destruct (callback_outcome w req)
    as [-> | (p & u & r & cv & td & a & row & s' & _ & _ & _ & _ & _ & _ & _
              & _ & Hup & ->)]; [now split|].
  cbn [snd OAuthCallback.with_store OAuthCallback.store]. split.
  - exact (upsert_connection_consistent row _ s' Hc Hup).
  - now destruct (upsert_connection_cases row _ s' Hup) as (_ & _ & Hm & _).
Qed.

(** X11.  A link that succeeded is in the table: the row of the user and
    role holds the athlete and the tokens the provider returned, and the
    rows of other users and of the other role are still there. *)
Theorem linked_connection_is_stored (w : OAuthCallback.World)
    (req : Http.Request) (userId role : string) (tokenData : Strava.TokenData)
    (athlete : Strava.Athlete) :
  reaches_lookup w req userId role tokenData athlete ->
  fst (OAuthCallback.serve w req)
  = OAuthCallback.redirect w ("?oauth_success=true&role=" ++ role) ->
  let rows :=
    Supabase.connections (OAuthCallback.store (snd (OAuthCallback.serve w req)))
  in
  (exists c, In c rows
             /\ Supabase.user_id c = userId /\ Supabase.role c = role
             /\ Supabase.athlete_id c = Strava.id athlete
             /\ Supabase.access_token c = Strava.access_token tokenData
             /\ Supabase.refresh_token c = Strava.refresh_token tokenData
             /\ Supabase.expires_at c = Strava.expires_at tokenData)
  /\ forall c, In c (Supabase.connections (OAuthCallback.store w)) ->
       Supabase.user_id c <> userId \/ Supabase.role c <> role ->
       In c rows.
Proof.
  intros Hreach Hok. cbv zeta.
  destruct (link_succeeded w req userId role tokenData athlete Hreach Hok)
    as (row & s' & Hrow & Hup & ->).
  cbn [OAuthCallback.with_store OAuthCallback.store].
  cbn [OAuthCallback.connection_row] in Hrow. injection Hrow as <-.
  destruct (upsert_connection_stored _ _ _ Hup) as [[r Hin] Hkeep].
  split.
  - eexists. split; [exact Hin|]. repeat split.
  - intros c Hc Hother. apply Hkeep; [exact Hc|].
    unfold same_slot. cbn [Supabase.user_id Supabase.role].
    destruct Hother as [N|N]; apply String.eqb_neq in N; rewrite N;
      [reflexivity | apply andb_false_r].
Qed.

Lemma callback_keeps_constraints_witness :
  consistent
    (OAuthCallback.store
       (snd (OAuthCallback.serve Fixture.unlinked_world
               Sample.callback_request)))
  /\ Supabase.mirrors
       (OAuthCallback.store
          (snd (OAuthCallback.serve Fixture.unlinked_world
                  Sample.callback_request)))
     = Supabase.mirrors (OAuthCallback.store Fixture.unlinked_world).
Proof.
  apply (callback_keeps_constraints Fixture.unlinked_world
           Sample.callback_request).
  split; constructor.
Defined.

Lemma unlinked_reaches_lookup :
  reaches_lookup Fixture.unlinked_world Sample.callback_request
    Sample.user "HUMAN" Sample.tokens7 Sample.athlete7.
Proof.
  constructor; try reflexivity; try discriminate.
  exists Sample.payload. split; [vm_compute; reflexivity|].
  split; [reflexivity|]. split; [reflexivity|].
  exists (Some (JSON.JString "dmVyaWZpZXI")). split; reflexivity.
Defined.

Lemma linked_connection_is_stored_witness :
  exists c,
    In c (Supabase.connections
            (OAuthCallback.store
               (snd (OAuthCallback.serve Fixture.unlinked_world
                       Sample.callback_request))))
    /\ Supabase.user_id c = Sample.user /\ Supabase.role c = "HUMAN"
    /\ Supabase.athlete_id c = Strava.id Sample.athlete7
    /\ Supabase.access_token c = Strava.access_token Sample.tokens7
    /\ Supabase.refresh_token c = Strava.refresh_token Sample.tokens7
    /\ Supabase.expires_at c = Strava.expires_at Sample.tokens7.
Proof.
  refine (proj1 (linked_connection_is_stored Fixture.unlinked_world
                   Sample.callback_request Sample.user "HUMAN" Sample.tokens7
                   Sample.athlete7 unlinked_reaches_lookup _)).
  vm_compute. reflexivity.
Defined.

(** X12.  The same athlete cannot be linked under both roles.  After a
    link of an athlete under one role succeeded, a callback that arrives
    for the same user with a valid state for another role, and whose token
    exchange names the same athlete, is answered with the
    [athlete_role_conflict] redirect and writes nothing. *)
Theorem second_role_refused (w1 w2 : OAuthCallback.World)
    (req1 req2 : Http.Request) (userId role1 role2 : string)
    (tokenData1 tokenData2 : Strava.TokenData)
    (athlete1 athlete2 : Strava.Athlete) :
  consistent (OAuthCallback.store w1) ->
  reaches_lookup w1 req1 userId role1 tokenData1 athlete1 ->
  fst (OAuthCallback.serve w1 req1)
  = OAuthCallback.redirect w1 ("?oauth_success=true&role=" ++ role1) ->
  OAuthCallback.store w2
  = OAuthCallback.store (snd (OAuthCallback.serve w1 req1)) ->
  OAuthCallback.faults w2 Supabase.SelectConnectionByAthlete = false ->
  reaches_lookup w2 req2 userId role2 tokenData2 athlete2 ->
  Strava.id athlete2 = Strava.id athlete1 ->
  role2 <> role1 ->
  OAuthCallback.serve w2 req2
  = (OAuthCallback.redirect w2
       ("?error=athlete_role_conflict&athlete_id="
        ++ JSON.Number_toString (Strava.id athlete2)), w2).
Proof.
  intros Hc Hreach1 Hok Hstore Hfault Hreach2 Hsame Hrole.
  destruct (link_succeeded w1 req1 userId role1 tokenData1 athlete1 Hreach1 Hok)
    as (row & s' & Hrow & Hup & Hsnd).
  rewrite Hsnd in Hstore. cbn [OAuthCallback.with_store OAuthCallback.store]
    in Hstore.
  pose proof (upsert_connection_consistent row _ s' Hc Hup) as [_ Huniq].
  destruct (upsert_connection_stored _ _ _ Hup) as [[r Hin] _].
  cbn [OAuthCallback.connection_row] in Hrow. injection Hrow as <-.
  rewrite (callback_reaches_lookup _ _ _ _ _ _ Hreach2).
  unfold OAuthCallback.existing_connection. rewrite Hfault, Hstore.
  cbn [JSON.ToString JSON.ToString_json].
  pose proof (select_by_athlete _ _ Huniq Hin) as Hsel.
  cbn [overwrite Supabase.user_id Supabase.athlete_id] in Hsel.
  rewrite Hsame, Hsel. cbn [Supabase.maybeSingle].
  unfold JSON.strict_ne_string. cbn [overwrite Supabase.role].
  destruct (String.eqb_spec role1 role2) as [E|_]; [now destruct Hrole|].
  reflexivity.
Qed.

Lemma store_with_store (w : OAuthCallback.World) (s : Supabase.Store) :
  OAuthCallback.store (OAuthCallback.with_store w s) = s.
Proof. reflexivity. Qed.

Lemma pet_reaches_lookup :
  reaches_lookup
    (OAuthCallback.with_store Fixture.unlinked_world
       (OAuthCallback.store
          (snd (OAuthCallback.serve Fixture.unlinked_world
                  Sample.callback_request))))
    Fixture.pet_request Sample.user "PET" Sample.tokens7 Sample.athlete7.
Proof.
  constructor; try reflexivity; try discriminate.
  exists Fixture.pet_payload. split; [vm_compute; reflexivity|].
  split; [reflexivity|]. split; [reflexivity|].
  exists (Some (JSON.JString "dmVyaWZpZXI")). split; reflexivity.
Defined.

Lemma second_role_refused_witness :
  let w2 :=
    OAuthCallback.with_store Fixture.unlinked_world
      (OAuthCallback.store
         (snd (OAuthCallback.serve Fixture.unlinked_world
                 Sample.callback_request))) in
  OAuthCallback.serve w2 Fixture.pet_request
  = (OAuthCallback.redirect w2
       ("?error=athlete_role_conflict&athlete_id="
        ++ JSON.Number_toString (Strava.id Sample.athlete7)),
     w2).
Proof.
  cbv zeta.
  apply (second_role_refused Fixture.unlinked_world _ Sample.callback_request
           Fixture.pet_request Sample.user "HUMAN" "PET" Sample.tokens7
           Sample.tokens7 Sample.athlete7 Sample.athlete7).
  - split; constructor.
  - exact unlinked_reaches_lookup.
  - vm_compute. reflexivity.
  - apply store_with_store.
  - reflexivity.
  - exact pet_reaches_lookup.
  - reflexivity.
  - discriminate.
Defined.

(** ** The calls and the writes of the mirror function *)

Section MirrorCalls.

Variable number : Type.
Variable Number_toString : number -> string.
Variable Date_parse : string -> option Z.

Lemma same_setting_refl (w : MirrorActivity.World number) : same_setting w w.
Proof. repeat split. Qed.

Lemma update_tokens_identity (key access refresh : string) (expires : Z)
    (rows : list Supabase.Connection) :
  map identity (Supabase.update_tokens key access refresh expires rows)
  = map identity rows.
Proof.
  unfold Supabase.update_tokens. rewrite map_map. apply map_ext.
  intros c. now destruct (String.eqb (Supabase.id c) key).
Qed.

Lemma refresh_frame (c : Supabase.Connection)
    (w : MirrorActivity.World number) :
  let w' := snd (MirrorActivity.refreshTokenIfNeeded c w) in
  same_setting w w'
  /\ Supabase.mirrors (MirrorActivity.store w')
     = Supabase.mirrors (MirrorActivity.store w)
  /\ map identity (Supabase.connections (MirrorActivity.store w'))
     = map identity (Supabase.connections (MirrorActivity.store w))
  /\ exists new, MirrorActivity.calls w' = (MirrorActivity.calls w ++ new)%list
                 /\ uploads new = [].
Proof.
  cbv zeta. unfold MirrorActivity.refreshTokenIfNeeded.
  destruct (_ <? _).
  { repeat split. exists []. now rewrite List.app_nil_r. }
  destruct (MirrorActivity.token_endpoint w _) as [| code text | [d|e]];
    cbn [snd MirrorActivity.called MirrorActivity.store MirrorActivity.calls];
    try (repeat split; eexists; split; reflexivity).
  destruct (MirrorActivity.faults w Supabase.UpdateConnection);
    cbn [MirrorActivity.with_store MirrorActivity.called MirrorActivity.store
         MirrorActivity.calls Supabase.with_connections Supabase.mirrors
         Supabase.connections];
    repeat split; try (eexists; split; reflexivity).
  apply update_tokens_identity.
Qed.


Lemma upload_outcome (user : string) (activityId : Z) (petToken : string)
    (activity : MirrorActivity.StravaActivity number)
    (streams : MirrorActivity.StravaStream number)
    (w w' : MirrorActivity.World number) (r : result Http.Response) :
  MirrorActivity.upload number Number_toString Date_parse user activityId
    petToken activity streams w = (r, w') ->
  same_setting w w'
  /\ Supabase.connections (MirrorActivity.store w')
     = Supabase.connections (MirrorActivity.store w)
  /\ ((MirrorActivity.calls w' = MirrorActivity.calls w
       /\ Supabase.mirrors (MirrorActivity.store w')
          = Supabase.mirrors (MirrorActivity.store w))
      \/ exists gpx,
           MirrorActivity.generateGPX number Number_toString Date_parse
             (MirrorActivity.env w) activity streams = Ok gpx
           /\ MirrorActivity.calls w'
              = (MirrorActivity.calls w
                 ++ [MirrorActivity.UploadCall
                       (upload_request (MirrorActivity.env w) petToken gpx
                          (MirrorActivity.name activity))])%list
           /\ recorded_upload w w'
                (match r with
                 | Ok response => response
                 | Throw _ =>
                     Http.error_response (MirrorActivity.env w) 500
                       "Internal server error"
                 end) user activityId
                (upload_request (MirrorActivity.env w) petToken gpx
                   (MirrorActivity.name activity))).
Proof.
  unfold MirrorActivity.upload.
  destruct (MirrorActivity.generateGPX _ _ _ _ _ _) as [gpx|e] eqn:Hgpx.
  2:{ intros H. injection H as <- <-. repeat split. left. now split. }
  change (MirrorActivity.or_default (MirrorActivity.env w "TITLE_PREFIX")
            MirrorActivity.default_title_prefix)
    with (titlePrefix (MirrorActivity.env w)).
  fold (upload_request (MirrorActivity.env w) petToken gpx
          (MirrorActivity.name activity)).
  set (request := upload_request (MirrorActivity.env w) petToken gpx
                    (MirrorActivity.name activity)).
  destruct (MirrorActivity.upload_endpoint w request)
    as [| code text | [uploadId|e]] eqn:Hup;
    try (intros H; injection H as <- <-; repeat split; right; exists gpx;
         repeat split; now left).
  destruct (MirrorActivity.faults w Supabase.InsertMirror).
  { intros H. injection H as <- <-. repeat split. right. exists gpx.
    repeat split. now left. }
  cbn [MirrorActivity.called MirrorActivity.store].
  destruct (Supabase.insert_mirror user activityId (MirrorActivity.store w))
    as [[m s]|] eqn:Hins.
  2:{ intros H. injection H as <- <-. repeat split. right. exists gpx.
      repeat split. now left. }
  intros H. injection H as <- <-.
  assert (Hm : Supabase.mirrors s
               = (Supabase.mirrors (MirrorActivity.store w) ++ [m])%list
               /\ Supabase.connections s
                  = Supabase.connections (MirrorActivity.store w)
               /\ Supabase.mirror_user_id m = user
               /\ Supabase.source_activity_id m = activityId
               /\ Supabase.mirror_state m = Supabase.PENDING
               /\ Supabase.dog_activity_id m = None).
  { revert Hins. unfold Supabase.insert_mirror.
    destruct (existsb _ _); [discriminate|].
    unfold Supabase.fresh_uuid.
    destruct (Supabase.uuids (MirrorActivity.store w));
      intros H; injection H as <- <-; repeat split. }
  destruct Hm as (Hm & Hc & Hu & Ha & Hp & Hd).
  cbn [MirrorActivity.with_store MirrorActivity.called MirrorActivity.store
       MirrorActivity.calls].
  repeat split; [exact Hc|]. right. exists gpx. repeat split.
  right. exists uploadId, m. repeat split; assumption.
Qed.

Lemma same_setting_called (w : MirrorActivity.World number)
    (e : MirrorActivity.Event) :
  same_setting w (MirrorActivity.called w e).
Proof. repeat split. Qed.

Lemma same_setting_trans (a b c : MirrorActivity.World number) :
  same_setting a b -> same_setting b c -> same_setting a c.
Proof.
  unfold same_setting.
  intros (A1 & A2 & A3 & A4 & A5 & A6 & A7 & A8)
         (B1 & B2 & B3 & B4 & B5 & B6 & B7 & B8).
  repeat split; congruence.
Qed.

Lemma uploads_app (a b : list MirrorActivity.Event) :
  uploads (a ++ b) = (uploads a ++ uploads b)%list.
Proof. apply flat_map_app. Qed.

(** What [fetch_and_upload] leaves behind: no upload and the tables as they
    were, or one upload, of an activity of the human account. *)
Lemma fetch_and_upload_outcome (user : string) (activityId : Z)
    (humanConnection : Supabase.Connection) (humanToken petToken : string)
    (w w' : MirrorActivity.World number) (r : result Http.Response) :
  MirrorActivity.fetch_and_upload number Number_toString Date_parse user
    activityId humanConnection humanToken petToken w = (r, w') ->
  same_setting w w'
  /\ Supabase.connections (MirrorActivity.store w')
     = Supabase.connections (MirrorActivity.store w)
  /\ exists new,
       MirrorActivity.calls w' = (MirrorActivity.calls w ++ new)%list
       /\ ((uploads new = []
            /\ Supabase.mirrors (MirrorActivity.store w')
               = Supabase.mirrors (MirrorActivity.store w))
           \/ exists activity streams gpx,
                MirrorActivity.activity_endpoint w activityId humanToken
                = Strava.Replied (Ok activity)
                /\ MirrorActivity.athlete_id activity
                   = Supabase.athlete_id humanConnection
                /\ MirrorActivity.streams_endpoint w activityId humanToken
                   = Strava.Replied (Ok streams)
                /\ MirrorActivity.generateGPX number Number_toString
                     Date_parse (MirrorActivity.env w) activity streams
                   = Ok gpx
                /\ uploads new
                   = [upload_request (MirrorActivity.env w) petToken gpx
                        (MirrorActivity.name activity)]
                /\ recorded_upload w w' (answer w r) user activityId
                     (upload_request (MirrorActivity.env w) petToken gpx
                        (MirrorActivity.name activity))).
Proof.
  unfold MirrorActivity.fetch_and_upload.
  set (w1 := MirrorActivity.called w
               (MirrorActivity.ActivityCall activityId humanToken)).
  assert (Hquiet : forall r0 new,
            uploads new = [] ->
            (r0, {| MirrorActivity.env := MirrorActivity.env w;
                    MirrorActivity.now_ms := MirrorActivity.now_ms w;
                    MirrorActivity.getUser := MirrorActivity.getUser w;
                    MirrorActivity.token_endpoint :=
                      MirrorActivity.token_endpoint w;
                    MirrorActivity.activity_endpoint :=
                      MirrorActivity.activity_endpoint w;
                    MirrorActivity.streams_endpoint :=
                      MirrorActivity.streams_endpoint w;
                    MirrorActivity.upload_endpoint :=
                      MirrorActivity.upload_endpoint w;
                    MirrorActivity.faults := MirrorActivity.faults w;
                    MirrorActivity.store := MirrorActivity.store w;
                    MirrorActivity.calls :=
                      (MirrorActivity.calls w ++ new)%list |}) = (r, w') ->
            same_setting w w'
            /\ Supabase.connections (MirrorActivity.store w')
               = Supabase.connections (MirrorActivity.store w)
            /\ exists new,
                 MirrorActivity.calls w' = (MirrorActivity.calls w ++ new)%list
                 /\ ((uploads new = []
                      /\ Supabase.mirrors (MirrorActivity.store w')
                         = Supabase.mirrors (MirrorActivity.store w))
                     \/ exists activity streams gpx,
                          MirrorActivity.activity_endpoint w activityId
                            humanToken = Strava.Replied (Ok activity)
                          /\ MirrorActivity.athlete_id activity
                             = Supabase.athlete_id humanConnection
                          /\ MirrorActivity.streams_endpoint w activityId
                               humanToken = Strava.Replied (Ok streams)
                          /\ MirrorActivity.generateGPX number Number_toString
                               Date_parse (MirrorActivity.env w) activity
                               streams = Ok gpx
                          /\ uploads new
                             = [upload_request (MirrorActivity.env w) petToken
                                  gpx (MirrorActivity.name activity)]
                          /\ recorded_upload w w' (answer w r) user activityId
                               (upload_request (MirrorActivity.env w) petToken
                                  gpx (MirrorActivity.name activity)))).
  { intros r0 new Hnew H. injection H as <- <-. repeat split.
    exists new. split; [reflexivity|]. left. now split. }
  destruct (MirrorActivity.activity_endpoint w activityId humanToken)
    as [| code text | [activity|e]] eqn:Hact;
    try (apply (Hquiet _ [MirrorActivity.ActivityCall activityId humanToken]);
         reflexivity).
  { destruct (code =? 404);
      apply (Hquiet _ [MirrorActivity.ActivityCall activityId humanToken]);
      reflexivity. }
  destruct (MirrorActivity.athlete_id activity
            =? Supabase.athlete_id humanConnection) eqn:Hown; cbn [negb].
  2:{ apply (Hquiet _ [MirrorActivity.ActivityCall activityId humanToken]);
      reflexivity. }
  apply Z.eqb_eq in Hown.
  set (w2 := MirrorActivity.called w1
               (MirrorActivity.StreamsCall activityId humanToken)).
  assert (Hquiet2 : forall r0,
            (r0, w2) = (r, w') ->
            same_setting w w'
            /\ Supabase.connections (MirrorActivity.store w')
               = Supabase.connections (MirrorActivity.store w)
            /\ exists new,
                 MirrorActivity.calls w' = (MirrorActivity.calls w ++ new)%list
                 /\ ((uploads new = []
                      /\ Supabase.mirrors (MirrorActivity.store w')
                         = Supabase.mirrors (MirrorActivity.store w))
                     \/ exists activity0 streams gpx,
                          Strava.Replied (Ok activity)
                          = Strava.Replied (Ok activity0)
                          /\ MirrorActivity.athlete_id activity0
                             = Supabase.athlete_id humanConnection
                          /\ MirrorActivity.streams_endpoint w activityId
                               humanToken = Strava.Replied (Ok streams)
                          /\ MirrorActivity.generateGPX number Number_toString
                               Date_parse (MirrorActivity.env w) activity0
                               streams = Ok gpx
                          /\ uploads new
                             = [upload_request (MirrorActivity.env w) petToken
                                  gpx (MirrorActivity.name activity0)]
                          /\ recorded_upload w w' (answer w r) user activityId
                               (upload_request (MirrorActivity.env w) petToken
                                  gpx (MirrorActivity.name activity0)))).
  { intros r0 H. injection H as <- <-. repeat split.
    exists [MirrorActivity.ActivityCall activityId humanToken;
            MirrorActivity.StreamsCall activityId humanToken].
    split; [|left; now split].
    unfold w2, w1. cbn [MirrorActivity.called MirrorActivity.calls].
    now rewrite <- app_assoc. }
  destruct (MirrorActivity.streams_endpoint w activityId humanToken)
    as [| code text | [streams|e]] eqn:Hstr;
    try (apply Hquiet2).
  destruct (MirrorActivity.latlng streams) as [points|] eqn:Hl;
    [|apply Hquiet2].
  destruct (MirrorActivity.time streams) as [offsets|] eqn:Ht;
    [|apply Hquiet2].
  intros Hup.
  destruct (upload_outcome _ _ _ _ _ _ _ _ Hup) as (Hset & Hconn & Hcases).
  split.
  { apply same_setting_trans with w2; [|exact Hset]. repeat split. }
  split; [exact Hconn|].
  destruct Hcases as [[Hcalls Hm] | (gpx & Hgpx & Hcalls & Hrec)].
  - exists [MirrorActivity.ActivityCall activityId humanToken;
            MirrorActivity.StreamsCall activityId humanToken].
    split; [|left; split; [reflexivity | exact Hm]].
    rewrite Hcalls. unfold w2, w1.
    cbn [MirrorActivity.called MirrorActivity.calls].
    now rewrite <- app_assoc.
  - exists [MirrorActivity.ActivityCall activityId humanToken;
            MirrorActivity.StreamsCall activityId humanToken;
            MirrorActivity.UploadCall
              (upload_request (MirrorActivity.env w) petToken gpx
                 (MirrorActivity.name activity))].
    split.
    + rewrite Hcalls. unfold w2, w1.
      cbn [MirrorActivity.called MirrorActivity.calls].
      now rewrite <- !app_assoc.
    + right. exists activity, streams, gpx. repeat split; assumption.
Qed.

Lemma find_role (user role : string) (rows : list Supabase.Connection)
    (c : Supabase.Connection) :
  find (fun c => String.eqb (Supabase.role c) role)
       (filter (fun c => String.eqb (Supabase.user_id c) user) rows) = Some c ->
  In c rows /\ Supabase.user_id c = user /\ Supabase.role c = role.
Proof.
  intros H. apply find_some in H as [Hin Hr].
  apply filter_In in Hin as [Hin Hu].
  apply String.eqb_eq in Hr, Hu. now repeat split.
Qed.

(** Every outcome of the mirror function, by what it called and what it
    wrote. *)
Lemma mirror_outcome (w : MirrorActivity.World number) (req : Http.Request) :
  let response :=
    fst (MirrorActivity.serve number Number_toString Date_parse w req) in
  let w' := snd (MirrorActivity.serve number Number_toString Date_parse w req)
  in
  same_setting w w'
  /\ map identity (Supabase.connections (MirrorActivity.store w'))
     = map identity (Supabase.connections (MirrorActivity.store w))
  /\ exists new,
       MirrorActivity.calls w' = (MirrorActivity.calls w ++ new)%list
       /\ ((uploads new = []
            /\ Supabase.mirrors (MirrorActivity.store w')
               = Supabase.mirrors (MirrorActivity.store w))
           \/ exists user activityId request,
                authorised_upload Number_toString Date_parse w req user
                  activityId request
                /\ uploads new = [request]
                /\ recorded_upload w w' response user activityId request).
Proof.
  cbv zeta.
  assert (Hsame : forall response,
            same_setting w w
            /\ map identity (Supabase.connections (MirrorActivity.store w))
               = map identity (Supabase.connections (MirrorActivity.store w))
            /\ exists new,
                 MirrorActivity.calls w = (MirrorActivity.calls w ++ new)%list
                 /\ ((uploads new = []
                      /\ Supabase.mirrors (MirrorActivity.store w)
                         = Supabase.mirrors (MirrorActivity.store w))
                     \/ exists user activityId request,
                          authorised_upload Number_toString Date_parse w req
                            user activityId request
                          /\ uploads new = [request]
                          /\ recorded_upload w w response user activityId
                               request)).
  { intros response. repeat split. exists [].
    split; [now rewrite List.app_nil_r | left; now split]. }
  unfold MirrorActivity.serve.
  destruct (String.eqb (Http.method req) "OPTIONS"); [apply Hsame|].
  destruct (negb (String.eqb (Http.method req) "POST")); [apply Hsame|].
  unfold MirrorActivity.mirror.
  destruct (MirrorActivity.identify w req) as [[early|[user activityId]]|e]
    eqn:Hid; try apply Hsame.
  unfold MirrorActivity.mirror_activity.
  destruct (MirrorActivity.existing_mirror w user activityId)
    as [existing|] eqn:Hex; [apply Hsame|].
  destruct (MirrorActivity.faults w Supabase.SelectConnections);
    [apply Hsame|].
  destruct (find _ _) as [humanConnection|] eqn:Hh; [|apply Hsame].
  destruct (find (fun c => String.eqb (Supabase.role c) "PET") _)
    as [petConnection|] eqn:Hp; [|apply Hsame].
  apply find_role in Hh as (Hhin & Hhu & Hhr).
  apply find_role in Hp as (Hpin & Hpu & Hpr).
  pose proof (refresh_frame humanConnection w) as F1. cbv zeta in F1.
  destruct (MirrorActivity.refreshTokenIfNeeded humanConnection w)
    as [[humanToken|e] w1] eqn:R1; cbn [snd] in F1.
  2:{ cbn [fst snd]. destruct F1 as (S1 & M1 & I1 & new1 & C1 & U1).
      repeat split; try apply S1; try assumption.
      exists new1. split; [exact C1|]. left. now split. }
  pose proof (refresh_frame petConnection w1) as F2. cbv zeta in F2.
  destruct (MirrorActivity.refreshTokenIfNeeded petConnection w1)
    as [[petToken|e] w2] eqn:R2; cbn [snd] in F2.
  2:{ cbn [fst snd]. destruct F1 as (S1 & M1 & I1 & new1 & C1 & U1).
      destruct F2 as (S2 & M2 & I2 & new2 & C2 & U2).
      split; [now apply same_setting_trans with w1|].
      split; [congruence|].
      exists (new1 ++ new2)%list. split.
      - now rewrite C2, C1, app_assoc.
      - left. split; [|congruence]. now rewrite uploads_app, U1, U2. }
  destruct F1 as (S1 & M1 & I1 & new1 & C1 & U1).
  destruct F2 as (S2 & M2 & I2 & new2 & C2 & U2).
  pose proof (same_setting_trans _ _ _ S1 S2) as S12.
  destruct (MirrorActivity.fetch_and_upload _ _ _ _ _ _ _ _ w2)
    as [r w'] eqn:Hf.
  destruct (fetch_and_upload_outcome _ _ _ _ _ _ _ _ Hf)
    as (S3 & Hconn & new3 & C3 & Hcases).
  assert (Hsnd : snd (let (r0, w0) := (r, w') in
                      match r0 with
                      | Ok response => (response, w0)
                      | Throw _ =>
                          (Http.error_response (MirrorActivity.env w) 500
                             "Internal server error", w0)
                      end) = w') by (now destruct r).
  assert (Hfst : fst (let (r0, w0) := (r, w') in
                      match r0 with
                      | Ok response => (response, w0)
                      | Throw _ =>
                          (Http.error_response (MirrorActivity.env w) 500
                             "Internal server error", w0)
                      end) = answer w r) by (now destruct r).
  cbv beta iota in Hsnd, Hfst |- *. rewrite Hsnd, Hfst.
  split; [now apply same_setting_trans with w2|].
  split; [rewrite Hconn; congruence|].
  exists (new1 ++ new2 ++ new3)%list. split.
  { rewrite C3, C2, C1. now rewrite <- !app_assoc. }
  destruct S12 as (E1 & E2 & E3 & E4 & E5 & E6 & E7 & E8).
  destruct Hcases as [[U3 M3] | (activity & streams & gpx & Ha & Hown & Hs
                                 & Hgpx & U3 & Hrec)].
  - left. split; [|congruence]. now rewrite !uploads_app, U1, U2, U3.
  - right. rewrite E1 in *. rewrite E5 in Ha. rewrite E6 in Hs.
    exists user, activityId,
      (upload_request (MirrorActivity.env w) petToken gpx
         (MirrorActivity.name activity)).
    split; [|split].
    + exists humanConnection, petConnection, humanToken, petToken, w1, w2,
             activity, streams, gpx.
      repeat split; assumption.
    + now rewrite !uploads_app, U1, U2, U3.
    + unfold recorded_upload in *. rewrite <- M1, <- M2.
      destruct Hrec as [Hrec | (uploadId & m & Hu & Hst & Hm & Hrest)];
        [now left|].
      right. exists uploadId, m. rewrite E7 in Hu.
      unfold answer in *. rewrite E1 in Hst.
      repeat split; try assumption; apply Hrest.
Qed.

Lemma existing_mirror_none (w : MirrorActivity.World number) (user : string)
    (activityId : Z) :
  MirrorActivity.existing_mirror w user activityId = None ->
  lookup_empty w user activityId.
Proof.
  unfold MirrorActivity.existing_mirror, lookup_empty, records.
  destruct (MirrorActivity.faults w Supabase.SelectMirror); [now left|].
  intros H. right.
  destruct (filter _ _) as [|m [|m' rest]]; [now left | discriminate H |].
  right. cbn [List.length]. lia.
Qed.

(** X13.  The mirror function uploads at most once per request, and only
    what it is meant to.  An upload is made only for an authenticated user
    who has both connections, after the lookup of a mirror record of the
    activity came back empty - there is no record, or the store failed the
    lookup, whose error the function does not read - and after the activity
    was fetched with the human account's token and found to belong to the
    human account; what is uploaded, with the pet account's token, is the
    GPX of that activity under the prefixed name. *)
Theorem upload_is_authorised (w : MirrorActivity.World number)
    (req : Http.Request) :
  exists new,
    MirrorActivity.calls
      (snd (MirrorActivity.serve number Number_toString Date_parse w req))
    = (MirrorActivity.calls w ++ new)%list
    /\ (uploads new = []
        \/ exists user activityId request,
             uploads new = [request]
             /\ authorised_upload Number_toString Date_parse w req user
                  activityId request
             /\ lookup_empty w user activityId).
Proof.
  destruct (mirror_outcome w req) as (_ & _ & new & Hc & Hcases).
  exists new. split; [exact Hc|].
  destruct Hcases as [[Hu _] | (user & activityId & request & Ha & Hu & _)];
    [now left|].
  right. exists user, activityId, request.
  split; [exact Hu|]. split; [exact Ha|].
  destruct Ha as (h & p & ht & pt & w1 & w2 & a & st & gpx & _ & Hex & _).
  now apply existing_mirror_none.
Qed.

(** X14.  A mirror record is written only for an upload the provider
    accepted: the mirrors table is left as it was, or it gains exactly one
    record, PENDING and without a pet activity id, of the user and the
    activity of an authorised upload that the provider answered with
    success, and the reply is a 200. *)
Theorem mirror_record_needs_accepted_upload (w : MirrorActivity.World number)
    (req : Http.Request) :
  let response :=
    fst (MirrorActivity.serve number Number_toString Date_parse w req) in
  let w' := snd (MirrorActivity.serve number Number_toString Date_parse w req)
  in
  Supabase.mirrors (MirrorActivity.store w')
  = Supabase.mirrors (MirrorActivity.store w)
  \/ exists user activityId request uploadId m,
       authorised_upload Number_toString Date_parse w req user activityId
         request
       /\ MirrorActivity.upload_endpoint w request
          = Strava.Replied (Ok uploadId)
       /\ Http.status response = 200
       /\ Supabase.mirrors (MirrorActivity.store w')
          = (Supabase.mirrors (MirrorActivity.store w) ++ [m])%list
       /\ Supabase.mirror_user_id m = user
       /\ Supabase.source_activity_id m = activityId
       /\ Supabase.mirror_state m = Supabase.PENDING
       /\ Supabase.dog_activity_id m = None.
Proof.
  cbv zeta.
  destruct (mirror_outcome w req) as (_ & _ & new & _ & Hcases).
  destruct Hcases as [[_ Hm] | (user & activityId & request & Ha & _ & Hrec)];
    [now left|].
  destruct Hrec as [Hm | (uploadId & m & Hrest)]; [now left|].
  right. exists user, activityId, request, uploadId, m.
  split; [exact Ha | exact Hrest].
Qed.

(** X15.  The mirror function never adds, removes or re-assigns a
    connection: whatever the request, every row of the connections table
    keeps its id, user, role and athlete, and only tokens may have been
    refreshed; the environment and the provider are as they were. *)
Theorem mirror_keeps_connections (w : MirrorActivity.World number)
    (req : Http.Request) :
  let w' := snd (MirrorActivity.serve number Number_toString Date_parse w req)
  in
  map identity (Supabase.connections (MirrorActivity.store w'))
  = map identity (Supabase.connections (MirrorActivity.store w))
  /\ same_setting w w'.
Proof.
  cbv zeta. destruct (mirror_outcome w req) as (Hs & Hi & _). now split.
Qed.

End MirrorCalls.

(** ** More on the GPX track log *)

Section TrackLogEdges.

Variable number : Type.
Variable Number_toString : number -> string.
Variable Date_parse : string -> option Z.

Lemma trackPoint_throws (startTime : JSDate.Date) (offsets : list Z)
    (altitude : option (list number)) (i : nat) (point : number * number)
    (e : Exception) :
  MirrorActivity.trackPoint number Number_toString startTime offsets altitude
    i point = Throw e ->
  e = RangeError.
Proof.
  unfold MirrorActivity.trackPoint. destruct point as [lat lon].
  destruct (JSDate.toISOString _) as [timestamp|e'] eqn:H; [discriminate|].
  cbn [bind]. intros E. injection E as <-.
  unfold JSDate.toISOString in H.
  destruct (JSDate.of_time _); [discriminate|]. now injection H as <-.
Qed.

Lemma trackPoints_from_throws (startTime : JSDate.Date) (offsets : list Z)
    (altitude : option (list number)) (points : list (number * number)) :
  forall (i : nat) (acc : string) (e : Exception),
    MirrorActivity.trackPoints_from number Number_toString startTime offsets
      altitude i points acc = Throw e ->
    e = RangeError.
Proof.
  induction points as [|point points IH]; intros i acc e;
    cbn [MirrorActivity.trackPoints_from]; [discriminate|].
  destruct (MirrorActivity.trackPoint _ _ _ _ _ _ _) as [text|e'] eqn:H;
    cbn [bind].
  - apply IH.
  - intros E. injection E as <-. exact (trackPoint_throws _ _ _ _ _ _ H).
Qed.

Lemma trackPoints_from_short (startTime : JSDate.Date) (offsets : list Z)
    (altitude : option (list number)) (points : list (number * number)) :
  forall (i : nat) (acc : string),
    points <> [] ->
    (List.length offsets < i + List.length points)%nat ->
    MirrorActivity.trackPoints_from number Number_toString startTime offsets
      altitude i points acc = Throw RangeError.
Proof.
  induction points as [|[lat lon] points IH]; intros i acc Hne Hlen;
    cbn [MirrorActivity.trackPoints_from].
  - congruence.
  - destruct (MirrorActivity.trackPoint _ _ _ _ _ _ _) as [text|e] eqn:H;
      cbn [bind].
    + cbn [List.length] in Hlen.
      destruct (nth_error offsets i) as [t|] eqn:Ht.
      * assert (i < List.length offsets)%nat
          by (apply nth_error_Some; congruence).
        apply IH; [|lia].
        destruct points; [cbn [List.length] in Hlen; lia | congruence].
      * exfalso. unfold MirrorActivity.trackPoint in H. rewrite Ht in H.
        destruct startTime; discriminate H.
    + now rewrite (trackPoint_throws _ _ _ _ _ _ H).
Qed.

Lemma trackPoints_from_no_date (offsets : list Z)
    (altitude : option (list number)) (points : list (number * number))
    (i : nat) (acc : string) :
  points <> [] ->
  MirrorActivity.trackPoints_from number Number_toString None offsets
    altitude i points acc = Throw RangeError.
Proof.
  destruct points as [|[lat lon] points]; [congruence|]. intros _.
  cbn [MirrorActivity.trackPoints_from]. unfold MirrorActivity.trackPoint.
  reflexivity.
Qed.

(** X16.  A track that cannot be written is not uploaded.  When the start
    date of the activity does not parse, or the time stream has fewer
    samples than the position stream, [generateGPX] throws a RangeError,
    and the upload step ends there: no call to the provider, no mirror
    record. *)
Theorem unreadable_track_is_not_uploaded (env : Http.Env)
    (activity : MirrorActivity.StravaActivity number)
    (streams : MirrorActivity.StravaStream number)
    (points : list (number * number)) (offsets : list Z) :
  MirrorActivity.latlng streams = Some points ->
  MirrorActivity.time streams = Some offsets ->
  Date_parse (MirrorActivity.start_date activity) = None
  \/ (List.length offsets < List.length points)%nat ->
  MirrorActivity.generateGPX number Number_toString Date_parse env activity
    streams = Throw RangeError
  /\ forall (user : string) (activityId : Z) (petToken : string)
            (w : MirrorActivity.World number),
       MirrorActivity.env w = env ->
       MirrorActivity.upload number Number_toString Date_parse user activityId
         petToken activity streams w = (Throw RangeError, w).
Proof.
  intros Hp Ho Hbad.
  assert (Hgpx : MirrorActivity.generateGPX number Number_toString Date_parse
                   env activity streams = Throw RangeError).
  { unfold MirrorActivity.generateGPX. rewrite Hp, Ho.
    destruct Hbad as [Hd | Hlen].
    - rewrite Hd. cbn [JSDate.of_time].
      destruct points as [|point points].
      + reflexivity.
      + now rewrite trackPoints_from_no_date.
    - rewrite trackPoints_from_short; [reflexivity| |exact Hlen].
      destruct points; [cbn [List.length] in Hlen; lia | congruence]. }
  split; [exact Hgpx|].
  intros user activityId petToken w <-. unfold MirrorActivity.upload.
  now rewrite Hgpx.
Qed.

(** X17.  One track point per GPS sample.  With [n] positions, [n] time
    offsets, a start date that parses, every time within the range of a
    Date and an altitude stream that is absent or complete, [generateGPX]
    returns the fixed frame around exactly [n] track points; point [i] has
    the position of sample [i], the time stamp of the start plus the [i]-th
    offset in seconds, and an elevation element exactly when there is an
    altitude stream. *)
Theorem track_log_has_one_point_per_sample (env : Http.Env)
    (activity : MirrorActivity.StravaActivity number)
    (streams : MirrorActivity.StravaStream number)
    (points : list (number * number)) (offsets : list Z) (start : Z) :
  MirrorActivity.latlng streams = Some points ->
  MirrorActivity.time streams = Some offsets ->
  List.length offsets = List.length points ->
  Date_parse (MirrorActivity.start_date activity) = Some start ->
  in_range start ->
  (forall t, In t offsets -> in_range (start + t * 1000)) ->
  (forall data, MirrorActivity.altitude streams = Some data ->
                List.length data = List.length points) ->
  exists texts,
    MirrorActivity.generateGPX number Number_toString Date_parse env activity
      streams
    = Ok (track_log env (MirrorActivity.name activity) (JSDate.format start)
            texts)
    /\ List.length texts = List.length points
    /\ forall i lat lon t,
         nth_error points i = Some (lat, lon) ->
         nth_error offsets i = Some t ->
         nth_error texts i
         = Some (track_point (Number_toString lat) (Number_toString lon)
                   (JSDate.format (start + t * 1000))
                   (option_map Number_toString
                      (altitude_at (MirrorActivity.altitude streams) i))).
Proof.
  intros Hp Ho Hlen Hd Hs Hr Ha.
  exact (generateGPX_track_points number Number_toString Date_parse env
           activity streams points offsets start Hp Ho Hlen Hd Hs Hr Ha).
Qed.

End TrackLogEdges.

Lemma unreadable_track_is_not_uploaded_witness :
  MirrorActivity.generateGPX Sample.decimal Sample.decimal_text
    Sample.sample_date (fun _ => None) (Sample.run "Morning Run")
    Fixture.short_time = Throw RangeError.
Proof.
  refine (proj1 (unreadable_track_is_not_uploaded Sample.decimal
                   Sample.decimal_text Sample.sample_date (fun _ => None)
                   (Sample.run "Morning Run") Fixture.short_time
                   [("47.10", "8.50"); ("47.11", "8.51")] [0]
                   eq_refl eq_refl _)).
  right. cbn [List.length]. lia.
Defined.

Lemma track_log_has_one_point_per_sample_witness :
  exists texts,
    MirrorActivity.generateGPX Sample.decimal Sample.decimal_text
      Sample.sample_date (fun _ => None) (Sample.run "Morning Run")
      (Sample.samples None)
    = Ok (track_log (fun _ => None) "Morning Run"
            (JSDate.format 1714545000000) texts)
    /\ List.length texts = 3%nat.
Proof.
  destruct (track_log_has_one_point_per_sample Sample.decimal Sample.decimal_text
              Sample.sample_date (fun _ => None) (Sample.run "Morning Run")
              (Sample.samples None)
              [("47.10", "8.50"); ("47.11", "8.51"); ("47.12", "8.52")]
              [0; 5; 65] 1714545000000)
    as (texts & Hgpx & Hlen & _);
    try reflexivity.
  - unfold in_range. cbn. lia.
  - intros t [<- | [<- | [<- | []]]]; unfold in_range; cbn; lia.
  - intros data H. discriminate H.
  - exists texts. split; [exact Hgpx | exact Hlen].
Defined.

(** ** The activity URL *)

Lemma drop_prefix_self (p x : string) : JSON.drop_prefix p (p ++ x) = Some x.
Proof.
  induction p as [|c p IH]; [reflexivity|].
  cbn [append JSON.drop_prefix]. now rewrite Ascii.eqb_refl.
Qed.

Lemma drop_prefix_length (p : string) :
  forall a r : string,
    JSON.drop_prefix p a = Some r ->
    String.length a = (String.length p + String.length r)%nat.
Proof.
  induction p as [|c p IH]; intros a r; cbn [JSON.drop_prefix].
  - intros E. now injection E as ->.
  - destruct a as [|d a]; [discriminate|].
    destruct (Ascii.eqb c d); [|discriminate].
    intros E. cbn [String.length]. now rewrite (IH _ _ E).
Qed.

Lemma drop_prefix_app (p : string) :
  forall a b : string,
    (String.length p <= String.length a)%nat ->
    JSON.drop_prefix p (a ++ b)
    = option_map (fun r => r ++ b) (JSON.drop_prefix p a).
Proof.
  induction p as [|c p IH]; intros a b Hlen; [reflexivity|].
  destruct a as [|d a]; [cbn [String.length] in Hlen; lia|].
  cbn [append JSON.drop_prefix]. destruct (Ascii.eqb c d); [|reflexivity].
  apply IH. cbn [String.length] in Hlen. lia.
Qed.

Lemma take_digits_app (ds rest : string) :
  digit_text ds ->
  no_digit_ahead rest ->
  MirrorActivity.take_digits (ds ++ rest) = ds.
Proof.
  intros Hds Hrest. induction ds as [|c ds IH].
  - destruct rest as [|c rest]; [reflexivity|].
    cbn [append MirrorActivity.take_digits]. cbn in Hrest. now rewrite Hrest.
  - destruct Hds as [Hc Hds]. cbn [append MirrorActivity.take_digits].
    rewrite Hc. now rewrite IH.
Qed.

Lemma uint_digit_text (d : Decimal.uint) :
  digit_text (NilEmpty.string_of_uint d).
Proof.
  induction d; cbn [NilEmpty.string_of_uint digit_text];
    [exact I | split; [reflexivity | assumption] ..].
Qed.

Lemma digits_end (acc : Z) : JSON.digits "" acc = (acc, "").
Proof. reflexivity. Qed.

Lemma digits_acc_end (d : Decimal.uint) :
  forall acc : positive,
    JSON.digits (NilEmpty.string_of_uint d) (Zpos acc)
    = (Zpos (Pos.of_uint_acc d acc), "").
Proof.
  pose proof (digits_acc d "" eq_refl) as H.
  intros acc. specialize (H acc). now rewrite string_app_nil_r in H.
Qed.

Lemma id_text (n : Z) :
  0 <= n ->
  exists c r,
    JSON.Number_toString n = String c r
    /\ JSON.is_digit c = true
    /\ digit_text (JSON.Number_toString n)
    /\ MirrorActivity.parseInt (JSON.Number_toString n) = n.
Proof.
  intros Hn. destruct n as [|p|p]; [|clear Hn|lia].
  - exists "0"%char, ""%string. repeat split.
  - rewrite Number_toString_pos.
    destruct (uint_text_head (Pos.to_uint p) (Unsigned.to_uint_nonnil p))
      as (c & r & E & Hc).
    exists c, r. split; [exact E|]. split; [exact Hc|].
    split; [apply uint_digit_text|].
    unfold MirrorActivity.parseInt.
    pose proof (digits_uint (Pos.to_uint p) "" eq_refl) as H.
    rewrite string_app_nil_r in H. rewrite H. cbn [fst].
    pose proof (Unsigned.of_to p) as Hp. unfold Pos.of_uint in *.
    rewrite Hp. reflexivity.
Qed.

Lemma match_activity_cons (a : ascii) (u : string) :
  MirrorActivity.match_activity (String a u)
  = match JSON.drop_prefix "/activities/" (String a u) with
    | Some (String d _ as rest) =>
        if JSON.is_digit d
        then Some (MirrorActivity.take_digits rest)
        else MirrorActivity.match_activity u
    | _ => MirrorActivity.match_activity u
    end.
Proof. reflexivity. Qed.

Lemma match_activity_here (tail : string) (c : ascii) (r : string) :
  tail = String c r ->
  JSON.is_digit c = true ->
  MirrorActivity.match_activity ("/activities/" ++ tail)
  = Some (MirrorActivity.take_digits tail).
Proof.
  intros -> Hc.
  change ("/activities/" ++ String c r)
    with (String "/" ("activities/" ++ String c r)).
  cbn [MirrorActivity.match_activity].
  change (String "/" ("activities/" ++ String c r))
    with ("/activities/" ++ String c r).
  rewrite drop_prefix_self. now rewrite Hc.
Qed.

Lemma match_activity_leftmost (tail : string) (c : ascii) (r : string) :
  tail = String c r ->
  JSON.is_digit c = true ->
  forall host : string,
    MirrorActivity.match_activity (host ++ "/activities/") = None ->
    MirrorActivity.match_activity (host ++ "/activities/" ++ tail)
    = Some (MirrorActivity.take_digits tail).
Proof.
  intros Et Hc. induction host as [|a host IH]; intros Hnone.
  - exact (match_activity_here tail c r Et Hc).
  - change (String a host ++ "/activities/")
      with (String a (host ++ "/activities/")) in Hnone.
    rewrite match_activity_cons in Hnone.
    replace (String a host ++ "/activities/" ++ tail)
      with (String a ((host ++ "/activities/") ++ tail))
      by (now rewrite string_app_assoc).
    rewrite match_activity_cons.
    change (String a ((host ++ "/activities/") ++ tail))
      with (String a (host ++ "/activities/") ++ tail).
    rewrite drop_prefix_app
      by (cbn [String.length]; rewrite string_length_app;
          cbn [String.length]; lia).
    destruct (JSON.drop_prefix "/activities/"
                (String a (host ++ "/activities/")))
      as [[|d rest]|] eqn:E; cbn [option_map].
    + apply drop_prefix_length in E. cbn [String.length] in E.
      rewrite string_length_app in E. cbn [String.length] in E. lia.
    + change (String d rest ++ tail) with (String d (rest ++ tail)).
      cbv iota. destruct (JSON.is_digit d); [discriminate|].
      rewrite string_app_assoc. now apply IH.
    + rewrite string_app_assoc. now apply IH.
Qed.

(** X18.  The activity id is read off the URL.  In a URL whose first
    "/activities/" followed by a digit is the one before the decimal text of
    [n], and where no digit follows that text, the pattern captures exactly
    that text and [parseInt] gives [n] back, whatever comes before and
    after. *)
Theorem activity_id_of_url (host rest : string) (n : Z) :
  0 <= n < 2 ^ 53 ->
  MirrorActivity.match_activity (host ++ "/activities/") = None ->
  no_digit_ahead rest ->
  MirrorActivity.match_activity
    (host ++ "/activities/" ++ JSON.Number_toString n ++ rest)
  = Some (JSON.Number_toString n)
  /\ MirrorActivity.parseInt (JSON.Number_toString n) = n.
Proof.
  intros [Hn _] Hhost Hrest.
  destruct (id_text n Hn) as (c & r & E & Hc & Hds & Hp).
  split; [|exact Hp].
  rewrite (match_activity_leftmost (JSON.Number_toString n ++ rest) c (r ++ rest))
    by (try rewrite E; try reflexivity; assumption).
  now rewrite take_digits_app.
Qed.

Lemma activity_id_of_url_witness :
  MirrorActivity.match_activity
    ("https://www.strava.com" ++ "/activities/" ++ JSON.Number_toString 1234567890
       ++ "/overview?x=1")
  = Some (JSON.Number_toString 1234567890)
  /\ MirrorActivity.parseInt (JSON.Number_toString 1234567890) = 1234567890.
Proof.
  apply activity_id_of_url.
  - lia.
  - reflexivity.
  - reflexivity.
Defined.

(** X19.  What the pattern captures.  Whenever the pattern matches, the
    capture is a non-empty run of digits that stands in the URL right after
    "/activities/", and it is the whole run: no digit follows it. *)
Theorem match_activity_sound (url urlMatch : string) :
  MirrorActivity.match_activity url = Some urlMatch ->
  urlMatch <> ""%string
  /\ digit_text urlMatch
  /\ exists before after,
       url = before ++ "/activities/" ++ urlMatch ++ after
       /\ no_digit_ahead after.
Proof.
  induction url as [|a url IH]; [discriminate|].
  cbn [MirrorActivity.match_activity].
  destruct (JSON.drop_prefix "/activities/" (String a url))
    as [[|d rest]|] eqn:E.
  - intros H. destruct (IH H) as (Hne & Hds & before & after & -> & Hafter).
    repeat split; try assumption. now exists (String a before), after.
  - destruct (JSON.is_digit d) eqn:Hd.
    + intros H. injection H as <-.
      assert (Hsplit : forall s : string,
                 digit_text (MirrorActivity.take_digits s)
                 /\ exists after,
                      s = MirrorActivity.take_digits s ++ after
                      /\ no_digit_ahead after).
      { induction s as [|c s IHs]; cbn [MirrorActivity.take_digits].
        - split; [exact I|]. now exists ""%string.
        - destruct (JSON.is_digit c) eqn:Hc.
          + destruct IHs as (Hds & after & Es & Hafter).
            split; [now split|]. exists after. cbn [append].
            now rewrite <- Es.
          + split; [exact I|]. exists (String c s). split; [reflexivity|].
            exact Hc. }
      destruct (Hsplit (String d rest)) as (Hds & after & Es & Hafter).
      split; [cbn [MirrorActivity.take_digits]; rewrite Hd; discriminate|].
      split; [exact Hds|].
      exists ""%string, after. split; [|exact Hafter].
      change (if JSON.is_digit d
              then String d (MirrorActivity.take_digits rest) else ""%string)
        with (MirrorActivity.take_digits (String d rest)).
      rewrite <- Es. change ("" ++ ?x)%string with x.
      clear -E. revert E. generalize (String a url) as s. intros s E.
      assert (Hpre : forall p s r, JSON.drop_prefix p s = Some r -> s = p ++ r).
      { induction p as [|c p IHp]; intros s0 r0; cbn [JSON.drop_prefix].
        - intros H. now injection H as ->.
        - destruct s0 as [|c0 s0]; [discriminate|].
          destruct (Ascii.eqb c c0) eqn:Hc; [|discriminate].
          apply Ascii.eqb_eq in Hc as <-. intros H. cbn [append].
          now rewrite (IHp _ _ H). }
      exact (Hpre _ _ _ E).
    + intros H. destruct (IH H) as (Hne & Hds & before & after & -> & Hafter).
      repeat split; try assumption. now exists (String a before), after.
  - intros H. destruct (IH H) as (Hne & Hds & before & after & -> & Hafter).
    repeat split; try assumption. now exists (String a before), after.
Qed.

Lemma match_activity_sound_witness :
  "12"%string <> ""%string
  /\ digit_text "12"
  /\ exists before after,
       "x/activities/12a"%string = before ++ "/activities/" ++ "12" ++ after
       /\ no_digit_ahead after.
Proof.
  apply (match_activity_sound "x/activities/12a" "12"). reflexivity.
Defined.

(** ** The connections function *)

Lemma find_filter {A : Type} (f g : A -> bool) (l : list A) :
  find g (filter f l) = find (fun x => f x && g x) l.
Proof.
  induction l as [|x l IH]; [reflexivity|]. cbn [filter find].
  destruct (f x); cbn [andb find]; [now rewrite IH | exact IH].
Qed.

Lemma get_connections_listing (user : string) (w : Connections.World) :
  Connections.faults w Connections.Select = false ->
  Connections.get_connections user w
  = (Http.json_response (Connections.env w) 200
       (listing (entry user "HUMAN" (Supabase.connections (Connections.store w)))
                (entry user "PET" (Supabase.connections (Connections.store w)))),
     w).
Proof.
  intros H. unfold Connections.get_connections. rewrite H.
  unfold listing, entry. now rewrite !find_filter.
Qed.

Lemma public_selected (c c' : Supabase.Connection) :
  public c' = public c ->
  Connections.selected c' = Connections.selected c
  /\ Supabase.user_id c' = Supabase.user_id c
  /\ Supabase.role c' = Supabase.role c.
Proof.
  unfold public, identity, Connections.selected. intros H.
  injection H as -> -> -> -> -> -> -> ->. repeat split.
Qed.

Lemma entry_public (user role : string) (rows : list Supabase.Connection) :
  forall rows' : list Supabase.Connection,
    map public rows' = map public rows ->
    entry user role rows' = entry user role rows.
Proof.
  unfold entry.
  induction rows as [|c rows IH]; intros [|c' rows'] H; try discriminate H;
    [reflexivity|].
  cbn [map] in H.
  pose proof (f_equal (hd (public c)) H) as Hc.
  pose proof (f_equal (@tl _) H) as Hrows. cbn [hd tl] in Hc, Hrows.
  destruct (public_selected c c' Hc) as (Hs & Hu & Hr).
  cbn [find]. rewrite Hu, Hr.
  destruct (_ && _); [exact Hs | now apply IH].
Qed.

(** X20.  The listing does not depend on the tokens.  Two tables whose rows
    agree on everything but the access and refresh tokens get the same
    reply to every request: whatever the function answers, it carries
    nothing of a stored token. *)
Theorem reply_independent_of_tokens (w w' : Connections.World)
    (req : Http.Request) :
  Connections.env w' = Connections.env w ->
  (forall authHeader,
      Connections.getUser w' authHeader = Connections.getUser w authHeader) ->
  (forall call, Connections.faults w' call = Connections.faults w call) ->
  map public (Supabase.connections (Connections.store w'))
  = map public (Supabase.connections (Connections.store w)) ->
  fst (Connections.serve w' req) = fst (Connections.serve w req).
Proof.
  intros Henv Huser Hfaults Hrows. unfold Connections.serve.
  rewrite Henv, Huser.
  destruct (String.eqb (Http.method req) "OPTIONS"); [reflexivity|].
  destruct (falsy _); [reflexivity|].
  destruct (Connections.getUser w _) as [user|]; [|reflexivity].
  destruct (String.eqb (Http.method req) "GET").
  - destruct (Connections.faults w Connections.Select) eqn:F.
    + unfold Connections.get_connections. now rewrite Hfaults, F, Henv.
    + rewrite !get_connections_listing by (now rewrite ?Hfaults).
      cbn [fst]. rewrite Henv.
      now rewrite !(entry_public _ _ _ _ Hrows).
  - destruct (String.eqb (Http.method req) "DELETE"); [|reflexivity].
    unfold Connections.delete_connection. rewrite Hfaults, Henv.
    destruct (_ || _); [reflexivity|].
    now destruct (Connections.faults w Connections.Delete).
Qed.

Lemma entry_deleted (user role : string) (rows : list Supabase.Connection) :
  entry user role (Connections.delete_rows user role rows) = JSON.JNull.
Proof.
  unfold entry, Connections.delete_rows.
  induction rows as [|c rows IH]; [reflexivity|]. cbn [filter].
  destruct (_ && _) eqn:E; cbn [negb]; [exact IH|].
  cbn [find]. now rewrite E.
Qed.

Lemma entry_kept (user role user' role' : string)
    (rows : list Supabase.Connection) :
  user' <> user \/ role' <> role ->
  entry user' role' (Connections.delete_rows user role rows)
  = entry user' role' rows.
Proof.
  intros Hother. unfold entry, Connections.delete_rows.
  induction rows as [|c rows IH]; [reflexivity|]. cbn [filter find].
  destruct (String.eqb (Supabase.user_id c) user
            && String.eqb (Supabase.role c) role) eqn:E; cbn [negb].
  - apply andb_true_iff in E as [Eu Er].
    apply String.eqb_eq in Eu, Er.
    assert (F : String.eqb (Supabase.user_id c) user'
                && String.eqb (Supabase.role c) role' = false).
    { rewrite Eu, Er.
      destruct Hother as [N|N]; apply not_eq_sym in N;
        apply String.eqb_neq in N; rewrite N;
        [reflexivity | apply andb_false_r]. }
    rewrite F. exact IH.
  - cbn [find].
    destruct (String.eqb (Supabase.user_id c) user'
              && String.eqb (Supabase.role c) role');
      [reflexivity | exact IH].
Qed.

Lemma delete_rows_In (user role : string) (rows : list Supabase.Connection)
    (c : Supabase.Connection) :
  In c (Connections.delete_rows user role rows)
  <-> In c rows
      /\ ~ (Supabase.user_id c = user /\ Supabase.role c = role).
Proof.
  unfold Connections.delete_rows. rewrite filter_In.
  rewrite negb_true_iff, andb_false_iff, !String.eqb_neq.
  destruct (string_dec (Supabase.user_id c) user);
    destruct (string_dec (Supabase.role c) role); tauto.
Qed.

Lemma serve_get (w : Connections.World) (get : Http.Request) (user : string) :
  Http.method get = "GET" ->
  falsy (Http.header get "Authorization") = false ->
  Connections.getUser w (Http.show (Http.header get "Authorization"))
  = Some user ->
  Connections.faults w Connections.Select = false ->
  Connections.serve w get
  = (Http.json_response (Connections.env w) 200
       (listing (entry user "HUMAN" (Supabase.connections (Connections.store w)))
                (entry user "PET" (Supabase.connections (Connections.store w)))),
     w).
Proof.
  intros Hm Hauth Huser Hfault. unfold Connections.serve.
  rewrite Hm, Hauth, Huser.
  change (String.eqb "GET" "OPTIONS") with false.
  change (String.eqb "GET" "GET") with true. cbv iota.
  now apply get_connections_listing.
Qed.

Lemma serve_delete (w : Connections.World) (req : Http.Request)
    (user role : string) :
  Http.method req = "DELETE" ->
  falsy (Http.header req "Authorization") = false ->
  Connections.getUser w (Http.show (Http.header req "Authorization"))
  = Some user ->
  Http.param req "role" = Some role ->
  role = "HUMAN" \/ role = "PET" ->
  Connections.faults w Connections.Delete = false ->
  Connections.serve w req
  = (Http.json_response (Connections.env w) 200
       (JSON.JObject [("success", JSON.JBool true)]),
     Connections.with_store w
       (Supabase.with_connections
          (Connections.delete_rows user role
             (Supabase.connections (Connections.store w)))
          (Connections.store w))).
Proof.
  intros Hm Hauth Huser Hparam Hrole Hfault.
  unfold Connections.serve. rewrite Hm, Hauth, Huser.
  change (String.eqb "DELETE" "OPTIONS") with false.
  change (String.eqb "DELETE" "GET") with false.
  change (String.eqb "DELETE" "DELETE") with true. cbv iota.
  unfold Connections.delete_connection. rewrite Hparam, Hfault.
  destruct Hrole as [-> | ->]; reflexivity.
Qed.

(** X21.  Unlinking removes one connection and nothing else.  A DELETE by
    an authenticated user for the role HUMAN or PET, when the store does
    not fail, is answered 200; the table then holds exactly the rows it
    held, except those of that user under that role, and the mirrors are
    as they were; the listing a user then gets has null for that user and
    role, and for every other user or role the entry the table had
    before. *)
Theorem unlink_removes_one_connection (w : Connections.World)
    (req : Http.Request) (user role : string) :
  Http.method req = "DELETE" ->
  falsy (Http.header req "Authorization") = false ->
  Connections.getUser w (Http.show (Http.header req "Authorization"))
  = Some user ->
  Http.param req "role" = Some role ->
  role = "HUMAN" \/ role = "PET" ->
  Connections.faults w Connections.Delete = false ->
  let w' := snd (Connections.serve w req) in
  let rows := Supabase.connections (Connections.store w) in
  fst (Connections.serve w req)
  = Http.json_response (Connections.env w) 200
      (JSON.JObject [("success", JSON.JBool true)])
  /\ (forall c,
         In c (Supabase.connections (Connections.store w'))
         <-> In c rows
             /\ ~ (Supabase.user_id c = user /\ Supabase.role c = role))
  /\ Supabase.mirrors (Connections.store w')
     = Supabase.mirrors (Connections.store w)
  /\ forall (get : Http.Request) (reader : string),
       Http.method get = "GET" ->
       falsy (Http.header get "Authorization") = false ->
       Connections.getUser w (Http.show (Http.header get "Authorization"))
       = Some reader ->
       Connections.faults w Connections.Select = false ->
       let after := fun r =>
         if String.eqb reader user && String.eqb r role
         then JSON.JNull else entry reader r rows in
       Connections.serve w' get
       = (Http.json_response (Connections.env w) 200
            (listing (after "HUMAN") (after "PET")), w').
Proof.
  intros Hm Hauth Huser Hparam Hrole Hfault. cbv zeta.
  rewrite (serve_delete w req user role Hm Hauth Huser Hparam Hrole Hfault).
  cbn [fst snd].
  split; [reflexivity|]. split; [intros c; apply delete_rows_In|].
  split; [reflexivity|].
  intros get reader Hget Hauth' Hreader Hsel.
  rewrite (serve_get
             (Connections.with_store w
                (Supabase.with_connections
                   (Connections.delete_rows user role
                      (Supabase.connections (Connections.store w)))
                   (Connections.store w)))
             get reader Hget Hauth' Hreader Hsel).
  cbn [Connections.with_store Connections.store Connections.env
       Supabase.with_connections Supabase.connections].
  assert (Hentry : forall r,
    entry reader r
      (Connections.delete_rows user role
         (Supabase.connections (Connections.store w)))
    = if String.eqb reader user && String.eqb r role
      then JSON.JNull
      else entry reader r (Supabase.connections (Connections.store w))).
  { intros r. destruct (String.eqb reader user) eqn:Eu;
      [destruct (String.eqb r role) eqn:Er|]; cbn [andb].
    - apply String.eqb_eq in Eu, Er. subst. apply entry_deleted.
    - apply entry_kept. right. now apply String.eqb_neq.
    - apply entry_kept. left. now apply String.eqb_neq. }
  now rewrite !Hentry.
Qed.

Lemma unlink_removes_one_connection_witness :
  fst (Connections.serve (Fixture.listing_world Sample.linked)
         (Fixture.unlink_request "PET"))
  = Http.json_response Sample.settings 200
      (JSON.JObject [("success", JSON.JBool true)]).
Proof.
  refine (proj1 (unlink_removes_one_connection
                   (Fixture.listing_world Sample.linked)
                   (Fixture.unlink_request "PET") Sample.user "PET"
                   eq_refl eq_refl eq_refl eq_refl _ eq_refl)).
  now right.
Defined.

Lemma reply_independent_of_tokens_witness :
  fst (Connections.serve (Fixture.listing_world Fixture.rotated)
         Fixture.listing_request)
  = fst (Connections.serve (Fixture.listing_world Sample.linked)
           Fixture.listing_request).
Proof.
  apply reply_independent_of_tokens; reflexivity.
Defined.

Lemma entry_unique (rows : list Supabase.Connection)
    (c : Supabase.Connection) :
  unique_roles rows ->
  In c rows ->
  entry (Supabase.user_id c) (Supabase.role c) rows = Connections.selected c.
Proof.
  unfold unique_roles, entry.
  induction rows as [|r rows IH]; intros Hu Hin; [destruct Hin|].
  cbn [map] in Hu. apply NoDup_cons_iff in Hu as [Hfresh Hu]. cbn [find].
  destruct Hin as [-> | Hin].
  - now rewrite !String.eqb_refl.
  - destruct (String.eqb (Supabase.user_id r) (Supabase.user_id c)
              && String.eqb (Supabase.role r) (Supabase.role c)) eqn:E.
    + exfalso. apply Hfresh. apply andb_true_iff in E as [Eu Er].
      apply String.eqb_eq in Eu, Er. rewrite Eu, Er.
      apply in_map_iff. now exists c.
    + now apply IH.
Qed.

Lemma listing_world_store (s : Supabase.Store) :
  Connections.store (Fixture.listing_world s) = s.
Proof. reflexivity. Qed.

(** X22.  A linked account shows up in the listing.  After a callback that
    ended with the success redirect on a table that met its constraints,
    the listing of that user has, under the role of the link, the row of
    the athlete the provider named, with the expiry of the new token. *)
Theorem linked_connection_is_listed (w : OAuthCallback.World)
    (req : Http.Request) (userId role : string) (tokenData : Strava.TokenData)
    (athlete : Strava.Athlete) (cw : Connections.World)
    (get : Http.Request) :
  consistent (OAuthCallback.store w) ->
  reaches_lookup w req userId role tokenData athlete ->
  fst (OAuthCallback.serve w req)
  = OAuthCallback.redirect w ("?oauth_success=true&role=" ++ role) ->
  Connections.store cw
  = OAuthCallback.store (snd (OAuthCallback.serve w req)) ->
  Http.method get = "GET" ->
  falsy (Http.header get "Authorization") = false ->
  Connections.getUser cw (Http.show (Http.header get "Authorization"))
  = Some userId ->
  Connections.faults cw Connections.Select = false ->
  exists c human pet,
    Connections.serve cw get
    = (Http.json_response (Connections.env cw) 200 (listing human pet), cw)
    /\ Supabase.user_id c = userId
    /\ Supabase.role c = role
    /\ Supabase.athlete_id c = Strava.id athlete
    /\ Supabase.expires_at c = Strava.expires_at tokenData
    /\ (role = "HUMAN" -> human = Connections.selected c)
    /\ (role = "PET" -> pet = Connections.selected c).
Proof.
  intros Hc Hreach Hok Hstore Hget Hauth Huser Hsel.
  rewrite (serve_get cw get userId Hget Hauth Huser Hsel). rewrite Hstore.
  destruct (link_succeeded w req userId role tokenData athlete Hreach Hok)
    as (row & s' & Hrow & Hup & ->).
  cbn [OAuthCallback.with_store OAuthCallback.store].
  pose proof (upsert_connection_consistent row _ s' Hc Hup) as [Hroles _].
  destruct (upsert_connection_stored _ _ _ Hup) as [[r Hin] _].
  pose proof (entry_unique _ _ Hroles Hin) as Hentry.
  cbn [OAuthCallback.connection_row] in Hrow. injection Hrow as Erow.
  assert (Hu : Supabase.user_id (overwrite row r) = userId)
    by (now rewrite <- Erow).
  assert (Hr : Supabase.role (overwrite row r) = role)
    by (now rewrite <- Erow).
  rewrite Hu, Hr in Hentry.
  exists (overwrite row r),
         (entry userId "HUMAN" (Supabase.connections s')),
         (entry userId "PET" (Supabase.connections s')).
  split; [reflexivity|]. split; [exact Hu|]. split; [exact Hr|].
  split; [now rewrite <- Erow|]. split; [now rewrite <- Erow|].
  split; intros E; rewrite E in Hentry; exact Hentry.
Qed.

Lemma linked_connection_is_listed_witness :
  exists c human pet,
    Connections.serve
      (Fixture.listing_world
         (OAuthCallback.store
            (snd (OAuthCallback.serve Fixture.unlinked_world
                    Sample.callback_request))))
      Fixture.listing_request
    = (Http.json_response
         (Connections.env
            (Fixture.listing_world
               (OAuthCallback.store
                  (snd (OAuthCallback.serve Fixture.unlinked_world
                          Sample.callback_request)))))
         200 (listing human pet),
       Fixture.listing_world
         (OAuthCallback.store
            (snd (OAuthCallback.serve Fixture.unlinked_world
                    Sample.callback_request))))
    /\ Supabase.user_id c = Sample.user
    /\ Supabase.role c = "HUMAN"
    /\ Supabase.athlete_id c = Strava.id Sample.athlete7
    /\ Supabase.expires_at c = Strava.expires_at Sample.tokens7
    /\ ("HUMAN" = "HUMAN" -> human = Connections.selected c)
    /\ ("HUMAN" = "PET" -> pet = Connections.selected c).
Proof.
  apply (linked_connection_is_listed Fixture.unlinked_world
           Sample.callback_request Sample.user "HUMAN" Sample.tokens7
           Sample.athlete7).
  - split; constructor.
  - exact unlinked_reaches_lookup.
  - vm_compute. reflexivity.
  - apply listing_world_store.
  - reflexivity.
  - reflexivity.
  - reflexivity.
  - reflexivity.
Defined.

(** ** A track log that is well-formed *)

(** A text of printable ASCII characters other than [<], [&], [>] and the
    double quote. *)
Fixpoint printable (s : string) : bool :=
  match s with
  | EmptyString => true
  | String c r =>
      let n := JS.char_code c in
      (32 <=? n) && (n <? 127) && negb (n =? 60) && negb (n =? 38)
      && negb (n =? 62) && negb (n =? 34) && printable r
  end.

Lemma printable_text (ok : Z -> bool) (s : string) :
  (forall n, 32 <= n < 127 -> n <> 60 -> n <> 38 -> n <> 62 -> n <> 34 ->
             ok n = true) ->
  printable s = true -> text_of ok None s = true.
Proof.
  intros Hok. induction s as [|c s IH]; [reflexivity|].
  cbn [printable text_of]. intros H.
  repeat (apply andb_true_iff in H as [H ?]).
  apply Z.leb_le in H.
  repeat match goal with
         | E : (_ <? _) = true |- _ => apply Z.ltb_lt in E
         | E : negb (_ =? _) = true |- _ =>
             apply negb_true_iff, Z.eqb_neq in E
         end.
  unfold XML.feed.
  destruct (Z.ltb_spec (JS.char_code c) 128) as [_|G]; [|lia].
  rewrite Hok by (try split; assumption). now apply IH.
Qed.

Lemma plain_printable (n : Z) :
  32 <= n < 127 -> n <> 60 -> n <> 38 -> n <> 62 -> n <> 34 -> plain n = true.
Proof.
  intros H A B C D. unfold plain, XML.legal, XML.between, XML.is_char.
  change (JS.char_code "<") with 60. change (JS.char_code "&") with 38.
  change (JS.char_code ">") with 62.
  apply Z.eqb_neq in A, B, C. rewrite A, B, C.
  replace (32 <=? n) with true by (symmetry; apply Z.leb_le; lia).
  replace (n <=? 55295) with true by (symmetry; apply Z.leb_le; lia).
  now rewrite !orb_true_r.
Qed.

Lemma printable_app (a b : string) :
  printable (a ++ b) = printable a && printable b.
Proof.
  induction a as [|c a IH]; [reflexivity|].
  cbn [append printable]. rewrite IH. now rewrite !andb_assoc.
Qed.

Lemma printable_digit (k : Z) (r : string) :
  0 <= k < 10 ->
  printable (String (JS.char_of_code (48 + k)) r) = printable r.
Proof.
  intros H.
  assert (E : k = 0 \/ k = 1 \/ k = 2 \/ k = 3 \/ k = 4 \/ k = 5 \/ k = 6
              \/ k = 7 \/ k = 8 \/ k = 9) by lia.
  repeat (destruct E as [-> | E]; [reflexivity|]). now subst.
Qed.

Lemma pad_printable (width : nat) (n : Z) :
  printable (JSDate.pad width n) = true.
Proof.
  induction width as [|w IH]; [reflexivity|].
  cbn [JSDate.pad]. rewrite printable_digit; [exact IH|].
  apply Z.mod_pos_bound. lia.
Qed.

Lemma format_plain (t : Z) : plain_text (JSDate.format t) = true.
Proof.
  apply printable_text; [exact plain_printable|].
  unfold JSDate.format.
  destruct (JSDate.civil_from_days (t / 86400000)) as [[y m] d].
  repeat rewrite printable_app. repeat rewrite pad_printable.
  destruct ((0 <=? y) && (y <=? 9999)); [now rewrite pad_printable|].
  destruct (y <? 0); rewrite printable_app, pad_printable; reflexivity.
Qed.

Lemma run_attribute_from (text : string) :
  forall (p : option XML.partial) (name : XML.name)
         (attrs stack : list XML.name) (closed : bool),
    text_of attribute_char p text = true ->
    XML.run (Some {| XML.parsed := {| XML.now := XML.AttrValue name attrs 34;
                                      XML.open := stack;
                                      XML.root_closed := closed |};
                     XML.pending := p |}) text
    = Some {| XML.parsed := {| XML.now := XML.AttrValue name attrs 34;
                               XML.open := stack;
                               XML.root_closed := closed |};
              XML.pending := None |}.
Proof.
  induction text as [|b text IH]; intros p name attrs stack closed Hp.
  - destruct p; [discriminate Hp | reflexivity].
  - cbn [text_of] in Hp. cbn [XML.run]. unfold XML.read.
    cbn [XML.pending XML.parsed].
    destruct (XML.feed p (JS.char_code b)) as [|q|c]; [discriminate Hp| |].
    + now apply IH.
    + apply andb_true_iff in Hp as [Hc Hp]. unfold attribute_char in Hc.
      repeat (apply andb_true_iff in Hc as [Hc ?]).
      unfold XML.step. cbn [XML.now].
      change (XML.is_char c "034") with (c =? 34) in *.
      destruct (c =? 34); [discriminate|].
      destruct (XML.is_char c "<"); [discriminate|].
      destruct (XML.is_char c "&"); [discriminate|].
      rewrite Hc. unfold XML.go. cbn [XML.open XML.root_closed].
      now apply IH.
Qed.

Lemma run_attribute (text : string) (name : XML.name)
    (attrs stack : list XML.name) (closed : bool) :
  attribute_text text = true ->
  XML.run (Some {| XML.parsed := {| XML.now := XML.AttrValue name attrs 34;
                                    XML.open := stack;
                                    XML.root_closed := closed |};
                   XML.pending := None |}) text
  = Some {| XML.parsed := {| XML.now := XML.AttrValue name attrs 34;
                             XML.open := stack;
                             XML.root_closed := closed |};
            XML.pending := None |}.
Proof. apply run_attribute_from. Qed.

(** Runs the automaton over the literal text that comes next. *)
Ltac literal :=
  match goal with
  | |- context [XML.run (Some (XML.Build_reader ?s ?p)) ?text] =>
      let r := eval vm_compute in
                 (XML.run (Some (XML.Build_reader s p)) text) in
      change (XML.run (Some (XML.Build_reader s p)) text) with r
  end.

(** Runs it over character data. *)
Ltac characters H :=
  match goal with
  | |- context [XML.run
                  (Some (XML.Build_reader
                           (XML.Build_state (XML.Text ?b) (?top :: ?below) ?c)
                           None)) ?text] =>
      let b' := fresh "brackets" in
      let E := fresh "E" in
      destruct (run_plain text None b top below c H) as [b' E];
      rewrite E; clear E
  end.

Lemma run_track_point (lat lon timestamp : string) (ele : option string) :
  attribute_text lat = true ->
  attribute_text lon = true ->
  plain_text timestamp = true ->
  (forall e, ele = Some e -> plain_text e = true) ->
  XML.run (Some in_segment) (track_point lat lon timestamp ele)
  = Some in_segment.
Proof.
  intros Hlat Hlon Htime Hele. unfold track_point, in_segment.
  destruct ele as [e|]; repeat rewrite run_app.
  - do 2 literal. rewrite (run_attribute lat) by exact Hlat.
    do 3 literal. rewrite (run_attribute lon) by exact Hlon.
    do 4 literal. characters Htime.
    do 3 literal. characters (Hele e eq_refl).
    do 4 literal. reflexivity.
  - do 2 literal. rewrite (run_attribute lat) by exact Hlat.
    do 3 literal. rewrite (run_attribute lon) by exact Hlon.
    do 4 literal. characters Htime.
    do 5 literal. reflexivity.
Qed.

Lemma run_track_points (texts : list string) :
  Forall (fun text => XML.run (Some in_segment) text = Some in_segment) texts ->
  XML.run (Some in_segment) (fold_right append "" texts) = Some in_segment.
Proof.
  induction 1 as [|text texts Htext _ IH]; [reflexivity|].
  cbn [fold_right]. now rewrite run_app, Htext.
Qed.

Lemma track_log_well_formed (env : Http.Env) (title started : string)
    (texts : list string) :
  env "APP_NAME" = None ->
  env "TITLE_PREFIX" = None ->
  plain_text title = true ->
  plain_text started = true ->
  Forall (fun text => XML.run (Some in_segment) text = Some in_segment) texts ->
  XML.well_formed (track_log env title started texts) = true.
Proof.
  intros Ha Hp Htitle Hstarted Htexts.
  unfold XML.well_formed, track_log, titlePrefix. rewrite Hp.
  repeat rewrite run_app. rewrite (run_gpx_head env Ha Hp).
  unfold in_metadata_name. characters Htitle. do 3 literal. characters Hstarted.
  do 8 literal. characters Htitle. do 4 literal.
  match goal with
  | |- context [XML.run (Some ?r) (fold_right append "" texts)] =>
      change r with in_segment
  end.
  rewrite (run_track_points texts Htexts).
  unfold in_segment. do 5 literal. reflexivity.
Qed.

Section PlainTrackLog.

Variable number : Type.
Variable Number_toString : number -> string.
Variable Date_parse : string -> option Z.

(** X23.  A track log of plain texts is well-formed XML.  With the default
    application name and title prefix, under the conditions in which
    [generateGPX] writes one track point per sample, and when the activity
    name is plain character data and the texts of the coordinates and
    altitudes need no escaping, the file [generateGPX] returns is
    well-formed. *)
Theorem plain_track_log_is_well_formed (env : Http.Env)
    (activity : MirrorActivity.StravaActivity number)
    (streams : MirrorActivity.StravaStream number)
    (points : list (number * number)) (offsets : list Z) (start : Z) :
  env "APP_NAME" = None ->
  env "TITLE_PREFIX" = None ->
  MirrorActivity.latlng streams = Some points ->
  MirrorActivity.time streams = Some offsets ->
  List.length offsets = List.length points ->
  Date_parse (MirrorActivity.start_date activity) = Some start ->
  in_range start ->
  (forall t, In t offsets -> in_range (start + t * 1000)) ->
  (forall data, MirrorActivity.altitude streams = Some data ->
                List.length data = List.length points) ->
  plain_text (MirrorActivity.name activity) = true ->
  (forall lat lon, In (lat, lon) points ->
     attribute_text (Number_toString lat) = true
     /\ attribute_text (Number_toString lon) = true) ->
  (forall data x, MirrorActivity.altitude streams = Some data -> In x data ->
     plain_text (Number_toString x) = true) ->
  exists gpx,
    MirrorActivity.generateGPX number Number_toString Date_parse env activity
      streams = Ok gpx
    /\ XML.well_formed gpx = true.
Proof.
  intros Ha Hpre Hp Ho Hlen Hd Hs Hr Halt Hname Hcoord Hele.
  destruct (generateGPX_track_points number Number_toString Date_parse env
              activity streams points offsets start Hp Ho Hlen Hd Hs Hr Halt)
    as (texts & Hgpx & Hn & Hnth).
  exists (track_log env (MirrorActivity.name activity) (JSDate.format start)
            texts).
  split; [exact Hgpx|].
  apply track_log_well_formed; try assumption; [apply format_plain|].
  apply Forall_forall. intros text Hin.
  apply In_nth_error in Hin as [i Hi].
  assert (Hi' : (i < List.length texts)%nat)
    by (apply nth_error_Some; congruence).
  destruct (nth_error points i) as [[lat lon]|] eqn:Epoint;
    [|apply nth_error_None in Epoint; lia].
  destruct (nth_error offsets i) as [t|] eqn:Eoffset;
    [|apply nth_error_None in Eoffset; lia].
  rewrite (Hnth i lat lon t Epoint Eoffset) in Hi. injection Hi as <-.
  destruct (Hcoord lat lon (nth_error_In _ _ Epoint)) as [Hlat Hlon].
  apply run_track_point; try assumption; [apply format_plain|].
  intros e He. unfold altitude_at in He.
  destruct (MirrorActivity.altitude streams) as [data|] eqn:Edata;
    [|discriminate He].
  destruct (nth_error data i) as [x|] eqn:Ex; [|discriminate He].
  cbn [option_map] in He. injection He as <-.
  exact (Hele data x eq_refl (nth_error_In _ _ Ex)).
Qed.

End PlainTrackLog.

Lemma plain_track_log_is_well_formed_witness :
  exists gpx,
    MirrorActivity.generateGPX Sample.decimal Sample.decimal_text
      Sample.sample_date (fun _ => None) (Sample.run "Morning Run")
      (Sample.samples (Some ["400.5"; "401"; "402.25"])) = Ok gpx
    /\ XML.well_formed gpx = true.
Proof.
  apply (plain_track_log_is_well_formed Sample.decimal Sample.decimal_text
           Sample.sample_date (fun _ => None) (Sample.run "Morning Run")
           (Sample.samples (Some ["400.5"; "401"; "402.25"]))
           [("47.10", "8.50"); ("47.11", "8.51"); ("47.12", "8.52")]
           [0; 5; 65] 1714545000000); try reflexivity.
  - unfold in_range. cbn. lia.
  - intros t [<- | [<- | [<- | []]]]; unfold in_range; cbn; lia.
  - intros data H. injection H as <-. reflexivity.
  - intros lat lon [H | [H | [H | []]]]; injection H as <- <-;
      split; reflexivity.
  - intros data x H. injection H as <-.
    intros [<- | [<- | [<- | []]]]; reflexivity.
Defined.

(** ** The token-refresh helper *)

Section RefreshOutcome.

Variable number : Type.

Lemma update_tokens_rows (key access refresh : string) (expires : Z)
    (rows : list Supabase.Connection) :
  List.length (Supabase.update_tokens key access refresh expires rows)
  = List.length rows
  /\ forall (i : nat) (r : Supabase.Connection),
       nth_error rows i = Some r ->
       exists r',
         nth_error (Supabase.update_tokens key access refresh expires rows) i
         = Some r'
         /\ identity r' = identity r
         /\ (Supabase.id r = key ->
             Supabase.access_token r' = access
             /\ Supabase.refresh_token r' = refresh
             /\ Supabase.expires_at r' = expires)
         /\ (Supabase.id r <> key -> r' = r).
Proof.
  unfold Supabase.update_tokens. split; [apply length_map|].
  intros i r Hr. eexists. split; [now rewrite nth_error_map, Hr|].
  destruct (String.eqb_spec (Supabase.id r) key) as [E|N].
  - split; [reflexivity|]. split; [intros _; repeat split|].
    intros N. contradiction.
  - split; [reflexivity|]. split; [intros E; contradiction|]. reflexivity.
Qed.

(** X24.  What the refresh helper leaves behind.  A token that expires more
    than 300 s from now is returned with no call and no write.  Otherwise
    exactly one call goes to the token endpoint, with the stored refresh
    token.  When the provider answers with a new triple, the new access
    token is returned; if the store performs the update, every row with the
    connection's id then holds the new access token, refresh token and
    expiry, with its other columns as they were, and every other row is
    unchanged; if the store fails the update, the table is as it was.  Any
    other answer of the provider throws and writes nothing.  The mirrors
    are never touched. *)
Theorem refresh_outcome (connection : Supabase.Connection)
    (w : MirrorActivity.World number) :
  let now := MirrorActivity.now_ms w / 1000 in
  let request := refresh_request w connection in
  let rows := Supabase.connections (MirrorActivity.store w) in
  (now + 300 < Supabase.expires_at connection ->
   MirrorActivity.refreshTokenIfNeeded connection w
   = (Ok (Supabase.access_token connection), w))
  /\ (Supabase.expires_at connection <= now + 300 ->
      let (outcome, w') :=
        MirrorActivity.refreshTokenIfNeeded connection w in
      let rows' := Supabase.connections (MirrorActivity.store w') in
      MirrorActivity.calls w'
      = (MirrorActivity.calls w ++ [MirrorActivity.TokenCall request])%list
      /\ Supabase.mirrors (MirrorActivity.store w')
         = Supabase.mirrors (MirrorActivity.store w)
      /\ match MirrorActivity.token_endpoint w request with
         | Strava.Replied (Ok tokenData) =>
             outcome = Ok (Strava.access_token tokenData)
             /\ (MirrorActivity.faults w Supabase.UpdateConnection = true ->
                 rows' = rows)
             /\ (MirrorActivity.faults w Supabase.UpdateConnection = false ->
                 List.length rows' = List.length rows
                 /\ forall (i : nat) (r : Supabase.Connection),
                      nth_error rows i = Some r ->
                      exists r',
                        nth_error rows' i = Some r'
                        /\ identity r' = identity r
                        /\ (Supabase.id r = Supabase.id connection ->
                            Supabase.access_token r'
                            = Strava.access_token tokenData
                            /\ Supabase.refresh_token r'
                               = Strava.refresh_token tokenData
                            /\ Supabase.expires_at r'
                               = Strava.expires_at tokenData)
                        /\ (Supabase.id r <> Supabase.id connection ->
                            r' = r))
         | Strava.NotOk _ _ =>
             outcome = Throw (Error "Failed to refresh token")
             /\ rows' = rows
         | Strava.Rejected => outcome = Throw NetworkError /\ rows' = rows
         | Strava.Replied (Throw e) => outcome = Throw e /\ rows' = rows
         end).
Proof.
  intros now request rows. split.
  - intros Hfresh. unfold MirrorActivity.refreshTokenIfNeeded.
    apply Z.ltb_lt in Hfresh. fold now. rewrite Hfresh. reflexivity.
  - intros Hstale. unfold MirrorActivity.refreshTokenIfNeeded.
    fold now. apply Z.ltb_ge in Hstale. rewrite Hstale.
    change {| Strava.client_id := MirrorActivity.env w "STRAVA_CLIENT_ID";
              Strava.client_secret :=
                MirrorActivity.env w "STRAVA_CLIENT_SECRET";
              Strava.grant_type := "refresh_token";
              Strava.code := None;
              Strava.code_verifier := None;
              Strava.refresh := Some (Supabase.refresh_token connection) |}
      with request.
    destruct (MirrorActivity.token_endpoint w request)
      as [| code text | [tokenData | e]].
    + repeat split.
    + repeat split.
    + destruct (MirrorActivity.faults w Supabase.UpdateConnection) eqn:Hfault.
      * split; [reflexivity|]. split; [reflexivity|]. split; [reflexivity|].
        split; [intros _; reflexivity|]. intros Habs. discriminate Habs.
      * split; [reflexivity|]. split; [reflexivity|]. split; [reflexivity|].
        split; [intros Habs; discriminate Habs|]. intros _.
        apply update_tokens_rows.
    + repeat split.
Qed.

End RefreshOutcome.

Lemma refresh_outcome_witness :
  let w := Sample.mirror_world Supabase.no_faults Sample.stale_store in
  MirrorActivity.refreshTokenIfNeeded Sample.human5 w = (Ok "access-5", w)
  /\ fst (MirrorActivity.refreshTokenIfNeeded Sample.stale5 w) = Ok "access-7"
  /\ exists r',
       nth_error
         (Supabase.connections
            (MirrorActivity.store
               (snd (MirrorActivity.refreshTokenIfNeeded Sample.stale5 w))))
         0
       = Some r'
       /\ Supabase.access_token r' = "access-7"
       /\ Supabase.refresh_token r' = "refresh-7"
       /\ Supabase.expires_at r' = 1700021600.
Proof.
  cbv zeta.
  set (w := Sample.mirror_world Supabase.no_faults Sample.stale_store).
  split.
  - apply (proj1 (refresh_outcome Sample.decimal Sample.human5 w)).
    vm_compute. reflexivity.
  - pose proof (proj2 (refresh_outcome Sample.decimal Sample.stale5 w)) as H.
    cbv zeta in H.
    destruct (MirrorActivity.refreshTokenIfNeeded Sample.stale5 w)
      as [outcome w'].
    assert (Hstale : Supabase.expires_at Sample.stale5
                     <= MirrorActivity.now_ms w / 1000 + 300)
      by (vm_compute; discriminate).
    destruct (H Hstale) as (_ & _ & Hreply).
    change (MirrorActivity.token_endpoint w
              (refresh_request w Sample.stale5))
      with (@Strava.Replied Strava.TokenData (Ok Sample.tokens7)) in Hreply.
    cbv iota in Hreply. destruct Hreply as (Hout & _ & Hrows).
    split; [exact Hout|]. cbn [snd].
    destruct (Hrows eq_refl) as [_ Hrow].
    destruct (Hrow 0%nat Sample.stale5 eq_refl) as (r' & Hnth & _ & Hnew & _).
    exists r'. split; [exact Hnth|]. exact (Hnew eq_refl).
Defined.
